(** * qrcode_mcp: the style-to-rendering pipeline of [generator.py]

    A shallow embedding of [src/qrcode_mcp/generator.py] and the properties
    its specification states about it.

    Conventions of the embedding.
    - A Python [str] is, in the operations, a [string] of 8-bit characters
      read as the code points 0..255.  The model is exact on ASCII text.
      [PyStr.upper] and [PyStr.lower] change the ASCII letters only: they
      are [str.upper] and [str.lower] on ASCII strings.  Python also changes
      the case of letters above 127 and turns a sharp s into SS; no string
      with such a character is or becomes a key of a catalogue, so no lookup
      is affected, but the upper-case echo of such a key differs.
    - The colour parser is also given on strings of arbitrary code points
      ([Unicode._parse_color]), where [int] reads the decimal digits of
      every script; the two parsers agree on the code points below 256
      ([parse_color_latin1]).
    - A Python [int] is a [Z], a [float] is a binary64 [float] of the
      kernel ([PrimFloat]).
    - An exception is a value of [exn]; a computation that may raise and
      that reads or writes the file system is a function
      [World -> (exn + A) * World].
    - The QR encoder ([qrcode]) and the imaging library ([PIL]) are not part
      of the repository: they are the fields of a record [Env]. *)

From Stdlib Require Import ZArith NArith Ascii String List Floats Lia Bool.
From stdpp Require Import base option list gmap strings.

Local Open Scope string_scope.
Local Open Scope Z_scope.

(** ** Python strings *)

Module PyStr.

Definition code (c : ascii) : N := N_of_ascii c.

Definition in_range (lo hi : N) (c : ascii) : bool :=
  (lo <=? code c)%N && (code c <=? hi)%N.

(** [str.isspace] on the code points 0..255: the characters that
    [str.strip()] removes. *)
Definition is_space (c : ascii) : bool :=
  in_range 9 13 c || in_range 28 32 c
  || (code c =? 133)%N || (code c =? 160)%N.

(** The characters [int(s, 16)] skips around the literal. *)
Definition is_int_space (c : ascii) : bool :=
  in_range 9 13 c || (code c =? 32)%N
  || (code c =? 133)%N || (code c =? 160)%N.

Definition is_lower (c : ascii) : bool := in_range 97 122 c.
Definition is_upper (c : ascii) : bool := in_range 65 90 c.

Definition upper_char (c : ascii) : ascii :=
  if is_lower c then ascii_of_N (code c - 32) else c.

Definition lower_char (c : ascii) : ascii :=
  if is_upper c then ascii_of_N (code c + 32) else c.

Fixpoint map_chars (f : ascii -> ascii) (s : string) : string :=
  match s with
  | EmptyString => EmptyString
  | String c s' => String (f c) (map_chars f s')
  end.

(** [s.upper()] and [s.lower()] of an ASCII string; the characters above
    127 are left as they are *)
Definition upper (s : string) : string := map_chars upper_char s.
Definition lower (s : string) : string := map_chars lower_char s.

(** [s.lstrip(chars)] with the set of characters given as a predicate *)
Fixpoint lstrip_by (p : ascii -> bool) (s : string) : string :=
  match s with
  | EmptyString => EmptyString
  | String c s' => if p c then lstrip_by p s' else s
  end.

Fixpoint rstrip_by (p : ascii -> bool) (s : string) : string :=
  match s with
  | EmptyString => EmptyString
  | String c s' =>
      match rstrip_by p s' with
      | EmptyString => if p c then EmptyString else String c EmptyString
      | r => String c r
      end
  end.

(** [s.strip()] *)
Definition strip (s : string) : string :=
  rstrip_by is_space (lstrip_by is_space s).

(** [s.lstrip("#")] *)
Definition lstrip_hash (s : string) : string :=
  lstrip_by (fun c => (code c =? 35)%N) s.

(** ["".join(c * 2 for c in s)] *)
Fixpoint double_chars (s : string) : string :=
  match s with
  | EmptyString => EmptyString
  | String c s' => String c (String c (double_chars s'))
  end.

(** [s[i:j]] for [0 <= i <= j] *)
Definition slice (i j : nat) (s : string) : string :=
  substring i (j - i) s.

(** [sep.join(l)] *)
Fixpoint join (sep : string) (l : list string) : string :=
  match l with
  | [] => ""
  | [x] => x
  | x :: l' => x +:+ sep +:+ join sep l'
  end.

(** [repr(s)] for a string without quote, backslash or unprintable
    character (the only use is inside the message of [int]'s error). *)
Definition repr (s : string) : string := "'" +:+ s +:+ "'".

(** The value of a hexadecimal digit *)
Definition hex_digit_value (c : ascii) : option Z :=
  if in_range 48 57 c then Some (Z.of_N (code c) - 48)
  else if in_range 97 102 c then Some (Z.of_N (code c) - 87)
  else if in_range 65 70 c then Some (Z.of_N (code c) - 55)
  else None.

Definition is_hex_digit (c : ascii) : bool :=
  match hex_digit_value c with Some _ => true | None => false end.

Fixpoint all_chars (p : ascii -> bool) (s : string) : bool :=
  match s with
  | EmptyString => true
  | String c s' => p c && all_chars p s'
  end.

(** [s.isascii()] *)
Definition is_ascii (s : string) : bool :=
  all_chars (fun c => (code c <? 128)%N) s.

(** The digit loop of [int(s, 16)]: hexadecimal digits, single
    underscores allowed between two digits.  Returns the value and the
    text that follows the digits. *)
Fixpoint int_scan (s : string) (prev_us : bool) (ndig : nat) (acc : Z)
  : option (Z * string) :=
  let finish :=
    if prev_us then None
    else match ndig with O => None | S _ => Some (acc, s) end in
  match s with
  | EmptyString => finish
  | String c s' =>
      if (code c =? 95)%N then
        if prev_us then None else int_scan s' true ndig acc
      else
        match hex_digit_value c with
        | Some d => int_scan s' false (S ndig) (16 * acc + d)
        | None => finish
        end
  end.

Definition is_char (n : N) (c : ascii) : bool := (code c =? n)%N.

(** [int(s, 16)] on a string of code points below 256: surrounding white
    space, an optional sign, an optional [0x] prefix (after which one
    underscore may come), the digits.  [None] stands for the [ValueError]
    that [int] raises.  [Unicode.int16] below is [int(s, 16)] on every
    string. *)
Definition int16 (s : string) : option Z :=
  let s1 := lstrip_by is_int_space s in
  let '(sign, s2) :=
    match s1 with
    | String c r =>
        if is_char 43 c then (1, r)
        else if is_char 45 c then (-1, r)
        else (1, s1)
    | EmptyString => (1, s1)
    end in
  let s3 :=
    match s2 with
    | String c0 (String c1 r) =>
        if is_char 48 c0 && (is_char 120 c1 || is_char 88 c1) then
          match r with
          | String c2 r' => if is_char 95 c2 then r' else r
          | EmptyString => r
          end
        else s2
    | _ => s2
    end in
  match s3 with
  | String c _ =>
      if is_char 95 c then None
      else
        match int_scan s3 false 0 0 with
        | Some (v, rest) =>
            if all_chars is_int_space rest then Some (sign * v) else None
        | None => None
        end
  | EmptyString => None
  end.

End PyStr.

(** ** Exceptions and results *)

Inductive exn : Type :=
| ValueError (msg : string)
| TypeError (msg : string)
| IndexError (msg : string)
| KeyError (key : string)
| OverflowError (msg : string)
| FileNotFoundError (msg : string)
| FileExistsError (path : string)
| NotADirectoryError (path : string)
| IsADirectoryError (path : string)
| DataOverflowError
| UnidentifiedImageError (path : string)
| LibraryError (msg : string).

(** A value or the exception raised instead of it *)
Definition result (A : Type) : Type := exn + A.

Definition Ok {A} (a : A) : result A := inr a.
Definition Raise {A} (e : exn) : result A := inl e.

Definition rbind {A B} (r : result A) (k : A -> result B) : result B :=
  match r with
  | inl e => inl e
  | inr a => k a
  end.

Declare Scope result_scope.
Delimit Scope result_scope with result.
Notation "'try' x := r 'in' k" := (rbind r (fun x => k))
  (at level 10, x pattern, r at level 100, k at level 200) : result_scope.

(** ** Constants: the style catalogues *)

Inductive ECLevel : Type :=
| ERROR_CORRECT_L | ERROR_CORRECT_M | ERROR_CORRECT_Q | ERROR_CORRECT_H.

Inductive ModuleDrawer : Type :=
| SquareModuleDrawer | GappedSquareModuleDrawer | CircleModuleDrawer
| RoundedModuleDrawer | VerticalBarsDrawer | HorizontalBarsDrawer.

(** The colour-mask classes, before they are instantiated *)
Inductive ColorMaskClass : Type :=
| SolidFillColorMask_class | RadialGradiantColorMask_class
| SquareGradiantColorMask_class | HorizontalGradiantColorMask_class
| VerticalGradiantColorMask_class.

Definition SUPPORTED_FORMATS : list string := ["png"; "svg"].

(** A Python [dict] with string keys, in insertion order *)
Definition dict (V : Type) : Type := list (string * V).

Fixpoint dict_lookup {V} (d : dict V) (k : string) : option V :=
  match d with
  | [] => None
  | (k', v) :: d' => if String.eqb k' k then Some v else dict_lookup d' k
  end.

(** [k in d] *)
Definition dict_mem {V} (d : dict V) (k : string) : bool :=
  match dict_lookup d k with Some _ => true | None => false end.

(** [d.get(k, default)] *)
Definition dict_get {V} (d : dict V) (k : string) (default : V) : V :=
  match dict_lookup d k with Some v => v | None => default end.

(** Iterating over a [dict] yields its keys *)
Definition dict_keys {V} (d : dict V) : list string := map fst d.

Definition ERROR_CORRECTION_LEVELS : dict ECLevel :=
  [ ("L", ERROR_CORRECT_L); ("M", ERROR_CORRECT_M);
    ("Q", ERROR_CORRECT_Q); ("H", ERROR_CORRECT_H) ].

Definition MODULE_SHAPES : dict ModuleDrawer :=
  [ ("square", SquareModuleDrawer); ("gapped", GappedSquareModuleDrawer);
    ("circle", CircleModuleDrawer); ("rounded", RoundedModuleDrawer);
    ("vertical_bars", VerticalBarsDrawer);
    ("horizontal_bars", HorizontalBarsDrawer) ].

Definition GRADIENT_STYLES : dict ColorMaskClass :=
  [ ("solid", SolidFillColorMask_class);
    ("radial", RadialGradiantColorMask_class);
    ("square", SquareGradiantColorMask_class);
    ("horizontal", HorizontalGradiantColorMask_class);
    ("vertical", VerticalGradiantColorMask_class) ].

(** ** Helpers: [_parse_color] *)

Definition Color : Type := Z * Z * Z.

(** [int(s, 16)] with its exception *)
Definition int_base16 (s : string) : result Z :=
  match PyStr.int16 s with
  | Some v => Ok v
  | None =>
      Raise (ValueError ("invalid literal for int() with base 16: "
                         +:+ PyStr.repr s))
  end.

Definition invalid_color_message (color : string) : string :=
  "Invalid color: '#" +:+ color +:+ "'. Use hex format like #FF0000 or #F00.".

Definition _parse_color (color : string) : result Color :=
  let color := PyStr.lstrip_hash (PyStr.strip color) in
  let color :=
    if (String.length color =? 3)%nat then PyStr.double_chars color
    else color in
  if negb (String.length color =? 6)%nat then
    Raise (ValueError (invalid_color_message color))
  else
    (try r := int_base16 (PyStr.slice 0 2 color) in
     try g := int_base16 (PyStr.slice 2 4 color) in
     try b := int_base16 (PyStr.slice 4 6 color) in
     Ok (r, g, b))%result.

(** ** The colour parser as the specification words it *)

(** A string of hexadecimal digits *)
Definition is_hex_string (s : string) : bool :=
  PyStr.all_chars PyStr.is_hex_digit s.

(** Hex-decoding one pair of digits *)
Definition hex_pair_value (hi lo : ascii) : option Z :=
  match PyStr.hex_digit_value hi, PyStr.hex_digit_value lo with
  | Some h, Some l => Some (16 * h + l)
  | _, _ => None
  end.

(** Hex-decoding the three consecutive digit pairs of [RRGGBB] *)
Definition pairwise_hex_decode (s : string) : option Color :=
  match s with
  | String r1 (String r0 (String g1 (String g0 (String b1 (String b0
      EmptyString))))) =>
      match hex_pair_value r1 r0, hex_pair_value g1 g0,
            hex_pair_value b1 b0 with
      | Some r, Some g, Some b => Some (r, g, b)
      | _, _, _ => None
      end
  | _ => None
  end.

(** [expand]: the 6-digit string that duplicates each digit of [s] *)
Fixpoint expand (s : string) : string :=
  match s with
  | EmptyString => EmptyString
  | String c s' => String c (String c (expand s'))
  end.

(** Stripping an optional leading [#], as the specification says it *)
Definition strip_optional_hash (s : string) : string :=
  match s with
  | String c s' => if PyStr.is_char 35 c then s' else s
  | EmptyString => EmptyString
  end.

(** What the parser itself removes: surrounding white space, then every
    leading [#]. *)
Definition normalized_color (s : string) : string :=
  PyStr.lstrip_hash (PyStr.strip s).

Definition in_channel_range (c : Color) : Prop :=
  let '(r, g, b) := c in
  0 <= r <= 255 /\ 0 <= g <= 255 /\ 0 <= b <= 255.

(** An exception that is a [ValueError] *)
Definition is_ValueError {A} (r : result A) : Prop :=
  exists msg, r = Raise (ValueError msg).

(** Some character of [s] fails [p] *)
Definition some_char_not (p : ascii -> bool) (s : string) : Prop :=
  PyStr.all_chars p s = false.

(** The characters a two-character literal of [int(_, 16)] may hold *)
Definition is_int_literal_char (c : ascii) : bool :=
  PyStr.is_hex_digit c || PyStr.is_int_space c
  || PyStr.is_char 43 c || PyStr.is_char 45 c.

(** The inputs that, by the specification, the parser has to reject: after
    an optional leading [#] is stripped, the length is neither 3 nor 6, or
    some character is not a hexadecimal digit. *)
Definition specified_invalid_color (s : string) : Prop :=
  let t := strip_optional_hash s in
  (String.length t <> 3%nat /\ String.length t <> 6%nat)
  \/ some_char_not PyStr.is_hex_digit t.

(** The 256 characters, for properties checked character by character *)
Definition all_ascii_chars : list ascii := map ascii_of_nat (seq 0 256).

(** ** The colour parser on strings of any code points

    [_parse_color] above reads a [str] whose code points are below 256.  A
    Python [str] holds any code points, and [int] reads the decimal digits
    of every script as digits.  Here is the same function on such strings.
    The decimal value of a character ([Py_UNICODE_TODECIMAL]) comes from the
    Unicode database of the interpreter and grows with its version: it is a
    parameter of the parser. *)

Module Unicode.

(** A [str]: its code points *)
Definition str : Type := list N.

(** A string of code points below 256 *)
Definition of_string (s : string) : str :=
  map N_of_ascii (list_ascii_of_string s).

Fixpoint to_string (s : str) : string :=
  match s with
  | [] => EmptyString
  | c :: s' => String (ascii_of_N c) (to_string s')
  end.

Definition in_range (lo hi c : N) : bool := (lo <=? c)%N && (c <=? hi)%N.

(** [Py_UNICODE_ISSPACE]: the characters that [str.strip()] removes *)
Definition is_space (c : N) : bool :=
  in_range 9 13 c || in_range 28 32 c || (c =? 133)%N || (c =? 160)%N
  || (c =? 5760)%N || in_range 8192 8202 c || in_range 8232 8233 c
  || (c =? 8239)%N || (c =? 8287)%N || (c =? 12288)%N.

Fixpoint lstrip_by (p : N -> bool) (s : str) : str :=
  match s with
  | [] => []
  | c :: s' => if p c then lstrip_by p s' else s
  end.

Fixpoint rstrip_by (p : N -> bool) (s : str) : str :=
  match s with
  | [] => []
  | c :: s' =>
      match rstrip_by p s' with
      | [] => if p c then [] else [c]
      | r => c :: r
      end
  end.

(** [s.strip()] *)
Definition strip (s : str) : str := rstrip_by is_space (lstrip_by is_space s).

(** [s.lstrip("#")] *)
Definition lstrip_hash (s : str) : str := lstrip_by (N.eqb 35) s.

(** ["".join(c * 2 for c in s)] *)
Fixpoint double_chars (s : str) : str :=
  match s with
  | [] => []
  | c :: s' => c :: c :: double_chars s'
  end.

(** [s[i:j]] for [0 <= i <= j] *)
Definition slice (i j : nat) (s : str) : str := firstn (j - i) (skipn i s).

(** [s.isascii()] *)
Definition is_ascii (s : str) : bool := forallb (fun c => (c <? 128)%N) s.

(** The [ValueError]s of the parser: the one it raises itself, with its
    message, and the one [int(literal, 16)] raises, whose message shows
    [repr(literal)]. *)
Inductive ValueError : Type :=
| Message (msg : str)
| InvalidLiteral (literal : str).

Definition result (A : Type) : Type := ValueError + A.

Definition invalid_color_message (color : str) : str :=
  (of_string "Invalid color: '#" ++ color
   ++ of_string "'. Use hex format like #FF0000 or #F00.")%list.

Definition is_hex_digit (c : N) : bool :=
  in_range 48 57 c || in_range 65 70 c || in_range 97 102 c.

Definition is_sign (c : N) : bool := (c =? 43)%N || (c =? 45)%N.

(** The white space that [int] skips around a literal: that of
    [str.strip()] without the four separators 28..31 *)
Definition is_int_space (c : N) : bool :=
  is_space c && negb (in_range 28 31 c).

Section Int.

(** [Py_UNICODE_TODECIMAL] *)
Variable todecimal : N -> option N.

Definition is_decimal (c : N) : bool :=
  match todecimal c with Some _ => true | None => false end.

(** What [int] does to a string that is not all ASCII before it reads it
    ([_PyUnicode_TransformDecimalAndSpaceToASCII]): a character below 127
    stays, white space becomes a blank, a decimal digit of any script its
    ASCII digit, and the text ends with a question mark at the first
    character that is none of these. *)
Definition to_ascii_char (c : N) : option ascii :=
  if (c <? 127)%N then Some (ascii_of_N c)
  else if is_space c then Some " "%char
  else
    match todecimal c with
    | Some d => Some (ascii_of_N (48 + d))
    | None => None
    end.

Fixpoint transform (s : str) : string :=
  match s with
  | [] => EmptyString
  | c :: s' =>
      match to_ascii_char c with
      | Some a => String a (transform s')
      | None => "?"
      end
  end.

Definition to_ascii (s : str) : string :=
  if is_ascii s then to_string s else transform s.

(** [int(s, 16)], [None] for its [ValueError] *)
Definition int16 (s : str) : option Z := PyStr.int16 (to_ascii s).

Definition int_base16 (s : str) : result Z :=
  match int16 s with
  | Some v => inr v
  | None => inl (InvalidLiteral s)
  end.

Definition _parse_color (color : str) : result Color :=
  let color := lstrip_hash (strip color) in
  let color :=
    if (length color =? 3)%nat then double_chars color else color in
  if negb (length color =? 6)%nat then
    inl (Message (invalid_color_message color))
  else
    match int_base16 (slice 0 2 color) with
    | inl e => inl e
    | inr r =>
        match int_base16 (slice 2 4 color) with
        | inl e => inl e
        | inr g =>
            match int_base16 (slice 4 6 color) with
            | inl e => inl e
            | inr b => inr (r, g, b)
            end
        end
    end.

(** A character [int(_, 16)] reads as a digit *)
Definition is_digit (c : N) : bool := is_hex_digit c || is_decimal c.

(** A character that a two-character literal of [int(_, 16)] may hold *)
Definition is_literal_char (c : N) : bool :=
  is_digit c || is_int_space c || is_sign c.

End Int.

(** The code point of the digit zero of each script with decimal digits
    in Unicode 14.0 (the database of CPython 3.11); the nine code points
    after it are the digits one to nine. *)
Definition decimal_zeros : list N :=
  [ 48; 1632; 1776; 1984; 2406; 2534; 2662; 2790; 2918; 3046; 3174; 3302;
    3430; 3558; 3664; 3792; 3872; 4160; 4240; 6112; 6160; 6470; 6608; 6784;
    6800; 6992; 7088; 7232; 7248; 42528; 43216; 43264; 43472; 43504; 43600;
    44016; 65296; 66720; 68912; 69734; 69872; 69942; 70096; 70384; 70736;
    70864; 71248; 71360; 71472; 71904; 72016; 72784; 73040; 73120; 92768;
    92864; 93008; 120782; 120792; 120802; 120812; 120822; 123200; 123632;
    125264; 130032 ]%N.

(** [Py_UNICODE_TODECIMAL] in Unicode 14.0 *)
Definition todecimal_14 (c : N) : option N :=
  match List.find (fun z => in_range z (z + 9) c) decimal_zeros with
  | Some z => Some (c - z)%N
  | None => None
  end.

End Unicode.

(** The two parsers end alike: with the same triple, or both with a
    [ValueError] *)
Definition same_outcome (r : result Color) (u : Unicode.result Color)
  : Prop :=
  match r, u with
  | inr c, inr c' => c = c'
  | inl (ValueError _), inl _ => True
  | _, _ => False
  end.

(** ** Images *)

Definition RGBA : Type := Z * Z * Z * Z.

(** A pixel buffer in row-major order *)
Record Image (P : Type) : Type := mkImage {
  im_width : Z;
  im_height : Z;
  im_data : list P;
}.
Arguments mkImage {P} _ _ _.
Arguments im_width {P} _.
Arguments im_height {P} _.
Arguments im_data {P} _.

Definition image_wf {P} (img : Image P) : Prop :=
  0 <= im_width img /\ 0 <= im_height img /\
  length (im_data img) = Z.to_nat (im_width img * im_height img).

(** An image of either of the two modes the code handles *)
Inductive AnyImage : Type :=
| RGBImage (img : Image Color)
| RGBAImage (img : Image RGBA).

(** [Image.new(mode, (w, h), fill)] *)
Definition Image_new {P} (w h : Z) (fill : P) : Image P :=
  mkImage w h (replicate (Z.to_nat (w * h)) fill).

(** [img.convert("RGBA")] of an RGB image: every pixel opaque *)
Definition convert_RGB_to_RGBA (img : Image Color) : Image RGBA :=
  mkImage (im_width img) (im_height img)
    (map (fun '(r, g, b) => (r, g, b, 255)) (im_data img)).

(** [img.convert("RGB")] of an RGBA image: the alpha band is dropped *)
Definition convert_RGBA_to_RGB (img : Image RGBA) : Image Color :=
  mkImage (im_width img) (im_height img)
    (map (fun '(r, g, b, _) => (r, g, b)) (im_data img)).

Definition convert_RGBA (img : AnyImage) : Image RGBA :=
  match img with
  | RGBImage i => convert_RGB_to_RGBA i
  | RGBAImage i => i
  end.

Definition pixel_index {P} (img : Image P) (x y : Z) : nat :=
  Z.to_nat (y * im_width img + x).

Definition in_image {P} (img : Image P) (x y : Z) : bool :=
  (0 <=? x) && (x <? im_width img) && (0 <=? y) && (y <? im_height img).

(** [pixels[x, y]] *)
Definition getpixel {P} (img : Image P) (x y : Z) : result P :=
  if in_image img x y then
    match im_data img !! pixel_index img x y with
    | Some p => Ok p
    | None => Raise (IndexError "image index out of range")
    end
  else Raise (IndexError "image index out of range").

(** [pixels[x, y] = p] *)
Definition putpixel {P} (img : Image P) (x y : Z) (p : P)
  : result (Image P) :=
  if in_image img x y then
    Ok (mkImage (im_width img) (im_height img)
          (<[pixel_index img x y := p]> (im_data img)))
  else Raise (IndexError "image index out of range").

(** [range(n)] *)
Definition py_range (n : Z) : list Z := map Z.of_nat (seq 0 (Z.to_nat n)).

(** [for a in l: s = body(a, s)], stopping at the first exception *)
Fixpoint for_each {A S} (l : list A) (body : A -> S -> result S) (s : S)
  : result S :=
  match l with
  | [] => Ok s
  | a :: l' => rbind (body a s) (for_each l' body)
  end.

(** ** Floats *)

(** [min(a, b)] and [max(a, b)] of two floats: the first argument is kept
    unless the second is strictly smaller (larger). *)
Definition py_min (a b : float) : float := if PrimFloat.ltb b a then b else a.
Definition py_max (a b : float) : float := if PrimFloat.ltb a b then b else a.

(** [float(n)], exact for [|n| < 2^53] and correctly rounded for
    [|n| < 2^63]; the sizes of images are far below. *)
Definition float_of_int (n : Z) : float :=
  if n <? 0 then PrimFloat.opp (PrimFloat.of_uint63 (Uint63.of_Z (- n)))
  else PrimFloat.of_uint63 (Uint63.of_Z n).

(** [int(f)]: truncation towards zero *)
Definition int_of_float (f : float) : result Z :=
  match Prim2SF f with
  | S754_zero _ => Ok 0
  | S754_finite s m e =>
      let v := if 0 <=? e then Z.pos m * 2 ^ e else Z.pos m / 2 ^ (- e) in
      Ok (if s then - v else v)
  | S754_infinity _ =>
      Raise (OverflowError "cannot convert float infinity to integer")
  | S754_nan => Raise (ValueError "cannot convert float NaN to integer")
  end.

(** ** The world: file system, clock, requests to the encoder *)

(** What a file holds: an image written in some format, or something else *)
Inductive FileData : Type :=
| ImageFile (format : string) (img : AnyImage)
| OtherFile.

(** The arguments of [qrcode.QRCode(version=None, error_correction=...,
    box_size=..., border=...)] followed by [add_data(data)] *)
Record QRRequest : Type := mkQRRequest {
  req_data : string;
  req_error_correction : ECLevel;
  req_box_size : Z;
  req_border : Z;
}.

Record World : Type := mkWorld {
  fs_dirs : gset string;
  fs_files : gmap string FileData;
  clock : nat;
  qr_requests : list QRRequest;
}.

(** A computation that reads and writes the world and may raise *)
Definition M (A : Type) : Type := World -> result A * World.

Definition ret {A} (a : A) : M A := fun w => (Ok a, w).

Definition raise {A} (e : exn) : M A := fun w => (Raise e, w).

Definition lift {A} (r : result A) : M A := fun w => (r, w).

Definition bind {A B} (m : M A) (k : A -> M B) : M B :=
  fun w =>
    match m w with
    | (inl e, w') => (inl e, w')
    | (inr a, w') => k a w'
    end.

Declare Scope world_scope.
Delimit Scope world_scope with world.
Notation "'run' x := m 'in' k" := (bind m (fun x => k))
  (at level 10, x pattern, m at level 100, k at level 200) : world_scope.

(** *** Paths *)

(** The directories above [s]: the prefixes of [s] that end before a
    separator.  [pre] is the part already read. *)
Fixpoint path_prefixes (pre s : string) : list string :=
  match s with
  | EmptyString => []
  | String c s' =>
      if PyStr.is_char 47 c then
        match pre with
        | EmptyString => path_prefixes (String c EmptyString) s'
        | _ => pre :: path_prefixes (pre +:+ String c EmptyString) s'
        end
      else path_prefixes (pre +:+ String c EmptyString) s'
  end.

Definition path_parents (p : string) : list string := path_prefixes "" p.

(** [a / b] on paths that are already in normal form *)
Definition path_join (a b : string) : string :=
  match b with
  | String c _ => if PyStr.is_char 47 c then b else a +:+ "/" +:+ b
  | EmptyString => a
  end.

(** [p.is_file()] *)
Definition is_file (p : string) : M bool :=
  fun w => (Ok (bool_decide (p ∈ dom (fs_files w))), w).

(** [p.mkdir(parents=True, exist_ok=True)]: fails when a file stands where
    a directory is wanted, creates what is missing otherwise. *)
Definition mkdir_parents (p : string) : M unit :=
  fun w =>
    match List.find (fun d => bool_decide (d ∈ dom (fs_files w)))
            (path_parents p) with
    | Some d => (Raise (NotADirectoryError d), w)
    | None =>
        if bool_decide (p ∈ dom (fs_files w)) then
          (Raise (FileExistsError p), w)
        else
          (Ok tt,
           mkWorld (fs_dirs w ∪ list_to_set (path_parents p) ∪ {[ p ]})
             (fs_files w) (clock w) (qr_requests w))
    end.

(** Writing an image file: the directory above has to exist *)
Definition write_image (path format : string) (img : AnyImage) : M unit :=
  fun w =>
    if bool_decide (path ∈ fs_dirs w) then (Raise (IsADirectoryError path), w)
    else
      match last (path_parents path) with
      | Some d =>
          if bool_decide (d ∈ fs_dirs w) then
            (Ok tt,
             mkWorld (fs_dirs w) (<[path := ImageFile format img]> (fs_files w))
               (clock w) (qr_requests w))
          else (Raise (FileNotFoundError path), w)
      | None =>
          (Ok tt,
           mkWorld (fs_dirs w) (<[path := ImageFile format img]> (fs_files w))
             (clock w) (qr_requests w))
      end.

(** [Image.open(path)] *)
Definition Image_open (path : string) : M AnyImage :=
  fun w =>
    match fs_files w !! path with
    | Some (ImageFile _ img) => (Ok img, w)
    | Some OtherFile => (Raise (UnidentifiedImageError path), w)
    | None => (Raise (FileNotFoundError path), w)
    end.

(** [time.time()]: the clock is read and moves on *)
Definition time_time : M nat :=
  fun w =>
    (Ok (clock w),
     mkWorld (fs_dirs w) (fs_files w) (S (clock w)) (qr_requests w)).

(** ** The libraries: QR encoder and imaging *)

Inductive ColorMask : Type :=
| SolidFillColorMask (back_color front_color : Color)
| RadialGradiantColorMask (back_color center_color edge_color : Color)
| SquareGradiantColorMask (back_color center_color edge_color : Color)
| HorizontalGradiantColorMask (back_color left_color right_color : Color)
| VerticalGradiantColorMask (back_color top_color bottom_color : Color)
| ImageColorMask (back_color : Color) (color_img : AnyImage).

(** The symbol the encoder builds for a request *)
Record QRCode : Type := mkQRCode {
  qr_request : QRRequest;
  qr_version : Z;
  qr_modules : list (list bool);
}.

(** The functions of [qrcode] and [PIL] the generator calls.  They are not
    part of the repository; what is known of them is stated as [EnvLaws]
    below. *)
Record Env : Type := mkEnv {
  (** [QRCode(...)], [add_data], [make(fit=True)] *)
  qr_make : QRRequest -> result QRCode;
  (** [qr.make_image(image_factory=StyledPilImage, module_drawer=...,
      color_mask=...)]: an RGB image, as every back colour here is a
      triple *)
  qr_make_image : QRCode -> ModuleDrawer -> ColorMask -> result (Image Color);
  (** [logo.thumbnail((w, h), Image.LANCZOS)] *)
  pil_thumbnail : Image RGBA -> Z -> Z -> result (Image RGBA);
  (** [ImageDraw.Draw(layer).rounded_rectangle(rect, radius=..., fill=...)] *)
  pil_rounded_rectangle :
    Image RGBA -> Z * Z * Z * Z -> Z -> RGBA -> result (Image RGBA);
  (** [Image.alpha_composite(img, layer)] *)
  pil_alpha_composite : Image RGBA -> Image RGBA -> result (Image RGBA);
  (** [img.paste(logo, pos, mask)] *)
  pil_paste :
    Image RGBA -> Image RGBA -> Z * Z -> Image RGBA -> result (Image RGBA);
  (** the format in which [StyledPilImage.save(path)] writes, or the
      exception it raises for this file name *)
  styled_save_format : string -> result string;
  (** the same for [PIL.Image.save(path)] *)
  pil_save_format : string -> result string;
  (** [hashlib.md5(f"{t}".encode()).hexdigest()[:8]] of a reading of the
      clock *)
  md5_stamp : nat -> string;
}.

(** What the documentation of the libraries promises *)
Class EnvLaws (env : Env) : Prop := {
  (** a rendered image has as many pixels as its size says *)
  qr_make_image_wf :
    forall q d m img, qr_make_image env q d m = Ok img -> image_wf img;
  (** a thumbnail is never larger than the image: an image that fits in
      the box is left as it is *)
  pil_thumbnail_fits :
    forall img w h,
      im_width img <= w -> im_height img <= h ->
      pil_thumbnail env img w h = Ok img;
  (** an image that does not fit in a square box is shrunk until its
      longest side is the side of the box *)
  pil_thumbnail_shrinks :
    forall img m,
      0 < m -> m < Z.max (im_width img) (im_height img) ->
      exists img',
        pil_thumbnail env img m m = Ok img' /\
        Z.max (im_width img') (im_height img') = m;
}.

(** Process-wide configuration, read once from [pyproject.toml] *)
Record Config : Type := mkConfig {
  DEFAULT_SIZE : Z;
  DEFAULT_BORDER : Z;
  DEFAULT_FORMAT : string;
  DEFAULT_OUTPUT_DIR : string;
}.

(** A value of the result record *)
Inductive PyVal : Type :=
| VStr (s : string)
| VInt (n : Z)
| VFloat (f : float).

Definition ResultRecord : Type := dict PyVal.

(** ** Helpers of the generator *)

(** [d[k]] *)
Definition dict_subscript {V} (d : dict V) (k : string) : result V :=
  match dict_lookup d k with
  | Some v => Ok v
  | None => Raise (KeyError k)
  end.

(** [a or b] with [a] a string or [None] *)
Definition py_or (a : option string) (b : string) : string :=
  match a with
  | Some (String _ _ as s) => s
  | _ => b
  end.

(** The keyword arguments with which a gradient class is called *)
Inductive GradientKwargs : Type := LeftRight | TopBottom | CenterEdge.

(** [GradientClass(back_color=bg, ..._color=c1, ..._color=c2)] *)
Definition instantiate_mask (cls : ColorMaskClass) (kw : GradientKwargs)
    (bg c1 c2 : Color) : result ColorMask :=
  match cls, kw with
  | RadialGradiantColorMask_class, CenterEdge =>
      Ok (RadialGradiantColorMask bg c1 c2)
  | SquareGradiantColorMask_class, CenterEdge =>
      Ok (SquareGradiantColorMask bg c1 c2)
  | HorizontalGradiantColorMask_class, LeftRight =>
      Ok (HorizontalGradiantColorMask bg c1 c2)
  | VerticalGradiantColorMask_class, TopBottom =>
      Ok (VerticalGradiantColorMask bg c1 c2)
  | _, _ => Raise (TypeError "__init__() got an unexpected keyword argument")
  end.

Definition unknown_module_shape_message (module_shape : string) : string :=
  "Unknown module_shape '" +:+ module_shape +:+ "'. Choose from: "
  +:+ PyStr.join ", " (dict_keys MODULE_SHAPES).

Definition unknown_gradient_style_message (gradient_style : string)
    (valid : list string) : string :=
  "Unknown gradient_style '" +:+ gradient_style +:+ "'. Choose from: "
  +:+ PyStr.join ", " valid.

(** [valid_gradients] of [generate_gradient], a set *)
Definition valid_gradients : gset string :=
  {[ "radial"; "square"; "horizontal"; "vertical" ]}.

(** The binary64 numbers that the literals [0.1] and [0.4] denote *)
Definition float_0_1 : float := 0x1.999999999999ap-4%float.
Definition float_0_4 : float := 0x1.999999999999ap-2%float.

(** Line 410: [max(0.1, min(0.4, logo_size_ratio))] *)
Definition clamp_logo_size_ratio (logo_size_ratio : float) : float :=
  py_max float_0_1 (py_min float_0_4 logo_size_ratio).

(** Lines 622-628: the pass that makes the white pixels transparent *)
Definition make_white_transparent (img : Image RGBA) : result (Image RGBA) :=
  let width := im_width img in
  let height := im_height img in
  for_each (py_range height)
    (fun y img =>
       for_each (py_range width)
         (fun x img =>
            (try (r, g, b, a) := getpixel img x y in
             if (240 <? r) && (240 <? g) && (240 <? b)
             then putpixel img x y (r, g, b, 0)
             else Ok img)%result)
         img)
    img.

Section Generator.

Variable cfg : Config.
Variable env : Env.

Local Open Scope world_scope.

Definition _ensure_output_dir (output_dir : string) : M string :=
  let out := output_dir in
  run _ := mkdir_parents out in
  ret out.

Definition _unique_filename (output_dir prefix ext : string) : M string :=
  run t := time_time in
  let stamp := md5_stamp env t in
  ret (path_join output_dir (prefix +:+ "_" +:+ stamp +:+ "." +:+ ext)).

(** [output_dir = DEFAULT_OUTPUT_DIR if output_dir is None] *)
Definition resolve_output_dir (output_dir : option string) : string :=
  match output_dir with
  | None => DEFAULT_OUTPUT_DIR cfg
  | Some d => d
  end.

(** The choice of the file name, the same in every operation:
    [out_path / f"{filename}.{ext}"] if a file name is given, a generated
    name otherwise. *)
Definition choose_save_path (out_path : string) (filename : option string)
    (prefix ext : string) : M string :=
  match filename with
  | Some (String _ _ as f) => ret (path_join out_path (f +:+ "." +:+ ext))
  | _ => _unique_filename out_path prefix ext
  end.

(** [qrcode.QRCode(...)], [qr.add_data(data)], [qr.make(fit=True)] *)
Definition qr_encode (req : QRRequest) : M QRCode :=
  fun w =>
    (qr_make env req,
     mkWorld (fs_dirs w) (fs_files w) (clock w) (qr_requests w ++ [req])).

(** [img.save(str(save_path))] on the image [make_image] returns *)
Definition StyledPilImage_save (path : string) (img : Image Color) : M unit :=
  run fmt := lift (styled_save_format env path) in
  write_image path fmt (RGBImage img).

(** [img.save(str(save_path))] and [img.save(str(save_path), "PNG")] on an
    image of [PIL] *)
Definition Image_save (path : string) (format : option string)
    (img : AnyImage) : M unit :=
  run fmt := match format with
             | Some f => ret f
             | None => lift (pil_save_format env path)
             end in
  write_image path fmt img.

(** The module drawer of a shape key, or the [ValueError] of lines
    292-298 *)
Definition module_drawer_for (module_shape : string)
  : M (string * ModuleDrawer) :=
  let shape_key := PyStr.lower module_shape in
  if negb (dict_mem MODULE_SHAPES shape_key) then
    raise (ValueError (unknown_module_shape_message module_shape))
  else
    run drawer := lift (dict_subscript MODULE_SHAPES shape_key) in
    ret (shape_key, drawer).

(** Lines 430-431: the logo made to fit the square of side
    [int(qr_width * logo_size_ratio)] *)
Definition resize_logo (logo : Image RGBA) (qr_width : Z)
    (logo_size_ratio : float) : result (Image RGBA) :=
  (try logo_max :=
     int_of_float (PrimFloat.mul (float_of_int qr_width) logo_size_ratio) in
   pil_thumbnail env logo logo_max logo_max)%result.

(** *** Core generation functions *)

Definition generate_basic (data : string) (output_dir filename : option string)
    (size border : Z) (fg_color bg_color error_correction : string)
    (output_format : string) : M ResultRecord :=
  let output_dir := resolve_output_dir output_dir in
  run out_path := _ensure_output_dir output_dir in
  let ec := dict_get ERROR_CORRECTION_LEVELS (PyStr.upper error_correction)
              ERROR_CORRECT_H in
  run fg := lift (_parse_color fg_color) in
  run bg := lift (_parse_color bg_color) in
  run qr := qr_encode (mkQRRequest data ec size border) in
  run img := lift (qr_make_image env qr SquareModuleDrawer
                     (SolidFillColorMask bg fg)) in
  run save_path := choose_save_path out_path filename "qr_basic"
                     output_format in
  run _ := StyledPilImage_save save_path img in
  ret [ ("saved_path", VStr save_path);
        ("data", VStr (PyStr.slice 0 200 data));
        ("style", VStr "basic");
        ("fg_color", VStr fg_color);
        ("bg_color", VStr bg_color);
        ("size", VInt size);
        ("border", VInt border);
        ("error_correction", VStr (PyStr.upper error_correction));
        ("format", VStr output_format) ].

Definition generate_styled (data : string) (output_dir filename : option string)
    (size border : Z) (module_shape fg_color bg_color gradient_style : string)
    (gradient_center_color gradient_edge_color : option string)
    (error_correction output_format : string) : M ResultRecord :=
  let output_dir := resolve_output_dir output_dir in
  run out_path := _ensure_output_dir output_dir in
  let ec := dict_get ERROR_CORRECTION_LEVELS (PyStr.upper error_correction)
              ERROR_CORRECT_H in
  run bg := lift (_parse_color bg_color) in
  run (shape_key, drawer) := module_drawer_for module_shape in
  let grad_key := PyStr.lower gradient_style in
  if negb (dict_mem GRADIENT_STYLES grad_key) then
    raise (ValueError (unknown_gradient_style_message gradient_style
                         (dict_keys GRADIENT_STYLES)))
  else
  run color_mask :=
    (if String.eqb grad_key "solid" then
       run fg := lift (_parse_color fg_color) in
       ret (SolidFillColorMask bg fg)
     else
       run center := lift (_parse_color
                             (py_or gradient_center_color fg_color)) in
       run edge := lift (_parse_color
                           (py_or gradient_edge_color "#000088")) in
       run GradientClass := lift (dict_subscript GRADIENT_STYLES grad_key) in
       if String.eqb grad_key "horizontal" then
         lift (instantiate_mask GradientClass LeftRight bg center edge)
       else if String.eqb grad_key "vertical" then
         lift (instantiate_mask GradientClass TopBottom bg center edge)
       else
         lift (instantiate_mask GradientClass CenterEdge bg center edge)) in
  run qr := qr_encode (mkQRRequest data ec size border) in
  run img := lift (qr_make_image env qr drawer color_mask) in
  run save_path := choose_save_path out_path filename
                     ("qr_" +:+ shape_key +:+ "_" +:+ grad_key)
                     output_format in
  run _ := StyledPilImage_save save_path img in
  ret [ ("saved_path", VStr save_path);
        ("data", VStr (PyStr.slice 0 200 data));
        ("style", VStr "styled");
        ("module_shape", VStr shape_key);
        ("gradient_style", VStr grad_key);
        ("fg_color", VStr fg_color);
        ("bg_color", VStr bg_color);
        ("size", VInt size);
        ("border", VInt border);
        ("error_correction", VStr (PyStr.upper error_correction));
        ("format", VStr output_format) ].

Definition generate_with_logo (data logo_path : string)
    (output_dir filename : option string) (size border : Z)
    (module_shape fg_color bg_color : string) (logo_size_ratio : float)
    (error_correction output_format : string) : M ResultRecord :=
  let output_dir := resolve_output_dir output_dir in
  run out_path := _ensure_output_dir output_dir in
  let logo_file := logo_path in
  run logo_is_file := is_file logo_file in
  if negb logo_is_file then
    raise (FileNotFoundError ("Logo file not found: " +:+ logo_path))
  else
  (* Force high error correction for logo overlay *)
  let ec := ERROR_CORRECT_H in
  run fg := lift (_parse_color fg_color) in
  run bg := lift (_parse_color bg_color) in
  run (shape_key, drawer) := module_drawer_for module_shape in
  let logo_size_ratio := clamp_logo_size_ratio logo_size_ratio in
  run qr := qr_encode (mkQRRequest data ec size border) in
  run rendered := lift (qr_make_image env qr drawer
                          (SolidFillColorMask bg fg)) in
  let img := convert_RGB_to_RGBA rendered in
  (* Overlay logo *)
  run logo_opened := Image_open logo_file in
  let logo := convert_RGBA logo_opened in
  let qr_width := im_width img in
  let qr_height := im_height img in
  run logo := lift (resize_logo logo qr_width logo_size_ratio) in
  let logo_w := im_width logo in
  let logo_h := im_height logo in
  run pad := lift (int_of_float
                     (PrimFloat.mul (float_of_int logo_w) float_0_1)) in
  let bg_layer := Image_new qr_width qr_height (0, 0, 0, 0) in
  let cx := qr_width / 2 in
  let cy := qr_height / 2 in
  let rect := (cx - logo_w / 2 - pad, cy - logo_h / 2 - pad,
               cx + logo_w / 2 + pad, cy + logo_h / 2 + pad) in
  run bg_layer := lift (pil_rounded_rectangle env bg_layer rect pad
                          (255, 255, 255, 255)) in
  run img := lift (pil_alpha_composite env img bg_layer) in
  let logo_pos := (cx - logo_w / 2, cy - logo_h / 2) in
  run img := lift (pil_paste env img logo logo_pos logo) in
  let final := convert_RGBA_to_RGB img in
  run save_path := choose_save_path out_path filename "qr_logo"
                     output_format in
  run _ := Image_save save_path None (RGBImage final) in
  ret [ ("saved_path", VStr save_path);
        ("data", VStr (PyStr.slice 0 200 data));
        ("style", VStr "logo");
        ("logo_path", VStr logo_file);
        ("logo_size_ratio", VFloat logo_size_ratio);
        ("module_shape", VStr shape_key);
        ("fg_color", VStr fg_color);
        ("bg_color", VStr bg_color);
        ("size", VInt size);
        ("border", VInt border);
        ("error_correction", VStr "H");
        ("format", VStr output_format) ].

Definition generate_with_background_image (data image_path : string)
    (output_dir filename : option string) (size border : Z)
    (module_shape : string) (brightness : float)
    (error_correction output_format : string) : M ResultRecord :=
  let output_dir := resolve_output_dir output_dir in
  run out_path := _ensure_output_dir output_dir in
  let img_file := image_path in
  run img_is_file := is_file img_file in
  if negb img_is_file then
    raise (FileNotFoundError ("Image file not found: " +:+ image_path))
  else
  let ec := dict_get ERROR_CORRECTION_LEVELS (PyStr.upper error_correction)
              ERROR_CORRECT_H in
  run (shape_key, drawer) := module_drawer_for module_shape in
  run qr := qr_encode (mkQRRequest data ec size border) in
  run color_img := Image_open img_file in
  let color_mask := ImageColorMask (255, 255, 255) color_img in
  run img := lift (qr_make_image env qr drawer color_mask) in
  run save_path := choose_save_path out_path filename "qr_image"
                     output_format in
  run _ := StyledPilImage_save save_path img in
  ret [ ("saved_path", VStr save_path);
        ("data", VStr (PyStr.slice 0 200 data));
        ("style", VStr "background_image");
        ("image_path", VStr img_file);
        ("module_shape", VStr shape_key);
        ("size", VInt size);
        ("border", VInt border);
        ("error_correction", VStr (PyStr.upper error_correction));
        ("format", VStr output_format) ].

Definition generate_transparent (data : string)
    (output_dir filename : option string) (size border : Z)
    (module_shape fg_color error_correction : string) : M ResultRecord :=
  let output_dir := resolve_output_dir output_dir in
  run out_path := _ensure_output_dir output_dir in
  let ec := dict_get ERROR_CORRECTION_LEVELS (PyStr.upper error_correction)
              ERROR_CORRECT_H in
  run fg := lift (_parse_color fg_color) in
  run (shape_key, drawer) := module_drawer_for module_shape in
  run qr := qr_encode (mkQRRequest data ec size border) in
  (* Generate with white background first *)
  run rendered := lift (qr_make_image env qr drawer
                          (SolidFillColorMask (255, 255, 255) fg)) in
  let img := convert_RGB_to_RGBA rendered in
  (* Make white pixels transparent *)
  run img := lift (make_white_transparent img) in
  run save_path := choose_save_path out_path filename "qr_transparent"
                     "png" in
  run _ := Image_save save_path (Some "PNG") (RGBAImage img) in
  ret [ ("saved_path", VStr save_path);
        ("data", VStr (PyStr.slice 0 200 data));
        ("style", VStr "transparent");
        ("fg_color", VStr fg_color);
        ("module_shape", VStr shape_key);
        ("size", VInt size);
        ("border", VInt border);
        ("error_correction", VStr (PyStr.upper error_correction));
        ("format", VStr "png") ].

Definition generate_gradient (data : string)
    (output_dir filename : option string) (size border : Z)
    (module_shape gradient_style center_color edge_color bg_color : string)
    (error_correction output_format : string) : M ResultRecord :=
  let output_dir := resolve_output_dir output_dir in
  run out_path := _ensure_output_dir output_dir in
  let ec := dict_get ERROR_CORRECTION_LEVELS (PyStr.upper error_correction)
              ERROR_CORRECT_H in
  run bg := lift (_parse_color bg_color) in
  run center := lift (_parse_color center_color) in
  run edge := lift (_parse_color edge_color) in
  run (shape_key, drawer) := module_drawer_for module_shape in
  let grad_key := PyStr.lower gradient_style in
  if negb (bool_decide (grad_key ∈ valid_gradients)) then
    raise (ValueError (unknown_gradient_style_message gradient_style
                         (elements valid_gradients)))
  else
  run GradientClass := lift (dict_subscript GRADIENT_STYLES grad_key) in
  run color_mask :=
    (if String.eqb grad_key "horizontal" then
       lift (instantiate_mask GradientClass LeftRight bg center edge)
     else if String.eqb grad_key "vertical" then
       lift (instantiate_mask GradientClass TopBottom bg center edge)
     else
       lift (instantiate_mask GradientClass CenterEdge bg center edge)) in
  run qr := qr_encode (mkQRRequest data ec size border) in
  run img := lift (qr_make_image env qr drawer color_mask) in
  run save_path := choose_save_path out_path filename
                     ("qr_gradient_" +:+ grad_key) output_format in
  run _ := StyledPilImage_save save_path img in
  ret [ ("saved_path", VStr save_path);
        ("data", VStr (PyStr.slice 0 200 data));
        ("style", VStr "gradient");
        ("gradient_style", VStr grad_key);
        ("center_color", VStr center_color);
        ("edge_color", VStr edge_color);
        ("bg_color", VStr bg_color);
        ("module_shape", VStr shape_key);
        ("size", VInt size);
        ("border", VInt border);
        ("error_correction", VStr (PyStr.upper error_correction));
        ("format", VStr output_format) ].

(** The summary [get_capabilities] returns *)
Record Capabilities : Type := mkCapabilities {
  module_shapes : list string;
  gradient_styles : list string;
  error_correction_levels : dict string;
  output_formats : list string;
  qr_styles : list string;
  defaults : dict PyVal;
}.

Definition get_capabilities : Capabilities :=
  mkCapabilities
    (dict_keys MODULE_SHAPES)
    (dict_keys GRADIENT_STYLES)
    [ ("L", "~7% recovery — smallest QR");
      ("M", "~15% recovery — balanced");
      ("Q", "~25% recovery — good for styling");
      ("H", "~30% recovery — best for logos") ]
    SUPPORTED_FORMATS
    [ "basic — solid colors, clean look";
      "styled — custom shapes + optional gradients";
      "gradient — beautiful color gradient fills";
      "logo — embedded center image/logo";
      "background_image — modules colored from an image";
      "transparent — PNG with transparent background" ]
    [ ("size", VInt (DEFAULT_SIZE cfg));
      ("border", VInt (DEFAULT_BORDER cfg));
      ("format", VStr (DEFAULT_FORMAT cfg));
      ("output_dir", VStr (DEFAULT_OUTPUT_DIR cfg));
      ("error_correction", VStr "H") ].


End Generator.

(** ** A small instance of the libraries

    A stand-in for [qrcode] and [PIL] on which the operations evaluate: a
    fixed 21 x 21 symbol drawn with square modules in two colours, a
    thumbnail by nearest neighbour, plain rectangles. *)

Module Demo.

Definition dark (i j : Z) : bool :=
  Z.even (i + j) || (i <? 7) && (j <? 7).

Definition modules : list (list bool) :=
  map (fun i => map (fun j => dark (Z.of_nat i) (Z.of_nat j)) (seq 0 21))
      (seq 0 21).

Definition qr_make (req : QRRequest) : result QRCode :=
  if req_box_size req <=? 0 then
    Raise (ValueError "Invalid box size, expected larger than 0")
  else if req_border req <? 0 then
    Raise (ValueError "Invalid border value, expected 0 or larger")
  else if (17 <? String.length (req_data req))%nat then
    Raise DataOverflowError
  else Ok (mkQRCode req 1 modules).

Definition mask_colors (m : ColorMask) : Color * Color :=
  match m with
  | SolidFillColorMask back front => (back, front)
  | RadialGradiantColorMask back center _ => (back, center)
  | SquareGradiantColorMask back center _ => (back, center)
  | HorizontalGradiantColorMask back start _ => (back, start)
  | VerticalGradiantColorMask back start _ => (back, start)
  | ImageColorMask back _ => (back, (0, 0, 0))
  end.

Definition module_at (q : QRCode) (mx my : Z) : bool :=
  if (mx <? 0) || (my <? 0) then false
  else
    match qr_modules q !! Z.to_nat my with
    | Some row => default false (row !! Z.to_nat mx)
    | None => false
    end.

Definition make_image (q : QRCode) (d : ModuleDrawer) (m : ColorMask)
  : result (Image Color) :=
  let box := req_box_size (qr_request q) in
  let border := req_border (qr_request q) in
  let n := Z.of_nat (length (qr_modules q)) in
  let side := Z.max 0 ((n + 2 * border) * box) in
  let '(back, front) := mask_colors m in
  Ok (mkImage side side
        (map (fun i =>
                let x := Z.of_nat i mod side in
                let y := Z.of_nat i / side in
                if module_at q (x / box - border) (y / box - border)
                then front else back)
             (seq 0 (Z.to_nat (side * side))))).

(** The size of the thumbnail of an image of size [(x, y)] in the box
    [(w, h)] *)
Definition thumbnail_size (x y w h : Z) : Z * Z :=
  let '(x1, y1) := if w <? x then (w, Z.max (y * w / x) 1) else (x, y) in
  if h <? y1 then (Z.max (x1 * h / y1) 1, h) else (x1, y1).

Definition resample {P} (dflt : P) (img : Image P) (w h : Z) : Image P :=
  mkImage w h
    (map (fun i =>
            let x := Z.of_nat i mod w in
            let y := Z.of_nat i / w in
            let sx := x * im_width img / w in
            let sy := y * im_height img / h in
            default dflt (im_data img !! Z.to_nat (sy * im_width img + sx)))
         (seq 0 (Z.to_nat (w * h)))).

Definition thumbnail (img : Image RGBA) (w h : Z) : result (Image RGBA) :=
  if (im_width img <=? w) && (im_height img <=? h) then Ok img
  else if (w <=? 0) || (h <=? 0) then
    Raise (ValueError "height and width must be > 0")
  else
    let '(w', h') := thumbnail_size (im_width img) (im_height img) w h in
    Ok (resample (0, 0, 0, 0) img w' h').

Definition rounded_rectangle (img : Image RGBA) (rect : Z * Z * Z * Z)
    (radius : Z) (fill : RGBA) : result (Image RGBA) :=
  let '(x0, y0, x1, y1) := rect in
  if (x1 <? x0) || (y1 <? y0) then
    Raise (ValueError "x1 must be greater than or equal to x0")
  else
    Ok (mkImage (im_width img) (im_height img)
          (imap (fun i p =>
                   let x := Z.of_nat i mod im_width img in
                   let y := Z.of_nat i / im_width img in
                   if (x0 <=? x) && (x <=? x1) && (y0 <=? y) && (y <=? y1)
                   then fill else p)
                (im_data img))).

Definition alpha_composite (below above : Image RGBA)
  : result (Image RGBA) :=
  if (im_width below =? im_width above)
     && (im_height below =? im_height above) then
    Ok (mkImage (im_width below) (im_height below)
          (zip_with (fun p q => let '(_, _, _, a) := q in
                                if a =? 0 then p else q)
             (im_data below) (im_data above)))
  else Raise (ValueError "images do not match").

Definition paste (img src : Image RGBA) (pos : Z * Z) (mask : Image RGBA)
  : result (Image RGBA) :=
  let '(px, py) := pos in
  Ok (mkImage (im_width img) (im_height img)
        (imap (fun i p =>
                 let x := Z.of_nat i mod im_width img - px in
                 let y := Z.of_nat i / im_width img - py in
                 if in_image src x y then
                   match im_data src !! pixel_index src x y,
                         im_data mask !! pixel_index mask x y with
                   | Some q, Some (_, _, _, a) => if a =? 0 then p else q
                   | _, _ => p
                   end
                 else p)
              (im_data img))).

Definition ends_with (suffix s : string) : bool :=
  (String.length suffix <=? String.length s)%nat
  && String.eqb
       (substring (String.length s - String.length suffix)
          (String.length suffix) s)
       suffix.

Definition save_format (path : string) : result string :=
  if ends_with ".png" path then Ok "PNG"
  else if ends_with ".jpg" path then Ok "JPEG"
  else Raise (ValueError ("unknown file extension in " +:+ path)).

Definition hex_char (d : Z) : ascii :=
  nth (Z.to_nat d) (list_ascii_of_string "0123456789abcdef") "0"%char.

Fixpoint hex_digits (k : nat) (n : Z) : string :=
  match k with
  | O => ""
  | S k' => hex_digits k' (n / 16) +:+ String (hex_char (n mod 16)) ""
  end.

Definition stamp (t : nat) : string :=
  hex_digits 8 (Z.of_nat (S t) * 2654435761 mod 2 ^ 32).

Definition env : Env :=
  mkEnv qr_make make_image thumbnail rounded_rectangle alpha_composite
    paste (fun _ => Ok "PNG") save_format stamp.

Definition cfg : Config :=
  mkConfig 10 2 "png" "/home/user/Downloads/qrcode_mcp".

(** A logo of 2 x 2 pixels *)
Definition logo : Image RGBA :=
  mkImage 2 2 [ (200, 0, 0, 255); (0, 200, 0, 255);
                (0, 0, 200, 255); (250, 250, 250, 0) ].

(** A logo of 40 x 20 pixels *)
Definition wide_logo : Image RGBA := Image_new 40 20 (10, 20, 30, 255).

(** A home directory that holds two logos and a file that is no image *)
Definition world : World :=
  mkWorld {[ "/home"; "/home/user" ]}
    {[ "/home/user/logo.png" := ImageFile "PNG" (RGBAImage logo);
       "/home/user/wide.png" := ImageFile "PNG" (RGBAImage wide_logo);
       "/home/user/notes.txt" := OtherFile ]}
    0 [].

End Demo.

(** ** Predicates on computations *)

(** A computation that leaves one component [f] of the world as it is *)
Definition preserves {A X} (f : World -> X) (m : M A) : Prop :=
  forall w, f (snd (m w)) = f w.

(** A computation that creates no directory and, when it raises, has
    written no file: whatever it writes, it writes last. *)
Definition writes_last {A} (m : M A) : Prop :=
  forall w,
    fs_dirs (snd (m w)) = fs_dirs w /\
    (forall e, fst (m w) = Raise e -> fs_files (snd (m w)) = fs_files w).

(** An operation that starts by creating its output directory [d]: if
    that fails, the operation fails in the same way; otherwise the
    directory is there when the operation ends, nothing else was created
    and, if the operation raises, no file was written. *)
Definition creates_output_dir_first (d : string) (op : M ResultRecord)
  : Prop :=
  forall w,
    match _ensure_output_dir d w with
    | (inl e, w1) => op w = (Raise e, w1)
    | (inr _, w1) =>
        d ∈ fs_dirs (snd (op w)) /\
        fs_dirs (snd (op w)) = fs_dirs w1 /\
        (forall e, fst (op w) = Raise e ->
                   fs_files (snd (op w)) = fs_files w)
    end.

(** At most one request goes to the encoder, and it is [req]: either the
    computation raises before the encoder is reached, or [req] is the one
    request it adds. *)
Definition requests {A} (req : QRRequest) (m : M A) : Prop :=
  forall w,
    (qr_requests (snd (m w)) = qr_requests w /\
     exists e, fst (m w) = Raise e)
    \/ qr_requests (snd (m w)) = (qr_requests w ++ [req])%list.

(** The result record with another value for ["error_correction"] *)
Definition with_error_correction (v : string) (r : ResultRecord)
  : ResultRecord :=
  map (fun kv => if String.eqb (fst kv) "error_correction"
                 then (fst kv, VStr v) else kv) r.

(** An outcome in which the record, if there is one, echoes the level [v] *)
Definition echo_level (v : string) (x : result ResultRecord * World)
  : result ResultRecord * World :=
  (match fst x with
   | inl e => inl e
   | inr r => inr (with_error_correction v r)
   end, snd x).

(** A key that is none of [L], [M], [Q], [H], whatever its case *)
Definition unknown_level (key : string) : Prop :=
  dict_mem ERROR_CORRECTION_LEVELS (PyStr.upper key) = false.

(** Every value the computation returns satisfies [P] *)
Definition returns {A} (P : A -> Prop) (m : M A) : Prop :=
  forall w a w', m w = (Ok a, w') -> P a.

(** [key] occurs in the message [msg] *)
Definition contains (msg key : string) : Prop :=
  exists pre post, msg = pre +:+ key +:+ post.

(** A colour string that the parser accepts *)
Definition parses (color : string) : Prop :=
  exists c, _parse_color color = Ok c.

(** The error of an unknown module shape and of an unknown gradient style *)
Definition unknown_module_shape (module_shape : string) : exn :=
  ValueError (unknown_module_shape_message module_shape).

Definition unknown_gradient_style (gradient_style : string)
    (valid : list string) : exn :=
  ValueError (unknown_gradient_style_message gradient_style valid).

(** What the transparency pass does to one pixel: alpha 0 if the three
    colour channels all exceed 240, the pixel as it is otherwise *)
Definition clear_if_white (p : RGBA) : RGBA :=
  let '(r, g, b, a) := p in
  if (240 <? r) && (240 <? g) && (240 <? b) then (r, g, b, 0) else p.

(** [d'] is [d] with [f] applied at the positions [lo <= j < hi] *)
Definition updated_between {P} (f : P -> P) (lo hi : nat) (d d' : list P)
  : Prop :=
  length d' = length d /\
  forall j, d' !! j = if decide (lo <= j < hi)%nat then f <$> d !! j
                      else d !! j.

(** The value of a result, if there is one *)
Definition result_value {A} (r : result A) : option A :=
  match r with
  | inr a => Some a
  | inl _ => None
  end.

(** No character of [s] is a minus sign *)
Definition no_minus_sign (s : string) : bool :=
  PyStr.all_chars (fun c => negb (PyStr.is_char 45 c)) s.

(** An operation that, when it returns, has written exactly one file, the
    image at the path its record gives as [saved_path] *)
Definition writes_one_file (m : M ResultRecord) : Prop :=
  forall w record w',
    m w = (Ok record, w') ->
    exists path format img,
      dict_lookup record "saved_path" = Some (VStr path) /\
      fs_files w' = <[path := ImageFile format img]> (fs_files w).


(** * Properties *)

(** ** Python strings and the colour parser on examples *)

Example int16_ff : PyStr.int16 "fF" = Some 255.
Proof. reflexivity. Qed.

Example int16_signed : PyStr.int16 "-F" = Some (-15).
Proof. reflexivity. Qed.

Example int16_blank : PyStr.int16 " F" = Some 15 /\ PyStr.int16 "F " = Some 15.
Proof. split; reflexivity. Qed.

Example int16_rejects :
  PyStr.int16 "0x" = None /\ PyStr.int16 "_1" = None /\
  PyStr.int16 "1_" = None /\ PyStr.int16 "zz" = None /\ PyStr.int16 "" = None.
Proof. repeat split; reflexivity. Qed.

Example strip_example :
  PyStr.lstrip_hash (PyStr.strip "  #  ab ") = "  ab" /\
  PyStr.lstrip_hash "##a#b" = "a#b".
Proof. split; reflexivity. Qed.

Example parse_color_red : _parse_color "#FF0000" = Ok (255, 0, 0).
Proof. reflexivity. Qed.

Example parse_color_short : _parse_color "F00" = Ok (255, 0, 0).
Proof. reflexivity. Qed.

Example parse_color_blank : _parse_color "  #0a141E " = Ok (10, 20, 30).
Proof. reflexivity. Qed.

Example parse_color_long :
  _parse_color "#FF00000"
  = Raise (ValueError
      "Invalid color: '#FF00000'. Use hex format like #FF0000 or #F00.").
Proof. reflexivity. Qed.

Example parse_color_not_hex :
  _parse_color "GGGGGG"
  = Raise (ValueError "invalid literal for int() with base 16: 'GG'").
Proof. reflexivity. Qed.

(** ** Characters *)

Ltac all_ascii c :=
  destruct c as [[] [] [] [] [] [] [] []]; vm_compute; try discriminate;
  try (repeat split; (reflexivity || lia || discriminate || eauto)).

Lemma hex_digit_not_special (c : ascii) :
  PyStr.is_hex_digit c = true ->
  PyStr.is_space c = false /\ PyStr.is_int_space c = false /\
  PyStr.is_char 35 c = false /\ PyStr.is_char 43 c = false /\
  PyStr.is_char 45 c = false /\ PyStr.is_char 95 c = false /\
  PyStr.is_char 120 c = false /\ PyStr.is_char 88 c = false.
Proof. all_ascii c. Qed.

Lemma hex_digit_value_bound (c : ascii) (v : Z) :
  PyStr.hex_digit_value c = Some v -> 0 <= v <= 15.
Proof.
  destruct c as [[] [] [] [] [] [] [] []]; vm_compute; intros H;
    try discriminate; injection H as <-; split; discriminate.
Qed.

Lemma is_hex_digit_value (c : ascii) :
  PyStr.is_hex_digit c = true -> exists v, PyStr.hex_digit_value c = Some v.
Proof.
  unfold PyStr.is_hex_digit. destruct (PyStr.hex_digit_value c); eauto.
  discriminate.
Qed.

(** ** Stripping *)

Lemma all_chars_impl (p q : ascii -> bool) (s : string) :
  (forall c, p c = true -> q c = true) ->
  PyStr.all_chars p s = true -> PyStr.all_chars q s = true.
Proof.
  intros Hpq. induction s as [|c s IH]; simpl; [reflexivity|].
  intros [Hc Hs]%andb_prop. rewrite (Hpq c Hc), (IH Hs). reflexivity.
Qed.

Lemma lstrip_by_keeps (p : ascii -> bool) (s : string) :
  PyStr.all_chars (fun c => negb (p c)) s = true -> PyStr.lstrip_by p s = s.
Proof.
  destruct s as [|c s]; simpl; [reflexivity|].
  intros [Hc _]%andb_prop. apply negb_true_iff in Hc. rewrite Hc. reflexivity.
Qed.

Lemma rstrip_by_keeps (p : ascii -> bool) (s : string) :
  PyStr.all_chars (fun c => negb (p c)) s = true -> PyStr.rstrip_by p s = s.
Proof.
  induction s as [|c s IH]; simpl; [reflexivity|].
  intros [Hc Hs]%andb_prop. apply negb_true_iff in Hc.
  rewrite (IH Hs). destruct s; [rewrite Hc|]; reflexivity.
Qed.

Lemma normalized_hex_string (s : string) :
  is_hex_string s = true -> normalized_color s = s.
Proof.
  intros Hs. unfold normalized_color, PyStr.strip, PyStr.lstrip_hash.
  assert (Hsp : PyStr.all_chars (fun c => negb (PyStr.is_space c)) s = true).
  { revert Hs. apply all_chars_impl. intros c Hc.
    destruct (hex_digit_not_special c Hc) as (-> & _). reflexivity. }
  rewrite (lstrip_by_keeps _ _ Hsp), (rstrip_by_keeps _ _ Hsp).
  apply lstrip_by_keeps. revert Hs. apply all_chars_impl. intros c Hc.
  destruct (hex_digit_not_special c Hc) as (_ & _ & H35 & _).
  unfold PyStr.is_char in H35. rewrite H35. reflexivity.
Qed.

Lemma normalized_hash_hex_string (s : string) :
  is_hex_string s = true -> normalized_color ("#" +:+ s) = s.
Proof.
  intros Hs. pose proof (normalized_hex_string s Hs) as Hn.
  unfold normalized_color, PyStr.strip, PyStr.lstrip_hash in *.
  assert (Hsp : PyStr.all_chars (fun c => negb (PyStr.is_space c)) s = true).
  { revert Hs. apply all_chars_impl. intros c Hc.
    destruct (hex_digit_not_special c Hc) as (-> & _). reflexivity. }
  rewrite (lstrip_by_keeps _ _ Hsp), (rstrip_by_keeps _ _ Hsp) in Hn.
  change ("#" +:+ s) with (String "#" s).
  rewrite (lstrip_by_keeps PyStr.is_space (String "#" s)),
    (rstrip_by_keeps PyStr.is_space (String "#" s)); simpl; auto.
Qed.

(** ** [int(s, 16)] on a pair of hexadecimal digits *)

Lemma int16_hex_pair (a b : ascii) (v : Z) :
  hex_pair_value a b = Some v ->
  PyStr.int16 (String a (String b EmptyString)) = Some v.
Proof.
  unfold hex_pair_value.
  destruct (PyStr.hex_digit_value a) as [va|] eqn:Ha; [|discriminate].
  destruct (PyStr.hex_digit_value b) as [vb|] eqn:Hb; [|discriminate].
  intros [= <-].
  assert (Hxa : PyStr.is_hex_digit a = true)
    by (unfold PyStr.is_hex_digit; rewrite Ha; reflexivity).
  assert (Hxb : PyStr.is_hex_digit b = true)
    by (unfold PyStr.is_hex_digit; rewrite Hb; reflexivity).
  destruct (hex_digit_not_special a Hxa)
    as (_ & Ha1 & _ & Ha2 & Ha3 & Ha4 & _ & _).
  destruct (hex_digit_not_special b Hxb)
    as (_ & _ & _ & _ & _ & Hb4 & Hb5 & Hb6).
  unfold PyStr.int16. simpl PyStr.lstrip_by. rewrite Ha1, Ha2, Ha3.
  rewrite Hb5, Hb6, andb_false_r, Ha4.
  unfold PyStr.is_char in Ha4, Hb4. simpl PyStr.int_scan.
  rewrite Ha4, Ha, Hb4, Hb. simpl. f_equal. lia.
Qed.

Lemma hex_pair_value_bound (a b : ascii) (v : Z) :
  hex_pair_value a b = Some v -> 0 <= v <= 255.
Proof.
  unfold hex_pair_value.
  destruct (PyStr.hex_digit_value a) as [va|] eqn:Ha; [|discriminate].
  destruct (PyStr.hex_digit_value b) as [vb|] eqn:Hb; [|discriminate].
  intros [= <-]. apply hex_digit_value_bound in Ha, Hb. lia.
Qed.

Lemma hex_pair_value_defined (a b : ascii) :
  PyStr.is_hex_digit a = true -> PyStr.is_hex_digit b = true ->
  exists v, hex_pair_value a b = Some v.
Proof.
  intros [va Ha]%is_hex_digit_value [vb Hb]%is_hex_digit_value.
  unfold hex_pair_value. rewrite Ha, Hb. eauto.
Qed.

(** ** The colour parser *)

Lemma string_length_6 (s : string) :
  String.length s = 6%nat ->
  exists r1 r0 g1 g0 b1 b0,
    s = String r1 (String r0 (String g1 (String g0 (String b1 (String b0
          EmptyString))))).
Proof.
  intros H.
  do 6 (destruct s as [|? s]; [discriminate H|]).
  destruct s; [|discriminate H]. eauto 7.
Qed.

Lemma string_length_3 (s : string) :
  String.length s = 3%nat ->
  exists a b c, s = String a (String b (String c EmptyString)).
Proof.
  intros H.
  do 3 (destruct s as [|? s]; [discriminate H|]).
  destruct s; [|discriminate H]. eauto.
Qed.

(** On a normalized string of six characters the parser is the pairwise
    decoder, whenever the latter is defined. *)
Lemma parse_color_decodes (s t : string) (c : Color) :
  normalized_color s = t -> pairwise_hex_decode t = Some c ->
  _parse_color s = Ok c.
Proof.
  intros Hn Hd. unfold _parse_color.
  change (PyStr.lstrip_hash (PyStr.strip s)) with (normalized_color s).
  rewrite Hn. clear Hn s. unfold pairwise_hex_decode in Hd.
  do 6 (destruct t as [|? t]; [discriminate Hd|]).
  destruct t; [|discriminate Hd].
  destruct (hex_pair_value a a0) as [r|] eqn:Hr; [|discriminate].
  destruct (hex_pair_value a1 a2) as [g|] eqn:Hg; [|discriminate].
  destruct (hex_pair_value a3 a4) as [b|] eqn:Hb; [|discriminate].
  injection Hd as <-. cbn -[PyStr.int16]. unfold int_base16.
  rewrite (int16_hex_pair _ _ _ Hr), (int16_hex_pair _ _ _ Hg),
    (int16_hex_pair _ _ _ Hb).
  reflexivity.
Qed.

Lemma pairwise_hex_decode_defined (s : string) :
  String.length s = 6%nat -> is_hex_string s = true ->
  exists c, pairwise_hex_decode s = Some c /\ in_channel_range c.
Proof.
  intros (r1 & r0 & g1 & g0 & b1 & b0 & ->)%string_length_6 Hs.
  unfold is_hex_string in Hs. simpl in Hs.
  repeat (apply andb_prop in Hs as [? Hs]).
  destruct (hex_pair_value_defined r1 r0) as [r Hr]; [assumption..|].
  destruct (hex_pair_value_defined g1 g0) as [g Hg]; [assumption..|].
  destruct (hex_pair_value_defined b1 b0) as [b Hb]; [assumption..|].
  exists (r, g, b). simpl. rewrite Hr, Hg, Hb. split; [reflexivity|].
  apply hex_pair_value_bound in Hr, Hg, Hb. auto.
Qed.

(** C4: for every valid 6-hex-digit colour string [s], with or without a
    leading [#], [_parse_color] returns the triple obtained by hex-decoding
    the three consecutive digit pairs, and each component lies in
    [0, 255]. *)
Theorem parse_color_six_hex_digits (s : string) :
  String.length s = 6%nat -> is_hex_string s = true ->
  exists c : Color,
    pairwise_hex_decode s = Some c /\
    _parse_color s = Ok c /\
    _parse_color ("#" +:+ s) = Ok c /\
    in_channel_range c.
Proof.
  intros Hlen Hhex.
  destruct (pairwise_hex_decode_defined s Hlen Hhex) as (c & Hc & Hr).
  exists c. split; [assumption|]. split; [|split; [|assumption]].
  - apply (parse_color_decodes s s c); auto using normalized_hex_string.
  - apply (parse_color_decodes _ s c); auto using normalized_hash_hex_string.
Qed.

Lemma parse_color_six_hex_digits_witness :
  exists c : Color,
    pairwise_hex_decode "1a2B3c" = Some c /\
    _parse_color "1a2B3c" = Ok c /\
    _parse_color ("#" +:+ "1a2B3c") = Ok c /\
    in_channel_range c.
Proof.
  apply (parse_color_six_hex_digits "1a2B3c"); reflexivity.
Defined.

Lemma expand_double_chars (s : string) : expand s = PyStr.double_chars s.
Proof. induction s as [|c s IH]; simpl; [|rewrite IH]; reflexivity. Qed.

Lemma expand_hex_string (s : string) :
  is_hex_string s = true -> is_hex_string (expand s) = true.
Proof.
  unfold is_hex_string. induction s as [|c s IH]; simpl; [reflexivity|].
  intros [Hc Hs]%andb_prop. rewrite Hc, (IH Hs). reflexivity.
Qed.

Lemma expand_length (s : string) :
  String.length (expand s) = (2 * String.length s)%nat.
Proof. induction s as [|c s IH]; simpl; [|rewrite IH]; lia. Qed.

(** The shorthand branch: a normalized string of three characters is
    parsed as its expansion. *)
Lemma parse_color_short_decodes (s t : string) (c : Color) :
  normalized_color s = t -> String.length t = 3%nat ->
  pairwise_hex_decode (expand t) = Some c ->
  _parse_color s = Ok c.
Proof.
  intros Hn Hlen Hd. unfold _parse_color.
  change (PyStr.lstrip_hash (PyStr.strip s)) with (normalized_color s).
  rewrite Hn, Hlen. clear Hn s. rewrite expand_double_chars in Hd.
  destruct (string_length_3 t Hlen) as (x & y & z & ->).
  simpl in Hd.
  destruct (hex_pair_value x x) as [r|] eqn:Hr; [|discriminate].
  destruct (hex_pair_value y y) as [g|] eqn:Hg; [|discriminate].
  destruct (hex_pair_value z z) as [b|] eqn:Hb; [|discriminate].
  injection Hd as <-. cbn -[PyStr.int16]. unfold int_base16.
  rewrite (int16_hex_pair _ _ _ Hr), (int16_hex_pair _ _ _ Hg),
    (int16_hex_pair _ _ _ Hb).
  reflexivity.
Qed.

(** C5: for every valid 3-hex-digit colour string [s], [_parse_color]
    returns the same triple as for the 6-digit string [expand s] that
    duplicates each digit of [s]; the same holds with a leading [#]. *)
Theorem parse_color_shorthand (s : string) :
  String.length s = 3%nat -> is_hex_string s = true ->
  exists c : Color,
    _parse_color s = Ok c /\
    _parse_color (expand s) = Ok c /\
    _parse_color ("#" +:+ s) = Ok c /\
    _parse_color ("#" +:+ expand s) = Ok c.
Proof.
  intros Hlen Hhex.
  pose proof (expand_hex_string s Hhex) as Hhex'.
  assert (Hlen' : String.length (expand s) = 6%nat)
    by (rewrite expand_length, Hlen; reflexivity).
  destruct (pairwise_hex_decode_defined _ Hlen' Hhex') as (c & Hc & _).
  exists c. repeat split.
  - apply (parse_color_short_decodes s s c);
      auto using normalized_hex_string.
  - apply (parse_color_decodes _ (expand s) c);
      auto using normalized_hex_string.
  - apply (parse_color_short_decodes _ s c);
      auto using normalized_hash_hex_string.
  - apply (parse_color_decodes _ (expand s) c);
      auto using normalized_hash_hex_string.
Qed.

Lemma parse_color_shorthand_witness :
  exists c : Color,
    _parse_color "F0a" = Ok c /\
    _parse_color (expand "F0a") = Ok c /\
    _parse_color ("#" +:+ "F0a") = Ok c /\
    _parse_color ("#" +:+ expand "F0a") = Ok c.
Proof.
  apply (parse_color_shorthand "F0a"); reflexivity.
Defined.

(** ** Rejected colours *)

Lemma forall_ascii (p : ascii -> bool) :
  forallb p all_ascii_chars = true -> forall c, p c = true.
Proof.
  intros H c. rewrite forallb_forall in H. apply H.
  rewrite <- (ascii_nat_embedding c). unfold all_ascii_chars.
  apply in_map, in_seq. pose proof (nat_ascii_bounded c). lia.
Qed.

Lemma int16_repeated_checked :
  forallb (fun c =>
    PyStr.is_hex_digit c
    || match PyStr.int16 (String c (String c EmptyString)) with
       | None => true | Some _ => false end) all_ascii_chars = true.
Proof. vm_compute. reflexivity. Qed.

Lemma int16_not_hex_twice (c : ascii) :
  PyStr.is_hex_digit c = false ->
  PyStr.int16 (String c (String c EmptyString)) = None.
Proof.
  intros Hc. pose proof (forall_ascii _ int16_repeated_checked c) as H.
  cbv beta in H. rewrite Hc in H.
  destruct (PyStr.int16 _); [discriminate H|reflexivity].
Qed.

Lemma int16_pairs_checked :
  forallb (fun a => forallb (fun b =>
    (is_int_literal_char a && is_int_literal_char b)
    || match PyStr.int16 (String a (String b EmptyString)) with
       | None => true | Some _ => false end) all_ascii_chars)
    all_ascii_chars = true.
Proof. vm_compute. reflexivity. Qed.

Lemma int16_not_literal (a b : ascii) :
  is_int_literal_char a && is_int_literal_char b = false ->
  PyStr.int16 (String a (String b EmptyString)) = None.
Proof.
  intros Hab. pose proof (forall_ascii _ int16_pairs_checked a) as Ha.
  cbv beta in Ha. pose proof (forall_ascii _ Ha b) as H.
  cbv beta in H. rewrite Hab in H.
  destruct (PyStr.int16 _); [discriminate H|reflexivity].
Qed.

Lemma int_base16_cases (s : string) :
  (exists v, int_base16 s = Ok v) \/ is_ValueError (int_base16 s).
Proof.
  unfold int_base16, is_ValueError. destruct (PyStr.int16 s); eauto.
Qed.

Lemma int_base16_none (s : string) :
  PyStr.int16 s = None -> is_ValueError (int_base16 s).
Proof. unfold int_base16, is_ValueError. intros ->. eauto. Qed.

(** Three literals decoded in order: if one of them is rejected, the
    whole triple raises a [ValueError]. *)
Lemma decode_three_rejects (x y z : string) :
  PyStr.int16 x = None \/ PyStr.int16 y = None \/ PyStr.int16 z = None ->
  is_ValueError
    (try r := int_base16 x in
     try g := int_base16 y in
     try b := int_base16 z in
     Ok (r, g, b))%result.
Proof.
  intros H. unfold int_base16, is_ValueError.
  destruct (PyStr.int16 x) as [vx|]; [|simpl; eauto].
  destruct (PyStr.int16 y) as [vy|]; [|simpl; eauto].
  destruct (PyStr.int16 z) as [vz|]; [|simpl; eauto].
  destruct H as [H|[H|H]]; discriminate H.
Qed.

(** C6 as the specification states it fails: two leading [#], or white
    space around the digits, are inputs that the specification wants
    rejected and that the parser accepts. *)
Lemma parse_color_accepts_more :
  specified_invalid_color "##FF0000" /\
  _parse_color "##FF0000" = Ok (255, 0, 0) /\
  specified_invalid_color " FF0000 " /\
  _parse_color " FF0000 " = Ok (255, 0, 0).
Proof.
  repeat split; try reflexivity.
  - left. simpl. split; discriminate.
  - left. simpl. split; discriminate.
Qed.

(** A sign or white space inside six characters goes through [int] and
    yields a triple, here even a negative one. *)
Example parse_color_signed :
  _parse_color "+F-1 a" = Ok (15, -1, 10).
Proof. reflexivity. Qed.

(** ** The colour parser on strings of any code points *)

Example parse_color_wide_examples :
  Unicode._parse_color Unicode.todecimal_14 (Unicode.of_string " #0a141E")
  = inr (10, 20, 30)
  /\ Unicode._parse_color Unicode.todecimal_14
       [12288; 35; 1633; 102; 65296]%N = inr (17, 255, 0).
Proof. split; reflexivity. Qed.

(** [int] reads the decimal digits of every script: six fullwidth digits,
    none of them a hexadecimal digit, are a colour. *)
Example parse_color_fullwidth_digits :
  Unicode._parse_color Unicode.todecimal_14
    [65297; 65298; 65299; 65300; 65301; 65302]%N = inr (18, 52, 86).
Proof. reflexivity. Qed.

(** On the code points below 256 the classes of characters are those of
    [PyStr]. *)
Lemma char_classes_checked :
  forallb (fun ch =>
    Bool.eqb (PyStr.is_hex_digit ch) (Unicode.is_hex_digit (N_of_ascii ch))
    && Bool.eqb (PyStr.is_int_space ch)
         (Unicode.is_int_space (N_of_ascii ch))
    && Bool.eqb (PyStr.is_space ch) (Unicode.is_space (N_of_ascii ch))
    && Bool.eqb (PyStr.is_char 43 ch || PyStr.is_char 45 ch)
         (Unicode.is_sign (N_of_ascii ch))
    && Bool.eqb (PyStr.is_char 35 ch) (N.eqb 35 (N_of_ascii ch)))
    all_ascii_chars = true.
Proof. vm_compute. reflexivity. Qed.

Lemma char_classes (ch : ascii) :
  PyStr.is_hex_digit ch = Unicode.is_hex_digit (N_of_ascii ch) /\
  PyStr.is_int_space ch = Unicode.is_int_space (N_of_ascii ch) /\
  PyStr.is_space ch = Unicode.is_space (N_of_ascii ch) /\
  PyStr.is_char 43 ch || PyStr.is_char 45 ch
  = Unicode.is_sign (N_of_ascii ch) /\
  PyStr.is_char 35 ch = N.eqb 35 (N_of_ascii ch).
Proof.
  pose proof (forall_ascii _ char_classes_checked ch) as H. cbv beta in H.
  repeat (apply andb_prop in H as [H ?]).
  repeat split; apply eqb_prop; assumption.
Qed.

Lemma char_classes_of_N (c : N) :
  (c < 256)%N ->
  PyStr.is_hex_digit (ascii_of_N c) = Unicode.is_hex_digit c /\
  is_int_literal_char (ascii_of_N c)
  = Unicode.is_hex_digit c || Unicode.is_int_space c || Unicode.is_sign c.
Proof.
  intros Hc. destruct (char_classes (ascii_of_N c)) as (H1 & H2 & _ & H4 & _).
  rewrite (N_ascii_embedding c Hc) in H1, H2, H4.
  split; [exact H1|]. unfold is_int_literal_char.
  rewrite H1, H2, <- H4, !orb_assoc. reflexivity.
Qed.

Lemma is_space_not_separator (c : N) :
  (c <? 127)%N = false -> Unicode.is_space c = true ->
  Unicode.is_int_space c = true.
Proof.
  intros Hc Hs. unfold Unicode.is_int_space. rewrite Hs. simpl.
  apply negb_true_iff. unfold Unicode.in_range.
  apply N.ltb_ge in Hc. apply andb_false_iff. right. apply N.leb_gt. lia.
Qed.

Section WideParser.

Variable todecimal : N -> option N.

(** The character that [int] reads in the place of one that is no digit
    is no hexadecimal digit, and in the place of one that a literal may
    not hold, one that a literal may not hold. *)
Lemma to_ascii_char_class (c : N) (a : ascii) :
  Unicode.to_ascii_char todecimal c = Some a ->
  (Unicode.is_digit todecimal c = false -> PyStr.is_hex_digit a = false)
  /\ (Unicode.is_literal_char todecimal c = false ->
      is_int_literal_char a = false).
Proof.
  unfold Unicode.to_ascii_char, Unicode.is_literal_char, Unicode.is_digit,
    Unicode.is_decimal.
  destruct (c <? 127)%N eqn:Hc.
  - intros [= <-]. apply N.ltb_lt in Hc.
    destruct (char_classes_of_N c) as [H1 H2]; [lia|].
    rewrite H1, H2. split.
    + intros [H _]%orb_false_iff. exact H.
    + intros H. apply orb_false_iff in H as [H Hsign].
      apply orb_false_iff in H as [H Hspace].
      apply orb_false_iff in H as [H _]. rewrite H, Hspace, Hsign.
      reflexivity.
  - destruct (Unicode.is_space c) eqn:Hs.
    + intros [= <-]. split; [reflexivity|].
      rewrite (is_space_not_separator c Hc Hs), orb_true_r. discriminate.
    + destruct (todecimal c); [|discriminate].
      intros _. rewrite !orb_true_r. split; discriminate.
Qed.

Lemma is_ascii_pair (a b : N) :
  Unicode.is_ascii [a; b] = true -> (a < 256)%N /\ (b < 256)%N.
Proof.
  unfold Unicode.is_ascii. simpl. rewrite andb_true_r.
  intros [Ha Hb]%andb_prop. apply N.ltb_lt in Ha, Hb. lia.
Qed.

Lemma int16_question_mark (a : ascii) :
  PyStr.int16 "?" = None /\ PyStr.int16 (String a "?") = None.
Proof.
  split; [reflexivity|]. apply int16_not_literal.
  apply andb_false_iff. right. reflexivity.
Qed.

(** A character doubled is a literal only if it is a digit. *)
Lemma wide_int16_not_digit_twice (c : N) :
  Unicode.is_digit todecimal c = false ->
  Unicode.int16 todecimal [c; c] = None.
Proof.
  intros Hc. unfold Unicode.int16, Unicode.to_ascii.
  destruct (Unicode.is_ascii [c; c]) eqn:Hascii.
  - apply is_ascii_pair in Hascii as [Hlt _]. simpl.
    apply int16_not_hex_twice.
    destruct (char_classes_of_N c Hlt) as [-> _].
    unfold Unicode.is_digit in Hc.
    apply orb_false_iff in Hc as [Hc _]. exact Hc.
  - simpl. destruct (Unicode.to_ascii_char todecimal c) as [a|] eqn:Ha;
      [|reflexivity].
    apply int16_not_hex_twice.
    exact (proj1 (to_ascii_char_class c a Ha) Hc).
Qed.

(** Two characters are a literal only if a literal may hold both. *)
Lemma wide_int16_not_literal (a b : N) :
  Unicode.is_literal_char todecimal a
  && Unicode.is_literal_char todecimal b = false ->
  Unicode.int16 todecimal [a; b] = None.
Proof.
  intros Hab. unfold Unicode.int16, Unicode.to_ascii.
  destruct (Unicode.is_ascii [a; b]) eqn:Hascii.
  - apply is_ascii_pair in Hascii as [Ha Hb]. simpl.
    apply int16_not_literal.
    destruct (char_classes_of_N a Ha) as [_ ->].
    destruct (char_classes_of_N b Hb) as [_ ->].
    unfold Unicode.is_literal_char, Unicode.is_digit in Hab.
    apply andb_false_iff in Hab as [H|H]; apply andb_false_iff;
      [left|right];
      apply orb_false_iff in H as [H Hsign];
      apply orb_false_iff in H as [H Hspace];
      apply orb_false_iff in H as [H _];
      rewrite H, Hspace, Hsign; reflexivity.
  - simpl.
    destruct (Unicode.to_ascii_char todecimal a) as [a'|] eqn:Ha;
      [|reflexivity].
    destruct (Unicode.to_ascii_char todecimal b) as [b'|] eqn:Hb;
      [|apply int16_question_mark].
    apply int16_not_literal.
    apply andb_false_iff in Hab as [H|H]; apply andb_false_iff.
    + left. exact (proj2 (to_ascii_char_class a a' Ha) H).
    + right. exact (proj2 (to_ascii_char_class b b' Hb) H).
Qed.

Lemma wide_decode_three_rejects (x y z : Unicode.str) :
  Unicode.int16 todecimal x = None \/ Unicode.int16 todecimal y = None
  \/ Unicode.int16 todecimal z = None ->
  exists e,
    match Unicode.int_base16 todecimal x with
    | inl e => inl e
    | inr r =>
        match Unicode.int_base16 todecimal y with
        | inl e => inl e
        | inr g =>
            match Unicode.int_base16 todecimal z with
            | inl e => inl e
            | inr b => inr (r, g, b)
            end
        end
    end = (inl e : Unicode.result Color).
Proof.
  intros H. unfold Unicode.int_base16.
  destruct (Unicode.int16 todecimal x) as [vx|]; [|eauto].
  destruct (Unicode.int16 todecimal y) as [vy|]; [|eauto].
  destruct (Unicode.int16 todecimal z) as [vz|]; [|eauto].
  destruct H as [H|[H|H]]; discriminate H.
Qed.

End WideParser.

(** C6, amended: let [t] be the input without its surrounding white space
    and then without any leading [#].  If the length of [t] is neither 3
    nor 6, the parser raises the [ValueError] with the "Invalid color"
    message.  If [t] has three characters, one of them neither a
    hexadecimal digit nor a decimal digit of another script, or six
    characters, one of them none of these, a sign or white space, it raises
    a [ValueError].  It never returns a triple in these cases.  This holds
    for every string of code points and whatever the decimal digits of the
    interpreter's Unicode database are. *)
Theorem parse_color_rejects (todecimal : N -> option N)
    (s : Unicode.str) :
  let t := Unicode.lstrip_hash (Unicode.strip s) in
  (length t <> 3%nat /\ length t <> 6%nat ->
   Unicode._parse_color todecimal s
   = inl (Unicode.Message (Unicode.invalid_color_message t)))
  /\ (length t = 3%nat /\ forallb (Unicode.is_digit todecimal) t = false ->
      exists e, Unicode._parse_color todecimal s = inl e)
  /\ (length t = 6%nat
      /\ forallb (Unicode.is_literal_char todecimal) t = false ->
      exists e, Unicode._parse_color todecimal s = inl e).
Proof.
  intros t. unfold Unicode._parse_color.
  change (Unicode.lstrip_hash (Unicode.strip s)) with t.
  generalize t. clear t s. intros t. split; [|split].
  - intros [H3 H6]. apply Nat.eqb_neq in H3, H6. rewrite H3, H6.
    reflexivity.
  - intros [Hlen Hbad].
    destruct t as [|x [|y [|z [|? ?]]]]; try discriminate Hlen.
    cbn -[Unicode.int_base16]. apply wide_decode_three_rejects.
    simpl in Hbad.
    destruct (Unicode.is_digit todecimal x) eqn:Hx;
      [|left; apply wide_int16_not_digit_twice, Hx].
    destruct (Unicode.is_digit todecimal y) eqn:Hy;
      [|right; left; apply wide_int16_not_digit_twice, Hy].
    destruct (Unicode.is_digit todecimal z) eqn:Hz;
      [discriminate Hbad|right; right; apply wide_int16_not_digit_twice, Hz].
  - intros [Hlen Hbad].
    destruct t as [|r1 [|r0 [|g1 [|g0 [|b1 [|b0 [|? ?]]]]]]];
      try discriminate Hlen.
    cbn -[Unicode.int_base16]. apply wide_decode_three_rejects.
    simpl in Hbad.
    destruct (Unicode.is_literal_char todecimal r1
              && Unicode.is_literal_char todecimal r0) eqn:Hr;
      [|left; apply wide_int16_not_literal, Hr].
    destruct (Unicode.is_literal_char todecimal g1
              && Unicode.is_literal_char todecimal g0) eqn:Hg;
      [|right; left; apply wide_int16_not_literal, Hg].
    destruct (Unicode.is_literal_char todecimal b1
              && Unicode.is_literal_char todecimal b0) eqn:Hb;
      [|right; right; apply wide_int16_not_literal, Hb].
    apply andb_prop in Hr as [Hr1 Hr0], Hg as [Hg1 Hg0], Hb as [Hb1 Hb0].
    rewrite Hr1, Hr0, Hg1, Hg0, Hb1, Hb0 in Hbad. discriminate Hbad.
Qed.

Lemma parse_color_rejects_witness :
  Unicode._parse_color Unicode.todecimal_14
    (Unicode.of_string " #12345 ")
  = inl (Unicode.Message
           (Unicode.invalid_color_message (Unicode.of_string "12345")))
  /\ (exists e,
        Unicode._parse_color Unicode.todecimal_14
          [12288; 35; 65297; 8364; 51]%N = inl e)
  /\ (exists e,
        Unicode._parse_color Unicode.todecimal_14
          (Unicode.of_string "12345z") = inl e).
Proof.
  pose proof (parse_color_rejects Unicode.todecimal_14
                (Unicode.of_string " #12345 ")) as (H1 & _ & _).
  pose proof (parse_color_rejects Unicode.todecimal_14
                [12288; 35; 65297; 8364; 51]%N) as (_ & H2 & _).
  pose proof (parse_color_rejects Unicode.todecimal_14
                (Unicode.of_string "12345z")) as (_ & _ & H3).
  split; [|split].
  - apply H1. simpl. split; discriminate.
  - apply H2. split; reflexivity.
  - apply H3. split; reflexivity.
Defined.

(** ** Computations in the world *)

Lemma bind_ok {A B} (m : M A) (k : A -> M B) (w w' : World) (a : A) :
  m w = (Ok a, w') -> bind m k w = k a w'.
Proof. unfold bind. intros ->. reflexivity. Qed.

Lemma bind_raise {A B} (m : M A) (k : A -> M B) (w w' : World) (e : exn) :
  m w = (Raise e, w') -> bind m k w = (Raise e, w').
Proof. unfold bind. intros ->. reflexivity. Qed.

Lemma bind_lift_ok {A B} (r : result A) (k : A -> M B) (w : World) (a : A) :
  r = Ok a -> bind (lift r) k w = k a w.
Proof. intros ->. reflexivity. Qed.

Lemma bind_lift_raise {A B} (r : result A) (k : A -> M B) (w : World)
    (e : exn) :
  r = Raise e -> bind (lift r) k w = (Raise e, w).
Proof. intros ->. reflexivity. Qed.


Lemma preserves_ret {A X} (f : World -> X) (a : A) : preserves f (ret a).
Proof. intros w. reflexivity. Qed.

Lemma preserves_raise {A X} (f : World -> X) (e : exn) :
  preserves f (@raise A e).
Proof. intros w. reflexivity. Qed.

Lemma preserves_lift {A X} (f : World -> X) (r : result A) :
  preserves f (lift r).
Proof. intros w. reflexivity. Qed.

Lemma preserves_bind {A B X} (f : World -> X) (m : M A) (k : A -> M B) :
  preserves f m -> (forall a, preserves f (k a)) -> preserves f (bind m k).
Proof.
  intros Hm Hk w. unfold bind. specialize (Hm w).
  destruct (m w) as [[e|a] w1]; simpl in *; [assumption|].
  rewrite Hk. assumption.
Qed.

Lemma preserves_is_file {X} (f : World -> X) (p : string) :
  preserves f (is_file p).
Proof. intros w. reflexivity. Qed.

Lemma preserves_Image_open {X} (f : World -> X) (p : string) :
  preserves f (Image_open p).
Proof.
  intros w. unfold Image_open.
  destruct (fs_files w !! p) as [[]|]; reflexivity.
Qed.

Lemma mkdir_parents_files (p : string) : preserves fs_files (mkdir_parents p).
Proof.
  intros w. unfold mkdir_parents.
  destruct (List.find _ _); [reflexivity|]. case_bool_decide; reflexivity.
Qed.

Lemma mkdir_parents_requests (p : string) :
  preserves qr_requests (mkdir_parents p).
Proof.
  intros w. unfold mkdir_parents.
  destruct (List.find _ _); [reflexivity|]. case_bool_decide; reflexivity.
Qed.

Lemma mkdir_parents_clock (p : string) : preserves clock (mkdir_parents p).
Proof.
  intros w. unfold mkdir_parents.
  destruct (List.find _ _); [reflexivity|]. case_bool_decide; reflexivity.
Qed.

Lemma write_image_dirs (p fmt : string) (img : AnyImage) :
  preserves fs_dirs (write_image p fmt img).
Proof.
  intros w. unfold write_image. case_bool_decide; [reflexivity|].
  destruct (last _); [case_bool_decide|]; reflexivity.
Qed.

Lemma write_image_requests (p fmt : string) (img : AnyImage) :
  preserves qr_requests (write_image p fmt img).
Proof.
  intros w. unfold write_image. case_bool_decide; [reflexivity|].
  destruct (last _); [case_bool_decide|]; reflexivity.
Qed.

Lemma write_image_clock (p fmt : string) (img : AnyImage) :
  preserves clock (write_image p fmt img).
Proof.
  intros w. unfold write_image. case_bool_decide; [reflexivity|].
  destruct (last _); [case_bool_decide|]; reflexivity.
Qed.

Lemma time_time_dirs : preserves fs_dirs time_time.
Proof. intros w. reflexivity. Qed.

Lemma time_time_files : preserves fs_files time_time.
Proof. intros w. reflexivity. Qed.

Lemma time_time_requests : preserves qr_requests time_time.
Proof. intros w. reflexivity. Qed.

(** A failed write leaves the files as they were; a successful one adds
    or replaces exactly the file written. *)
Lemma write_image_files (p fmt : string) (img : AnyImage) (w : World) :
  match write_image p fmt img w with
  | (inl _, w') => w' = w
  | (inr _, w') => fs_files w' = <[p := ImageFile fmt img]> (fs_files w)
  end.
Proof.
  unfold write_image. case_bool_decide; [reflexivity|].
  destruct (last _); [case_bool_decide|]; reflexivity.
Qed.


Lemma writes_last_preserves {A} (m : M A) :
  preserves fs_dirs m -> preserves fs_files m -> writes_last m.
Proof. intros Hd Hf w. split; [apply Hd|]. intros _ _. apply Hf. Qed.

Lemma writes_last_bind {A B} (m : M A) (k : A -> M B) :
  preserves fs_dirs m -> preserves fs_files m ->
  (forall a, writes_last (k a)) -> writes_last (bind m k).
Proof.
  intros Hd Hf Hk w. unfold bind. specialize (Hd w). specialize (Hf w).
  destruct (m w) as [[e|a] w1]; simpl in *; [auto|].
  destruct (Hk a w1) as [Hd1 Hf1]. rewrite Hd1, <- Hf, Hd. auto.
Qed.

Lemma writes_last_then_ret {A B} (m : M A) (b : B) :
  writes_last m -> writes_last (bind m (fun _ => ret b)).
Proof.
  intros Hm w. unfold bind. destruct (Hm w) as [Hd Hf].
  destruct (m w) as [[e|a] w1]; simpl in *; [eauto|].
  split; [assumption|]. intros e [=].
Qed.

Lemma writes_last_write_image (p fmt : string) (img : AnyImage) :
  writes_last (write_image p fmt img).
Proof.
  intros w. split; [apply write_image_dirs|].
  pose proof (write_image_files p fmt img w) as H.
  destruct (write_image p fmt img w) as [[e|[]] w1]; simpl.
  - intros _ _. rewrite H. reflexivity.
  - intros e [=].
Qed.

Create HintDb frame discriminated.

#[export] Hint Resolve preserves_ret preserves_raise preserves_lift
  preserves_is_file preserves_Image_open mkdir_parents_files
  mkdir_parents_requests mkdir_parents_clock write_image_dirs
  write_image_requests write_image_clock time_time_dirs time_time_files
  time_time_requests preserves_bind : frame.

#[export] Hint Extern 2 (preserves _ (if ?b then _ else _)) =>
  destruct b : frame.
#[export] Hint Extern 2 (preserves _ (match ?x with _ => _ end)) =>
  destruct x : frame.
#[export] Hint Extern 2 (writes_last (if ?b then _ else _)) =>
  destruct b : frame.
#[export] Hint Extern 2 (writes_last (match ?x with _ => _ end)) =>
  destruct x : frame.
#[export] Hint Extern 5 (writes_last _) =>
  apply writes_last_preserves : frame.
#[export] Hint Resolve writes_last_bind writes_last_then_ret
  writes_last_write_image : frame.

Section GeneratorFacts.

Variable cfg : Config.
Variable env : Env.

Lemma qr_encode_dirs (req : QRRequest) : preserves fs_dirs (qr_encode env req).
Proof. intros w. reflexivity. Qed.

Lemma qr_encode_files (req : QRRequest) :
  preserves fs_files (qr_encode env req).
Proof. intros w. reflexivity. Qed.

Lemma qr_encode_requests (req : QRRequest) (w : World) :
  qr_requests (snd (qr_encode env req w)) = (qr_requests w ++ [req])%list.
Proof. reflexivity. Qed.

#[local] Hint Resolve qr_encode_dirs qr_encode_files : frame.

Lemma _ensure_output_dir_files (d : string) :
  preserves fs_files (_ensure_output_dir d).
Proof. unfold _ensure_output_dir. auto with frame. Qed.

Lemma _ensure_output_dir_requests (d : string) :
  preserves qr_requests (_ensure_output_dir d).
Proof. unfold _ensure_output_dir. auto with frame. Qed.

Lemma choose_save_path_dirs (out : string) (filename : option string)
    (prefix ext : string) :
  preserves fs_dirs (choose_save_path env out filename prefix ext).
Proof. unfold choose_save_path, _unique_filename. auto 6 with frame. Qed.

Lemma choose_save_path_files (out : string) (filename : option string)
    (prefix ext : string) :
  preserves fs_files (choose_save_path env out filename prefix ext).
Proof. unfold choose_save_path, _unique_filename. auto 6 with frame. Qed.

Lemma choose_save_path_requests (out : string) (filename : option string)
    (prefix ext : string) :
  preserves qr_requests (choose_save_path env out filename prefix ext).
Proof. unfold choose_save_path, _unique_filename. auto 6 with frame. Qed.

Lemma module_drawer_for_preserves {X} (f : World -> X) (shape : string) :
  preserves f (module_drawer_for shape).
Proof. unfold module_drawer_for. auto 6 with frame. Qed.

Lemma StyledPilImage_save_requests (p : string) (img : Image Color) :
  preserves qr_requests (StyledPilImage_save env p img).
Proof. unfold StyledPilImage_save. auto with frame. Qed.

Lemma Image_save_requests (p : string) (fmt : option string)
    (img : AnyImage) :
  preserves qr_requests (Image_save env p fmt img).
Proof. unfold Image_save. auto 6 with frame. Qed.

Lemma StyledPilImage_save_last (p : string) (img : Image Color) :
  writes_last (StyledPilImage_save env p img).
Proof. unfold StyledPilImage_save. auto with frame. Qed.

Lemma Image_save_last (p : string) (fmt : option string) (img : AnyImage) :
  writes_last (Image_save env p fmt img).
Proof. unfold Image_save. auto 6 with frame. Qed.

End GeneratorFacts.

#[export] Hint Resolve qr_encode_dirs qr_encode_files
  _ensure_output_dir_files _ensure_output_dir_requests
  choose_save_path_dirs choose_save_path_files choose_save_path_requests
  module_drawer_for_preserves StyledPilImage_save_requests
  Image_save_requests StyledPilImage_save_last Image_save_last : frame.

(** ** The output directory *)

Lemma mkdir_parents_ok (p : string) (w w1 : World) :
  mkdir_parents p w = (Ok tt, w1) ->
  fs_dirs w1 = fs_dirs w ∪ list_to_set (path_parents p) ∪ {[ p ]} /\
  fs_files w1 = fs_files w.
Proof.
  unfold mkdir_parents. destruct (List.find _ _); [intros [=]|].
  case_bool_decide; intros [= <-]; auto.
Qed.

(** The directory and all the directories above it are created when no
    file stands in the way, whether or not they exist already. *)
Lemma mkdir_parents_succeeds (p : string) (w : World) :
  (forall d, d ∈ p :: path_parents p -> d ∉ dom (fs_files w)) ->
  exists w1,
    mkdir_parents p w = (Ok tt, w1) /\
    fs_dirs w1 = fs_dirs w ∪ list_to_set (path_parents p) ∪ {[ p ]} /\
    fs_files w1 = fs_files w.
Proof.
  intros Hfree. unfold mkdir_parents.
  destruct (List.find _ _) as [d|] eqn:Hfind.
  - apply find_some in Hfind as [Hin Hd]. apply bool_decide_eq_true in Hd.
    exfalso. apply (Hfree d); [|assumption].
    right. apply list_elem_of_In. assumption.
  - rewrite bool_decide_eq_false_2 by (apply Hfree; left).
    eexists. split; [reflexivity|]. auto.
Qed.

Lemma _ensure_output_dir_ok (d out : string) (w w1 : World) :
  _ensure_output_dir d w = (Ok out, w1) ->
  out = d /\ d ∈ fs_dirs w1 /\ fs_files w1 = fs_files w /\
  qr_requests w1 = qr_requests w.
Proof.
  unfold _ensure_output_dir, bind.
  destruct (mkdir_parents d w) as [[e|[]] w2] eqn:Hmk; [intros [=]|].
  intros [= <- <-]. apply mkdir_parents_ok in Hmk as Hok.
  destruct Hok as [Hd Hf]. repeat split; try assumption.
  - rewrite Hd. apply elem_of_union_r, elem_of_singleton. reflexivity.
  - pose proof (mkdir_parents_requests d w) as H. rewrite Hmk in H.
    exact H.
Qed.

Lemma creates_first_bind (d : string) (k : string -> M ResultRecord) :
  (forall out, writes_last (k out)) ->
  creates_output_dir_first d (bind (_ensure_output_dir d) k).
Proof.
  intros Hk w. unfold bind.
  destruct (_ensure_output_dir d w) as [[e|out] w1] eqn:Hens; [reflexivity|].
  apply _ensure_output_dir_ok in Hens as (_ & Hin & Hf & _).
  destruct (Hk out w1) as [Hd1 Hf1]. rewrite Hd1, <- Hf. auto.
Qed.

Ltac output_dir_first :=
  apply creates_first_bind; intros out; cbv zeta; eauto 40 with frame.

(** C10: every generation operation creates the output directory before
    any validation runs.  When no file stands in the way the directory and
    the directories above it are created, whether or not they exist
    already; if the creation fails the operation fails with that error; if
    the operation fails later, for instance on an invalid colour or an
    unknown module shape, the directory is on disk and no file was
    written. *)
Theorem output_dir_created_first (cfg : Config) (env : Env)
    (data path : string) (output_dir filename : option string)
    (size border : Z)
    (module_shape fg_color bg_color gradient_style : string)
    (center_color edge_color : string)
    (gradient_center_color gradient_edge_color : option string)
    (ratio brightness : float) (error_correction output_format : string) :
  let d := resolve_output_dir cfg output_dir in
  (forall w,
     (forall p, p ∈ d :: path_parents d -> p ∉ dom (fs_files w)) ->
     exists w1,
       _ensure_output_dir d w = (Ok d, w1) /\
       fs_dirs w1 = fs_dirs w ∪ list_to_set (path_parents d) ∪ {[ d ]} /\
       fs_files w1 = fs_files w)
  /\ creates_output_dir_first d
       (generate_basic cfg env data output_dir filename size border
          fg_color bg_color error_correction output_format)
  /\ creates_output_dir_first d
       (generate_styled cfg env data output_dir filename size border
          module_shape fg_color bg_color gradient_style
          gradient_center_color gradient_edge_color error_correction
          output_format)
  /\ creates_output_dir_first d
       (generate_with_logo cfg env data path output_dir filename size
          border module_shape fg_color bg_color ratio error_correction
          output_format)
  /\ creates_output_dir_first d
       (generate_with_background_image cfg env data path output_dir
          filename size border module_shape brightness error_correction
          output_format)
  /\ creates_output_dir_first d
       (generate_transparent cfg env data output_dir filename size border
          module_shape fg_color error_correction)
  /\ creates_output_dir_first d
       (generate_gradient cfg env data output_dir filename size border
          module_shape gradient_style center_color edge_color bg_color
          error_correction output_format).
Proof.
  intros d. split; [|repeat split].
  - intros w Hfree. destruct (mkdir_parents_succeeds d w Hfree)
      as (w1 & Hmk & Hd & Hf).
    exists w1. unfold _ensure_output_dir, bind. rewrite Hmk. auto.
  - unfold generate_basic. output_dir_first.
  - unfold generate_styled. output_dir_first.
  - unfold generate_with_logo. output_dir_first.
  - unfold generate_with_background_image. output_dir_first.
  - unfold generate_transparent. output_dir_first.
  - unfold generate_gradient. output_dir_first.
Qed.

Lemma output_dir_created_first_witness :
  let op :=
    generate_styled Demo.cfg Demo.env "hello" (Some "/tmp/out") None 10 2
      "hexagon" "#000000" "#FFFFFF" "solid" None None "H" "png" in
  ("/tmp/out" ∉ fs_dirs Demo.world) /\
  fst (op Demo.world)
    = Raise (ValueError (unknown_module_shape_message "hexagon")) /\
  ("/tmp/out" ∈ fs_dirs (snd (op Demo.world))) /\
  fs_files (snd (op Demo.world)) = fs_files Demo.world.
Proof.
  intros op.
  pose proof (output_dir_created_first Demo.cfg Demo.env "hello" ""
    (Some "/tmp/out") None 10 2 "hexagon" "#000000" "#FFFFFF" "solid"
    "" "" None None 0%float 0%float "H" "png") as (_ & _ & Hs & _).
  specialize (Hs Demo.world). fold op in Hs.
  destruct (_ensure_output_dir _ Demo.world) as [[e|out] w1] eqn:Hens.
  - vm_compute in Hens. discriminate Hens.
  - destruct Hs as (Hin & _ & Hfiles).
    assert (Hr : fst (op Demo.world)
              = Raise (ValueError (unknown_module_shape_message "hexagon")))
      by (vm_compute; reflexivity).
    split; [|split; [exact Hr|split; [exact Hin|exact (Hfiles _ Hr)]]].
    apply (bool_decide_eq_false_1 _). vm_compute. reflexivity.
Defined.

(** ** Requests to the encoder *)

Lemma requests_raise {A} (req : QRRequest) (e : exn) :
  requests req (@raise A e).
Proof. intros w. left. simpl. eauto. Qed.

Lemma requests_bind {A B} (req : QRRequest) (m : M A) (k : A -> M B) :
  preserves qr_requests m -> (forall a, requests req (k a)) ->
  requests req (bind m k).
Proof.
  intros Hm Hk w. unfold bind. specialize (Hm w).
  destruct (m w) as [[e|a] w1]; simpl in *; [left; eauto|].
  rewrite <- Hm. apply Hk.
Qed.

Lemma requests_encode {B} (env : Env) (req : QRRequest)
    (k : QRCode -> M B) :
  (forall q, preserves qr_requests (k q)) ->
  requests req (bind (qr_encode env req) k).
Proof.
  intros Hk w. right. unfold bind, qr_encode.
  destruct (qr_make env req) as [e|q]; simpl; [reflexivity|].
  rewrite Hk. reflexivity.
Qed.

#[export] Hint Resolve requests_raise requests_bind requests_encode : frame.
#[export] Hint Extern 2 (requests _ (if ?b then _ else _)) =>
  destruct b : frame.
#[export] Hint Extern 2 (requests _ (match ?x with _ => _ end)) =>
  destruct x : frame.

Lemma dict_get_unknown_level (key : string) :
  unknown_level key ->
  dict_get ERROR_CORRECTION_LEVELS (PyStr.upper key) ERROR_CORRECT_H
  = ERROR_CORRECT_H.
Proof.
  unfold unknown_level, dict_mem, dict_get.
  destruct (dict_lookup _ _); [discriminate|reflexivity].
Qed.

Lemma echo_bind {A} (v : string) (m : M A) (k k' : A -> M ResultRecord)
    (w : World) :
  (forall a w1, k' a w1 = echo_level v (k a w1)) ->
  bind m k' w = echo_level v (bind m k w).
Proof.
  intros Hk. unfold bind. destruct (m w) as [[e|a] w1]; [reflexivity|].
  apply Hk.
Qed.

Ltac echo :=
  repeat first
    [ reflexivity
    | apply echo_bind; intros
    | match goal with
      | |- (if ?b then _ else _) _ = echo_level _ _ => destruct b
      | |- (match ?x with _ => _ end) _ = echo_level _ _ => destruct x
      | |- (let (_, _) := ?x in _) _ = echo_level _ _ => destruct x
      end ].

Section ErrorCorrection.

Variable cfg : Config.
Variable env : Env.
Variables (data path : string) (output_dir filename : option string).
Variables (size border : Z).
Variables (module_shape fg_color bg_color gradient_style : string).
Variables (center_color edge_color : string).
Variables (gradient_center_color gradient_edge_color : option string).
Variables (ratio brightness : float) (output_format : string).

Lemma generate_basic_requests (key : string) :
  requests
    (mkQRRequest data
       (dict_get ERROR_CORRECTION_LEVELS (PyStr.upper key) ERROR_CORRECT_H)
       size border)
    (generate_basic cfg env data output_dir filename size border fg_color
       bg_color key output_format).
Proof. unfold generate_basic. cbv zeta. eauto 40 with frame. Qed.

Lemma generate_styled_requests (key : string) :
  requests
    (mkQRRequest data
       (dict_get ERROR_CORRECTION_LEVELS (PyStr.upper key) ERROR_CORRECT_H)
       size border)
    (generate_styled cfg env data output_dir filename size border
       module_shape fg_color bg_color gradient_style gradient_center_color
       gradient_edge_color key output_format).
Proof. unfold generate_styled. cbv zeta. eauto 40 with frame. Qed.

Lemma generate_with_logo_requests (key : string) :
  requests (mkQRRequest data ERROR_CORRECT_H size border)
    (generate_with_logo cfg env data path output_dir filename size border
       module_shape fg_color bg_color ratio key output_format).
Proof. unfold generate_with_logo. cbv zeta. eauto 60 with frame. Qed.

Lemma generate_with_background_image_requests (key : string) :
  requests
    (mkQRRequest data
       (dict_get ERROR_CORRECTION_LEVELS (PyStr.upper key) ERROR_CORRECT_H)
       size border)
    (generate_with_background_image cfg env data path output_dir filename
       size border module_shape brightness key output_format).
Proof.
  unfold generate_with_background_image. cbv zeta. eauto 40 with frame.
Qed.

Lemma generate_transparent_requests (key : string) :
  requests
    (mkQRRequest data
       (dict_get ERROR_CORRECTION_LEVELS (PyStr.upper key) ERROR_CORRECT_H)
       size border)
    (generate_transparent cfg env data output_dir filename size border
       module_shape fg_color key).
Proof. unfold generate_transparent. cbv zeta. eauto 40 with frame. Qed.

Lemma generate_gradient_requests (key : string) :
  requests
    (mkQRRequest data
       (dict_get ERROR_CORRECTION_LEVELS (PyStr.upper key) ERROR_CORRECT_H)
       size border)
    (generate_gradient cfg env data output_dir filename size border
       module_shape gradient_style center_color edge_color bg_color key
       output_format).
Proof. unfold generate_gradient. cbv zeta. eauto 40 with frame. Qed.

(** C1, amended: a key that is none of L, M, Q, H (in any case) is not
    rejected.  Each operation runs as it does with the key ["H"]: the only
    request it can send to the encoder has level H, its outcome and its
    effects are those of the run with ["H"], and the record it returns
    echoes the upper-cased key (the logo operation echoes ["H"]). *)
Theorem unknown_level_falls_back_to_H (key : string) (w : World) :
  unknown_level key ->
  let req := mkQRRequest data ERROR_CORRECT_H size border in
  let echo := echo_level (PyStr.upper key) in
  (requests req
     (generate_basic cfg env data output_dir filename size border fg_color
        bg_color key output_format) /\
   generate_basic cfg env data output_dir filename size border fg_color
     bg_color key output_format w
   = echo (generate_basic cfg env data output_dir filename size border
             fg_color bg_color "H" output_format w))
  /\ (requests req
        (generate_styled cfg env data output_dir filename size border
           module_shape fg_color bg_color gradient_style
           gradient_center_color gradient_edge_color key output_format) /\
      generate_styled cfg env data output_dir filename size border
        module_shape fg_color bg_color gradient_style gradient_center_color
        gradient_edge_color key output_format w
      = echo (generate_styled cfg env data output_dir filename size border
                module_shape fg_color bg_color gradient_style
                gradient_center_color gradient_edge_color "H"
                output_format w))
  /\ (requests req
        (generate_with_logo cfg env data path output_dir filename size
           border module_shape fg_color bg_color ratio key output_format) /\
      generate_with_logo cfg env data path output_dir filename size border
        module_shape fg_color bg_color ratio key output_format w
      = generate_with_logo cfg env data path output_dir filename size
          border module_shape fg_color bg_color ratio "H" output_format w)
  /\ (requests req
        (generate_with_background_image cfg env data path output_dir
           filename size border module_shape brightness key
           output_format) /\
      generate_with_background_image cfg env data path output_dir filename
        size border module_shape brightness key output_format w
      = echo (generate_with_background_image cfg env data path output_dir
                filename size border module_shape brightness "H"
                output_format w))
  /\ (requests req
        (generate_transparent cfg env data output_dir filename size border
           module_shape fg_color key) /\
      generate_transparent cfg env data output_dir filename size border
        module_shape fg_color key w
      = echo (generate_transparent cfg env data output_dir filename size
                border module_shape fg_color "H" w))
  /\ (requests req
        (generate_gradient cfg env data output_dir filename size border
           module_shape gradient_style center_color edge_color bg_color key
           output_format) /\
      generate_gradient cfg env data output_dir filename size border
        module_shape gradient_style center_color edge_color bg_color key
        output_format w
      = echo (generate_gradient cfg env data output_dir filename size
                border module_shape gradient_style center_color edge_color
                bg_color "H" output_format w)).
Proof.
  intros Hkey req echo. pose proof (dict_get_unknown_level key Hkey) as Hec.
  assert (HH : dict_get ERROR_CORRECTION_LEVELS (PyStr.upper "H")
                 ERROR_CORRECT_H = ERROR_CORRECT_H) by reflexivity.
  subst req echo.
  split; [|split; [|split; [|split; [|split]]]]; (split;
    [ rewrite <- Hec;
      first [ apply generate_basic_requests
            | apply generate_styled_requests
            | apply generate_with_background_image_requests
            | apply generate_transparent_requests
            | apply generate_gradient_requests
            | rewrite Hec; apply generate_with_logo_requests ]
    | ]).
  - unfold generate_basic. rewrite Hec, HH. cbv zeta. echo.
  - unfold generate_styled. rewrite Hec, HH. cbv zeta. echo.
  - reflexivity.
  - unfold generate_with_background_image. rewrite Hec, HH. cbv zeta. echo.
  - unfold generate_transparent. rewrite Hec, HH. cbv zeta. echo.
  - unfold generate_gradient. rewrite Hec, HH. cbv zeta. echo.
Qed.

End ErrorCorrection.

(** C1 as the specification states it fails: with the key ["X"] the basic
    operation returns a record, and the symbol was requested at level H. *)
Lemma unknown_level_accepted :
  let outcome :=
    generate_basic Demo.cfg Demo.env "hello" None (Some "a") 1 0 "#000000"
      "#FFFFFF" "X" "png" Demo.world in
  unknown_level "X" /\
  fst outcome
  = Ok [ ("saved_path", VStr "/home/user/Downloads/qrcode_mcp/a.png");
         ("data", VStr "hello"); ("style", VStr "basic");
         ("fg_color", VStr "#000000"); ("bg_color", VStr "#FFFFFF");
         ("size", VInt 1); ("border", VInt 0);
         ("error_correction", VStr "X"); ("format", VStr "png") ] /\
  qr_requests (snd outcome) = [ mkQRRequest "hello" ERROR_CORRECT_H 1 0 ].
Proof. repeat split; vm_compute; reflexivity. Qed.

Lemma unknown_level_falls_back_to_H_witness :
  unknown_level "X" /\
  generate_basic Demo.cfg Demo.env "hello" None (Some "a") 1 0 "#000000"
    "#FFFFFF" "X" "png" Demo.world
  = echo_level (PyStr.upper "X")
      (generate_basic Demo.cfg Demo.env "hello" None (Some "a") 1 0
         "#000000" "#FFFFFF" "H" "png" Demo.world).
Proof.
  assert (Hkey : unknown_level "X") by reflexivity.
  split; [exact Hkey|].
  exact (proj2 (proj1 (unknown_level_falls_back_to_H Demo.cfg Demo.env
    "hello" "" None (Some "a") 1 0 "" "#000000" "#FFFFFF" "" "" "" None
    None 0%float 0%float "png" "X" Demo.world Hkey))).
Defined.

(** ** What an operation returns *)

Lemma returns_ret {A} (P : A -> Prop) (a : A) : P a -> returns P (ret a).
Proof. intros Ha w a' w' [= <- _]. exact Ha. Qed.

Lemma returns_raise {A} (P : A -> Prop) (e : exn) : returns P (raise e).
Proof. intros w a w' [=]. Qed.

Lemma returns_bind {A B} (P : B -> Prop) (m : M A) (k : A -> M B) :
  (forall a, returns P (k a)) -> returns P (bind m k).
Proof.
  intros Hk w b w'. unfold bind.
  destruct (m w) as [[e|a] w1]; [intros [=]|]. apply Hk.
Qed.

#[export] Hint Resolve returns_ret returns_raise returns_bind : frame.
#[export] Hint Extern 2 (returns _ (if ?b then _ else _)) =>
  destruct b : frame.
#[export] Hint Extern 2 (returns _ (match ?x with _ => _ end)) =>
  destruct x : frame.

(** C2: whatever error-correction level the caller of the logo operation
    supplies, the only request the operation sends to the encoder has
    level H, and when it returns a record the symbol was requested at
    level H and the field [error_correction] of the record is ["H"]. *)
Theorem logo_forces_level_H (cfg : Config) (env : Env)
    (data logo_path : string) (output_dir filename : option string)
    (size border : Z) (module_shape fg_color bg_color : string)
    (logo_size_ratio : float) (error_correction output_format : string) :
  let op :=
    generate_with_logo cfg env data logo_path output_dir filename size
      border module_shape fg_color bg_color logo_size_ratio
      error_correction output_format in
  let req := mkQRRequest data ERROR_CORRECT_H size border in
  requests req op /\
  forall w r w',
    op w = (Ok r, w') ->
    dict_lookup r "error_correction" = Some (VStr "H") /\
    qr_requests w' = (qr_requests w ++ [req])%list.
Proof.
  intros op req.
  assert (Hreq : requests req op)
    by apply generate_with_logo_requests.
  split; [exact Hreq|]. intros w r w' Hop. split.
  - revert w r w' Hop.
    change (returns (fun r => dict_lookup r "error_correction"
                              = Some (VStr "H")) op).
    unfold op, generate_with_logo. cbv zeta. eauto 60 with frame.
  - destruct (Hreq w) as [[_ [e He]]|H]; rewrite Hop in *; simpl in *.
    + discriminate He.
    + exact H.
Qed.

Lemma logo_forces_level_H_witness :
  exists r w',
    generate_with_logo Demo.cfg Demo.env "hello" "/home/user/logo.png" None
      None 1 0 "circle" "#000" "#FFF" float_0_4 "L" "png" Demo.world
    = (Ok r, w') /\
    dict_lookup r "error_correction" = Some (VStr "H") /\
    qr_requests w' = [ mkQRRequest "hello" ERROR_CORRECT_H 1 0 ].
Proof.
  destruct (generate_with_logo Demo.cfg Demo.env "hello"
              "/home/user/logo.png" None None 1 0 "circle" "#000" "#FFF"
              float_0_4 "L" "png" Demo.world) as [[e|r] w'] eqn:Hop.
  - vm_compute in Hop. discriminate Hop.
  - exists r, w'. split; [reflexivity|].
    exact (proj2 (logo_forces_level_H Demo.cfg Demo.env "hello"
      "/home/user/logo.png" None None 1 0 "circle" "#000" "#FFF" float_0_4
      "L" "png") Demo.world r w' Hop).
Defined.

(** ** Messages that list the valid keys *)

Lemma append_assoc (a b c : string) : (a +:+ b) +:+ c = a +:+ (b +:+ c).
Proof.
  induction a as [|x a IH]; [reflexivity|].
  change (String x ((a +:+ b) +:+ c) = String x (a +:+ (b +:+ c))).
  rewrite IH. reflexivity.
Qed.

Lemma append_empty_r (a : string) : a +:+ "" = a.
Proof.
  induction a as [|x a IH]; [reflexivity|].
  change (String x (a +:+ "") = String x a). rewrite IH. reflexivity.
Qed.

Lemma contains_self (k : string) : contains k k.
Proof.
  exists "", "". change ("" +:+ k +:+ "") with (k +:+ "").
  rewrite append_empty_r. reflexivity.
Qed.

Lemma contains_append_l (s post k : string) :
  contains s k -> contains (s +:+ post) k.
Proof.
  intros (a & b & ->). exists a, (b +:+ post).
  rewrite !append_assoc. reflexivity.
Qed.

Lemma contains_append_r (pre s k : string) :
  contains s k -> contains (pre +:+ s) k.
Proof.
  intros (a & b & ->). exists (pre +:+ a), b.
  rewrite !append_assoc. reflexivity.
Qed.

Lemma join_contains (sep : string) (l : list string) (k : string) :
  In k l -> contains (PyStr.join sep l) k.
Proof.
  induction l as [|x l IH]; [intros []|].
  intros [<-|Hin].
  - destruct l; simpl; [apply contains_self|].
    apply contains_append_l, contains_self.
  - destruct l as [|y l]; [destruct Hin|].
    change (PyStr.join sep (x :: y :: l))
      with (x +:+ sep +:+ PyStr.join sep (y :: l)).
    apply contains_append_r, contains_append_r, IH, Hin.
Qed.

Lemma unknown_module_shape_message_lists (module_shape k : string) :
  In k (dict_keys MODULE_SHAPES) ->
  contains (unknown_module_shape_message module_shape) k.
Proof.
  intros Hk. unfold unknown_module_shape_message.
  do 3 apply contains_append_r. apply join_contains, Hk.
Qed.

Lemma unknown_gradient_style_message_lists (gradient_style k : string)
    (valid : list string) :
  In k valid ->
  contains (unknown_gradient_style_message gradient_style valid) k.
Proof.
  intros Hk. unfold unknown_gradient_style_message.
  do 3 apply contains_append_r. apply join_contains, Hk.
Qed.

Lemma valid_gradients_spec (k : string) :
  k ∈ valid_gradients <->
  k = "radial" \/ k = "square" \/ k = "horizontal" \/ k = "vertical".
Proof.
  unfold valid_gradients. rewrite !elem_of_union, !elem_of_singleton. tauto.
Qed.

Lemma valid_gradients_in_catalogue (k : string) :
  k ∈ valid_gradients -> dict_mem GRADIENT_STYLES k = true.
Proof.
  rewrite valid_gradients_spec. intros [-> | [-> | [-> | ->]]]; reflexivity.
Qed.

(** ** Unknown style keys *)

Lemma module_drawer_for_unknown (module_shape : string) (w : World) :
  dict_mem MODULE_SHAPES (PyStr.lower module_shape) = false ->
  module_drawer_for module_shape w
  = (Raise (unknown_module_shape module_shape), w).
Proof. unfold module_drawer_for. intros ->. reflexivity. Qed.

Lemma module_drawer_for_known (module_shape : string) (w : World) :
  dict_mem MODULE_SHAPES (PyStr.lower module_shape) = true ->
  exists drawer,
    module_drawer_for module_shape w
    = (Ok (PyStr.lower module_shape, drawer), w).
Proof.
  unfold module_drawer_for, dict_mem, dict_subscript. intros H.
  destruct (dict_lookup MODULE_SHAPES _) as [dr|] eqn:Hl; [|discriminate].
  exists dr. reflexivity.
Qed.

Lemma is_file_present (p : string) (w : World) :
  p ∈ dom (fs_files w) -> is_file p w = (Ok true, w).
Proof.
  intros H. unfold is_file. rewrite bool_decide_eq_true_2 by assumption.
  reflexivity.
Qed.

Ltac step H :=
  first [ rewrite (bind_ok _ _ _ _ _ H)
        | rewrite (bind_lift_ok _ _ _ _ H)
        | rewrite (bind_raise _ _ _ _ _ H) ].

Section StyleKeys.

Variable cfg : Config.
Variable env : Env.
Variables (data path : string) (output_dir filename : option string).
Variables (size border : Z).
Variables (module_shape fg_color bg_color gradient_style : string).
Variables (center_color edge_color : string).
Variables (gradient_center_color gradient_edge_color : option string).
Variables (ratio brightness : float).
Variables (error_correction output_format : string).
Variables (w w1 : World) (out : string).

Hypothesis Hdir :
  _ensure_output_dir (resolve_output_dir cfg output_dir) w = (Ok out, w1).

Lemma styled_rejects_shape :
  parses bg_color ->
  dict_mem MODULE_SHAPES (PyStr.lower module_shape) = false ->
  generate_styled cfg env data output_dir filename size border module_shape
    fg_color bg_color gradient_style gradient_center_color
    gradient_edge_color error_correction output_format w
  = (Raise (unknown_module_shape module_shape), w1).
Proof.
  intros [bg Hbg] Hshape. unfold generate_styled. cbv zeta.
  step Hdir. step Hbg.
  step (module_drawer_for_unknown module_shape w1 Hshape). reflexivity.
Qed.

Lemma styled_rejects_gradient :
  parses bg_color ->
  dict_mem MODULE_SHAPES (PyStr.lower module_shape) = true ->
  dict_mem GRADIENT_STYLES (PyStr.lower gradient_style) = false ->
  generate_styled cfg env data output_dir filename size border module_shape
    fg_color bg_color gradient_style gradient_center_color
    gradient_edge_color error_correction output_format w
  = (Raise (unknown_gradient_style gradient_style
              (dict_keys GRADIENT_STYLES)), w1).
Proof.
  intros [bg Hbg] Hshape Hgrad. unfold generate_styled. cbv zeta.
  destruct (module_drawer_for_known module_shape w1 Hshape) as [dr Hdr].
  step Hdir. step Hbg. step Hdr. rewrite Hgrad. reflexivity.
Qed.

Lemma logo_rejects_shape :
  path ∈ dom (fs_files w) -> parses fg_color -> parses bg_color ->
  dict_mem MODULE_SHAPES (PyStr.lower module_shape) = false ->
  generate_with_logo cfg env data path output_dir filename size border
    module_shape fg_color bg_color ratio error_correction output_format w
  = (Raise (unknown_module_shape module_shape), w1).
Proof.
  intros Hfile [fg Hfg] [bg Hbg] Hshape. unfold generate_with_logo.
  cbv zeta. step Hdir.
  apply _ensure_output_dir_ok in Hdir as (_ & _ & Hfiles & _).
  rewrite <- Hfiles in Hfile. step (is_file_present path w1 Hfile).
  cbn [negb]. step Hfg. step Hbg.
  step (module_drawer_for_unknown module_shape w1 Hshape). reflexivity.
Qed.

Lemma image_rejects_shape :
  path ∈ dom (fs_files w) ->
  dict_mem MODULE_SHAPES (PyStr.lower module_shape) = false ->
  generate_with_background_image cfg env data path output_dir filename
    size border module_shape brightness error_correction output_format w
  = (Raise (unknown_module_shape module_shape), w1).
Proof.
  intros Hfile Hshape. unfold generate_with_background_image.
  cbv zeta. step Hdir.
  apply _ensure_output_dir_ok in Hdir as (_ & _ & Hfiles & _).
  rewrite <- Hfiles in Hfile. step (is_file_present path w1 Hfile).
  cbn [negb].
  step (module_drawer_for_unknown module_shape w1 Hshape). reflexivity.
Qed.

Lemma transparent_rejects_shape :
  parses fg_color ->
  dict_mem MODULE_SHAPES (PyStr.lower module_shape) = false ->
  generate_transparent cfg env data output_dir filename size border
    module_shape fg_color error_correction w
  = (Raise (unknown_module_shape module_shape), w1).
Proof.
  intros [fg Hfg] Hshape. unfold generate_transparent. cbv zeta.
  step Hdir. step Hfg.
  step (module_drawer_for_unknown module_shape w1 Hshape). reflexivity.
Qed.

Lemma gradient_rejects_shape :
  parses bg_color -> parses center_color -> parses edge_color ->
  dict_mem MODULE_SHAPES (PyStr.lower module_shape) = false ->
  generate_gradient cfg env data output_dir filename size border
    module_shape gradient_style center_color edge_color bg_color
    error_correction output_format w
  = (Raise (unknown_module_shape module_shape), w1).
Proof.
  intros [bg Hbg] [c Hc] [e He] Hshape. unfold generate_gradient.
  cbv zeta. step Hdir. step Hbg. step Hc. step He.
  step (module_drawer_for_unknown module_shape w1 Hshape). reflexivity.
Qed.

Lemma gradient_rejects_gradient :
  parses bg_color -> parses center_color -> parses edge_color ->
  dict_mem MODULE_SHAPES (PyStr.lower module_shape) = true ->
  PyStr.lower gradient_style ∉ valid_gradients ->
  generate_gradient cfg env data output_dir filename size border
    module_shape gradient_style center_color edge_color bg_color
    error_correction output_format w
  = (Raise (unknown_gradient_style gradient_style
              (elements valid_gradients)), w1).
Proof.
  intros [bg Hbg] [c Hc] [e He] Hshape Hgrad. unfold generate_gradient.
  cbv zeta.
  destruct (module_drawer_for_known module_shape w1 Hshape) as [dr Hdr].
  step Hdir. step Hbg. step Hc. step He. step Hdr.
  rewrite bool_decide_eq_false_2 by assumption. reflexivity.
Qed.

End StyleKeys.

(** C7: in every operation that takes a module shape, and in the two that
    take a fill mode ([gradient_style]), a key that after lower-casing is
    not in the catalogue makes the operation fail with the [ValueError]
    whose message lists every valid key of that field.  The earlier
    stages of the operation are assumed to pass: the output directory can
    be created, the colours parsed before the key is looked at are valid,
    the logo or image file exists, and for the fill mode the module shape
    is known. *)
Theorem unknown_style_key_rejected (cfg : Config) (env : Env)
    (data path : string) (output_dir filename : option string)
    (size border : Z)
    (module_shape fg_color bg_color gradient_style : string)
    (center_color edge_color : string)
    (gradient_center_color gradient_edge_color : option string)
    (ratio brightness : float) (error_correction output_format : string)
    (w w1 : World) (out : string) :
  _ensure_output_dir (resolve_output_dir cfg output_dir) w = (Ok out, w1) ->
  (dict_mem MODULE_SHAPES (PyStr.lower module_shape) = false ->
   (forall k, In k (dict_keys MODULE_SHAPES) ->
              contains (unknown_module_shape_message module_shape) k)
   /\ (parses bg_color ->
       generate_styled cfg env data output_dir filename size border
         module_shape fg_color bg_color gradient_style
         gradient_center_color gradient_edge_color error_correction
         output_format w
       = (Raise (unknown_module_shape module_shape), w1))
   /\ (path ∈ dom (fs_files w) -> parses fg_color -> parses bg_color ->
       generate_with_logo cfg env data path output_dir filename size border
         module_shape fg_color bg_color ratio error_correction
         output_format w
       = (Raise (unknown_module_shape module_shape), w1))
   /\ (path ∈ dom (fs_files w) ->
       generate_with_background_image cfg env data path output_dir
         filename size border module_shape brightness error_correction
         output_format w
       = (Raise (unknown_module_shape module_shape), w1))
   /\ (parses fg_color ->
       generate_transparent cfg env data output_dir filename size border
         module_shape fg_color error_correction w
       = (Raise (unknown_module_shape module_shape), w1))
   /\ (parses bg_color -> parses center_color -> parses edge_color ->
       generate_gradient cfg env data output_dir filename size border
         module_shape gradient_style center_color edge_color bg_color
         error_correction output_format w
       = (Raise (unknown_module_shape module_shape), w1)))
  /\ (dict_mem GRADIENT_STYLES (PyStr.lower gradient_style) = false ->
      dict_mem MODULE_SHAPES (PyStr.lower module_shape) = true ->
      parses bg_color ->
      (generate_styled cfg env data output_dir filename size border
         module_shape fg_color bg_color gradient_style
         gradient_center_color gradient_edge_color error_correction
         output_format w
       = (Raise (unknown_gradient_style gradient_style
                   (dict_keys GRADIENT_STYLES)), w1)
       /\ forall k, In k (dict_keys GRADIENT_STYLES) ->
            contains (unknown_gradient_style_message gradient_style
                        (dict_keys GRADIENT_STYLES)) k)
      /\ (parses center_color -> parses edge_color ->
          generate_gradient cfg env data output_dir filename size border
            module_shape gradient_style center_color edge_color bg_color
            error_correction output_format w
          = (Raise (unknown_gradient_style gradient_style
                      (elements valid_gradients)), w1)
          /\ forall k, k ∈ valid_gradients ->
               contains (unknown_gradient_style_message gradient_style
                           (elements valid_gradients)) k)).
Proof.
  intros Hdir. split.
  - intros Hshape. split; [|split; [|split; [|split; [|split]]]].
    + intros k Hk.
      exact (unknown_module_shape_message_lists module_shape k Hk).
    + intros Hbg.
      exact (styled_rejects_shape cfg env data output_dir filename size
               border module_shape fg_color bg_color gradient_style
               gradient_center_color gradient_edge_color error_correction
               output_format w w1 out Hdir Hbg Hshape).
    + intros Hfile Hfg Hbg.
      exact (logo_rejects_shape cfg env data path output_dir filename size
               border module_shape fg_color bg_color ratio error_correction
               output_format w w1 out Hdir Hfile Hfg Hbg Hshape).
    + intros Hfile.
      exact (image_rejects_shape cfg env data path output_dir filename size
               border module_shape brightness error_correction
               output_format w w1 out Hdir Hfile Hshape).
    + intros Hfg.
      exact (transparent_rejects_shape cfg env data output_dir filename
               size border module_shape fg_color error_correction w w1 out
               Hdir Hfg Hshape).
    + intros Hbg Hc He.
      exact (gradient_rejects_shape cfg env data output_dir filename size
               border module_shape bg_color gradient_style center_color
               edge_color error_correction output_format w w1 out Hdir Hbg
               Hc He Hshape).
  - intros Hgrad Hshape Hbg. split; [split|].
    + exact (styled_rejects_gradient cfg env data output_dir filename size
               border module_shape fg_color bg_color gradient_style
               gradient_center_color gradient_edge_color error_correction
               output_format w w1 out Hdir Hbg Hshape Hgrad).
    + intros k Hk.
      exact (unknown_gradient_style_message_lists gradient_style k _ Hk).
    + intros Hc He. split.
      * assert (Hnot : PyStr.lower gradient_style ∉ valid_gradients).
        { intros Hin. apply valid_gradients_in_catalogue in Hin.
          rewrite Hin in Hgrad. discriminate Hgrad. }
        exact (gradient_rejects_gradient cfg env data output_dir filename
                 size border module_shape bg_color gradient_style
                 center_color edge_color error_correction output_format w
                 w1 out Hdir Hbg Hc He Hshape Hnot).
      * intros k Hk.
        apply (unknown_gradient_style_message_lists gradient_style k).
        apply (proj1 (list_elem_of_In (elements valid_gradients) k)).
        exact (proj2 (elem_of_elements valid_gradients k) Hk).
Qed.

Lemma unknown_style_key_rejected_witness :
  (fst (generate_transparent Demo.cfg Demo.env "hello" (Some "/tmp/out")
          None 10 2 "Hexagon" "#000" "H" Demo.world)
   = Raise (unknown_module_shape "Hexagon")
   /\ contains (unknown_module_shape_message "Hexagon") "vertical_bars")
  /\ (fst (generate_gradient Demo.cfg Demo.env "hello" (Some "/tmp/out")
             None 10 2 "square" "Conic" "#F00" "#00F" "#FFF" "H" "png"
             Demo.world)
      = Raise (unknown_gradient_style "Conic" (elements valid_gradients))
      /\ contains (unknown_gradient_style_message "Conic"
                     (elements valid_gradients)) "horizontal").
Proof.
  destruct (_ensure_output_dir "/tmp/out" Demo.world) as [[e|out] w1]
    eqn:Hdir; [vm_compute in Hdir; discriminate Hdir|].
  assert (Hp : forall c v, _parse_color c = Ok v -> parses c)
    by (intros c v H; exists v; exact H).
  assert (H000 : parses "#000")
    by (apply (Hp _ (0, 0, 0)); vm_compute; reflexivity).
  assert (HFFF : parses "#FFF")
    by (apply (Hp _ (255, 255, 255)); vm_compute; reflexivity).
  assert (HF00 : parses "#F00")
    by (apply (Hp _ (255, 0, 0)); vm_compute; reflexivity).
  assert (H00F : parses "#00F")
    by (apply (Hp _ (0, 0, 255)); vm_compute; reflexivity).
  assert (Hhex : dict_mem MODULE_SHAPES (PyStr.lower "Hexagon") = false)
    by (vm_compute; reflexivity).
  assert (Hsq : dict_mem MODULE_SHAPES (PyStr.lower "square") = true)
    by (vm_compute; reflexivity).
  assert (Hconic : dict_mem GRADIENT_STYLES (PyStr.lower "Conic") = false)
    by (vm_compute; reflexivity).
  split.
  - pose proof (unknown_style_key_rejected Demo.cfg Demo.env "hello" ""
      (Some "/tmp/out") None 10 2 "Hexagon" "#000" "" "" "" "" None None
      0%float 0%float "H" "" Demo.world w1 out Hdir) as [H _].
    destruct (H Hhex) as (Hlist & _ & _ & _ & Ht & _). split.
    + rewrite (Ht H000). reflexivity.
    + apply Hlist. do 4 right. left. reflexivity.
  - pose proof (unknown_style_key_rejected Demo.cfg Demo.env "hello" ""
      (Some "/tmp/out") None 10 2 "square" "" "#FFF" "Conic" "#F00" "#00F"
      None None 0%float 0%float "H" "png" Demo.world w1 out Hdir) as [_ H].
    destruct (H Hconic Hsq HFFF) as [_ Hg].
    destruct (Hg HF00 H00F) as [Heq Hlist].
    split; [rewrite Heq; reflexivity|].
    apply Hlist. apply (proj2 (valid_gradients_spec "horizontal")). tauto.
Defined.

(** ** The fill modes of the gradient operation *)

Lemma encode_reached {B} (env : Env) (req : QRRequest) (k : QRCode -> M B)
    (w : World) :
  (forall q, preserves qr_requests (k q)) ->
  qr_requests (snd (bind (qr_encode env req) k w))
  = (qr_requests w ++ [req])%list.
Proof.
  intros Hk. unfold bind, qr_encode.
  destruct (qr_make env req) as [e|q]; simpl; [reflexivity|].
  rewrite Hk. reflexivity.
Qed.

(** C9: in the gradient operation the fill mode is one of the four
    gradient kinds.  With the earlier stages passing (directory created,
    the three colours valid, module shape known), a fill mode that after
    lower-casing is outside [valid_gradients], ["solid"] among them, fails
    with the [ValueError] of an unknown gradient style; each of ["radial"],
    ["square"], ["horizontal"] and ["vertical"] passes the check: the
    symbol is requested from the encoder, and a returned record carries
    the key. *)
Theorem gradient_fill_modes (cfg : Config) (env : Env) (data : string)
    (output_dir filename : option string) (size border : Z)
    (module_shape gradient_style center_color edge_color bg_color : string)
    (error_correction output_format : string) (w w1 : World)
    (out : string) :
  _ensure_output_dir (resolve_output_dir cfg output_dir) w = (Ok out, w1) ->
  parses bg_color -> parses center_color -> parses edge_color ->
  dict_mem MODULE_SHAPES (PyStr.lower module_shape) = true ->
  let op :=
    generate_gradient cfg env data output_dir filename size border
      module_shape gradient_style center_color edge_color bg_color
      error_correction output_format in
  let key := PyStr.lower gradient_style in
  let req :=
    mkQRRequest data
      (dict_get ERROR_CORRECTION_LEVELS (PyStr.upper error_correction)
         ERROR_CORRECT_H) size border in
  (forall k, k ∈ valid_gradients <->
             k = "radial" \/ k = "square" \/ k = "horizontal"
             \/ k = "vertical")
  /\ (key = "solid" \/ key ∉ valid_gradients ->
      op w = (Raise (unknown_gradient_style gradient_style
                       (elements valid_gradients)), w1))
  /\ (key ∈ valid_gradients ->
      qr_requests (snd (op w)) = (qr_requests w ++ [req])%list
      /\ forall r w', op w = (Ok r, w') ->
           dict_lookup r "gradient_style" = Some (VStr key)).
Proof.
  intros Hdir Hbg Hc He Hshape op key req.
  split; [exact valid_gradients_spec|]. split.
  - intros Hkey.
    assert (Hnot : key ∉ valid_gradients).
    { destruct Hkey as [Hsolid|Hnot]; [|exact Hnot].
      rewrite Hsolid. intros Hin.
      apply (proj1 (valid_gradients_spec "solid")) in Hin.
      destruct Hin as [H|[H|[H|H]]]; discriminate H. }
    exact (gradient_rejects_gradient cfg env data output_dir filename size
             border module_shape bg_color gradient_style center_color
             edge_color error_correction output_format w w1 out Hdir Hbg Hc
             He Hshape Hnot).
  - intros Hkey. split.
    + destruct Hbg as [bg Hbg], Hc as [c Hc], He as [e He].
      destruct (module_drawer_for_known module_shape w1 Hshape)
        as [dr Hdr].
      pose proof (_ensure_output_dir_ok _ _ _ _ Hdir) as (_ & _ & _ & Hreq).
      rewrite <- Hreq. unfold op, generate_gradient. cbv zeta.
      step Hdir. step Hbg. step Hc. step He. step Hdr.
      fold key. rewrite (bool_decide_eq_true_2 _ Hkey). cbn [negb].
      apply (proj1 (valid_gradients_spec key)) in Hkey.
      destruct Hkey as [Hk|[Hk|[Hk|Hk]]]; rewrite Hk;
        (erewrite bind_lift_ok by reflexivity);
        cbv [String.eqb Ascii.eqb Bool.eqb];
        (erewrite bind_lift_ok by reflexivity);
        apply encode_reached; intros q; eauto 30 with frame.
    + assert (Hret : returns (fun r => dict_lookup r "gradient_style"
                                      = Some (VStr key)) op)
        by (unfold op, generate_gradient; cbv zeta; eauto 40 with frame).
      exact (Hret w).
Qed.

Lemma gradient_fill_modes_witness :
  fst (generate_gradient Demo.cfg Demo.env "hello" (Some "/tmp/out") None 1
         1 "square" "Solid" "#F00" "#00F" "#FFF" "q" "png" Demo.world)
  = Raise (unknown_gradient_style "Solid" (elements valid_gradients))
  /\ qr_requests
       (snd (generate_gradient Demo.cfg Demo.env "hello" (Some "/tmp/out")
               None 1 1 "square" "Radial" "#F00" "#00F" "#FFF" "q" "png"
               Demo.world))
     = [ mkQRRequest "hello" ERROR_CORRECT_Q 1 1 ].
Proof.
  destruct (_ensure_output_dir "/tmp/out" Demo.world) as [[e|out] w1]
    eqn:Hdir; [vm_compute in Hdir; discriminate Hdir|].
  assert (Hp : forall c v, _parse_color c = Ok v -> parses c)
    by (intros c v H; exists v; exact H).
  assert (HFFF : parses "#FFF")
    by (apply (Hp _ (255, 255, 255)); vm_compute; reflexivity).
  assert (HF00 : parses "#F00")
    by (apply (Hp _ (255, 0, 0)); vm_compute; reflexivity).
  assert (H00F : parses "#00F")
    by (apply (Hp _ (0, 0, 255)); vm_compute; reflexivity).
  assert (Hsq : dict_mem MODULE_SHAPES (PyStr.lower "square") = true)
    by (vm_compute; reflexivity).
  split.
  - pose proof (gradient_fill_modes Demo.cfg Demo.env "hello"
      (Some "/tmp/out") None 1 1 "square" "Solid" "#F00" "#00F" "#FFF" "q"
      "png" Demo.world w1 out Hdir HFFF HF00 H00F Hsq) as (_ & H & _).
    rewrite (H (or_introl eq_refl)). reflexivity.
  - pose proof (gradient_fill_modes Demo.cfg Demo.env "hello"
      (Some "/tmp/out") None 1 1 "square" "Radial" "#F00" "#00F" "#FFF" "q"
      "png" Demo.world w1 out Hdir HFFF HF00 H00F Hsq) as (_ & _ & H).
    assert (Hkey : PyStr.lower "Radial" ∈ valid_gradients)
      by (apply (proj2 (valid_gradients_spec _)); left; reflexivity).
    exact (proj1 (H Hkey)).
Defined.

(** ** The transparency pass *)

Lemma updated_between_refl {P} (f : P -> P) (lo : nat) (d : list P) :
  updated_between f lo lo d d.
Proof.
  split; [reflexivity|]. intros j. case_decide; [lia|reflexivity].
Qed.

Lemma updated_between_trans {P} (f : P -> P) (a b c : nat)
    (d d1 d2 : list P) :
  (a <= b <= c)%nat ->
  updated_between f a b d d1 -> updated_between f b c d1 d2 ->
  updated_between f a c d d2.
Proof.
  intros Habc [Hl1 H1] [Hl2 H2]. split; [congruence|].
  intros j. rewrite H2, H1.
  repeat case_decide; try lia; reflexivity.
Qed.

Lemma updated_between_insert {P} (f : P -> P) (i : nat) (d : list P)
    (p : P) :
  d !! i = Some p -> updated_between f i (S i) d (<[i := f p]> d).
Proof.
  intros Hp. split; [apply length_insert|]. intros j.
  destruct (decide (i = j)) as [<-|Hne].
  - rewrite list_lookup_insert_eq by (eapply lookup_lt_Some; eauto).
    rewrite Hp. case_decide; [reflexivity|lia].
  - rewrite list_lookup_insert_ne by assumption.
    case_decide; [lia|reflexivity].
Qed.

Lemma updated_between_all {P} (f : P -> P) (d d' : list P) :
  updated_between f 0 (length d) d d' -> d' = map f d.
Proof.
  intros [Hlen H]. apply list_eq. intros j. rewrite H, list_lookup_fmap.
  case_decide; [reflexivity|].
  rewrite lookup_ge_None_2 by lia. reflexivity.
Qed.

Section TransparencyPass.

Variables (W H : nat).

Let body (y x : Z) (img : Image RGBA) : result (Image RGBA) :=
  (try (r, g, b, a) := getpixel img x y in
   if (240 <? r) && (240 <? g) && (240 <? b)
   then putpixel img x y (r, g, b, 0)
   else Ok img)%result.

Let image (d : list RGBA) : Image RGBA :=
  mkImage (Z.of_nat W) (Z.of_nat H) d.

(** One pixel: the body of the inner loop *)
Lemma transparency_pixel (y x : nat) (d : list RGBA) :
  (x < W)%nat -> (y < H)%nat -> length d = (W * H)%nat ->
  exists d',
    body (Z.of_nat y) (Z.of_nat x) (image d) = Ok (image d') /\
    updated_between clear_if_white (y * W + x) (S (y * W + x)) d d'.
Proof.
  intros Hx Hy Hlen. set (i := (y * W + x)%nat).
  assert (Hi : (i < length d)%nat) by (subst i; nia).
  destruct (lookup_lt_is_Some_2 d i Hi) as [p Hp].
  assert (Hidx : pixel_index (image d) (Z.of_nat x) (Z.of_nat y) = i).
  { unfold pixel_index, image. simpl. subst i. lia. }
  assert (Hin : in_image (image d) (Z.of_nat x) (Z.of_nat y) = true).
  { unfold in_image, image. simpl.
    repeat (apply andb_true_intro; split); lia. }
  exists (<[i := clear_if_white p]> d). split.
  - unfold body, getpixel, putpixel. rewrite Hin, Hidx.
    change (im_data (image d)) with d. rewrite Hp. simpl.
    destruct p as [[[r g] b] a]. unfold clear_if_white.
    destruct ((240 <? r) && (240 <? g) && (240 <? b)).
    + reflexivity.
    + rewrite list_insert_id by assumption. reflexivity.
  - apply updated_between_insert, Hp.
Qed.

(** One row: the inner loop from column [x0] on *)
Lemma transparency_row (y : nat) (n x0 : nat) (d : list RGBA) :
  (x0 + n <= W)%nat -> (y < H)%nat -> length d = (W * H)%nat ->
  exists d',
    for_each (map Z.of_nat (seq x0 n)) (body (Z.of_nat y)) (image d)
    = Ok (image d') /\
    updated_between clear_if_white (y * W + x0) (y * W + x0 + n) d d'.
Proof.
  revert x0 d. induction n as [|n IH]; intros x0 d Hx Hy Hlen.
  - exists d. split; [reflexivity|].
    rewrite Nat.add_0_r. apply updated_between_refl.
  - destruct (transparency_pixel y x0 d) as (d1 & Hb & Hu1);
      [lia|assumption..|].
    destruct (IH (S x0) d1) as (d2 & Hf & Hu2);
      [lia|assumption|destruct Hu1; congruence|].
    exists d2. split.
    + simpl. rewrite Hb. simpl. exact Hf.
    + eapply updated_between_trans; [|exact Hu1|].
      * lia.
      * replace (S (y * W + x0)) with (y * W + S x0)%nat by lia.
        replace (y * W + x0 + S n)%nat with (y * W + S x0 + n)%nat by lia.
        exact Hu2.
Qed.

(** The rows from [y0] on: the outer loop *)
Lemma transparency_rows (m y0 : nat) (d : list RGBA) :
  (y0 + m <= H)%nat -> length d = (W * H)%nat ->
  exists d',
    for_each (map Z.of_nat (seq y0 m))
      (fun y img => for_each (map Z.of_nat (seq 0 W)) (body y) img)
      (image d)
    = Ok (image d') /\
    updated_between clear_if_white (y0 * W) ((y0 + m) * W) d d'.
Proof.
  revert y0 d. induction m as [|m IH]; intros y0 d Hy Hlen.
  - exists d. split; [reflexivity|].
    rewrite Nat.add_0_r. apply updated_between_refl.
  - destruct (transparency_row y0 W 0 d) as (d1 & Hr & Hu1);
      [lia|lia|assumption|].
    destruct (IH (S y0) d1) as (d2 & Hf & Hu2);
      [lia|destruct Hu1; congruence|].
    exists d2. split.
    + simpl. rewrite Hr. simpl. exact Hf.
    + replace (y0 * W + 0)%nat with (y0 * W)%nat in Hu1 by lia.
      replace (y0 * W + W)%nat with (S y0 * W)%nat in Hu1 by lia.
      replace ((y0 + S m) * W)%nat with ((S y0 + m) * W)%nat by lia.
      apply (updated_between_trans _ _ (S y0 * W) _ d d1 d2);
        [nia|exact Hu1|exact Hu2].
Qed.

End TransparencyPass.

(** On a well-formed image the pass never raises and is a map over the
    pixels. *)
Lemma make_white_transparent_map (img : Image RGBA) :
  image_wf img ->
  make_white_transparent img
  = Ok (mkImage (im_width img) (im_height img)
          (map clear_if_white (im_data img))).
Proof.
  destruct img as [w h d]. intros (Hw & Hh & Hlen). simpl in *.
  destruct (transparency_rows (Z.to_nat w) (Z.to_nat h) (Z.to_nat h) 0 d)
    as (d' & Hrun & Hup); [lia|rewrite Hlen; lia|].
  rewrite !Z2Nat.id in Hrun by assumption.
  unfold make_white_transparent, py_range.
  refine (eq_trans Hrun _). f_equal. f_equal.
  apply updated_between_all.
  replace (length d) with ((0 + Z.to_nat h) * Z.to_nat w)%nat
    by (rewrite Hlen; lia).
  exact Hup.
Qed.

Lemma lookup_map {A B} (f : A -> B) (l : list A) (i : nat) :
  map f l !! i = f <$> l !! i.
Proof.
  revert i. induction l as [|a l IH]; intros [|i]; simpl; auto.
Qed.

Lemma lookup_map_map {A B C} (f : A -> B) (g : B -> C) (l : list A)
    (i : nat) (a : A) :
  l !! i = Some a -> map g (map f l) !! i = Some (g (f a)).
Proof. intros H. rewrite !lookup_map, H. reflexivity. Qed.

Lemma bind_inv {A B} (m : M A) (k : A -> M B) (w w' : World) (b : B) :
  bind m k w = (Ok b, w') ->
  exists a w1, m w = (Ok a, w1) /\ k a w1 = (Ok b, w').
Proof.
  unfold bind. destruct (m w) as [[e|a] w1]; [intros [=]|]. eauto.
Qed.

Lemma lift_inv {A} (r : result A) (w w' : World) (a : A) :
  lift r w = (Ok a, w') -> r = Ok a /\ w' = w.
Proof. unfold lift. intros [= -> ->]. auto. Qed.

Lemma module_drawer_for_inv (module_shape key : string)
    (drawer : ModuleDrawer) (w w' : World) :
  module_drawer_for module_shape w = (Ok (key, drawer), w') ->
  key = PyStr.lower module_shape /\
  dict_lookup MODULE_SHAPES (PyStr.lower module_shape) = Some drawer /\
  w' = w.
Proof.
  unfold module_drawer_for, dict_mem, dict_subscript.
  destruct (dict_lookup MODULE_SHAPES _) as [dr|]; [|intros [=]].
  intros [= <- <- <-]. auto.
Qed.

Lemma convert_RGB_to_RGBA_wf (img : Image Color) :
  image_wf img -> image_wf (convert_RGB_to_RGBA img).
Proof.
  intros (Hw & Hh & Hlen). unfold image_wf, convert_RGB_to_RGBA. simpl.
  rewrite length_map. auto.
Qed.

Lemma getpixel_wf {P} (img : Image P) (x y : Z) :
  image_wf img -> 0 <= x < im_width img -> 0 <= y < im_height img ->
  exists p,
    im_data img !! pixel_index img x y = Some p /\ getpixel img x y = Ok p.
Proof.
  intros (Hw & Hh & Hlen) Hx Hy.
  assert (Hi : (pixel_index img x y < length (im_data img))%nat)
    by (unfold pixel_index; rewrite Hlen; nia).
  destruct (lookup_lt_is_Some_2 _ _ Hi) as [p Hp]. exists p.
  split; [exact Hp|]. unfold getpixel, in_image.
  replace ((0 <=? x) && (x <? im_width img) && (0 <=? y)
           && (y <? im_height img)) with true
    by (symmetry; repeat (apply andb_true_intro; split); lia).
  rewrite Hp. reflexivity.
Qed.

(** C3: when the transparent operation returns, the file at [saved_path]
    is the white-background render in which every pixel whose three colour
    channels all exceed 240 has alpha 0 and every other pixel alpha 255,
    each pixel decided by its own channels alone. *)
Theorem transparent_alpha_per_pixel (cfg : Config) (env : Env)
    (data : string) (output_dir filename : option string) (size border : Z)
    (module_shape fg_color error_correction : string) (w w' : World)
    (record : ResultRecord) :
  EnvLaws env ->
  generate_transparent cfg env data output_dir filename size border
    module_shape fg_color error_correction w = (Ok record, w') ->
  exists path fg drawer qr rendered img,
    dict_lookup record "saved_path" = Some (VStr path) /\
    _parse_color fg_color = Ok fg /\
    dict_lookup MODULE_SHAPES (PyStr.lower module_shape) = Some drawer /\
    qr_make env
      (mkQRRequest data
         (dict_get ERROR_CORRECTION_LEVELS (PyStr.upper error_correction)
            ERROR_CORRECT_H) size border) = Ok qr /\
    qr_make_image env qr drawer (SolidFillColorMask (255, 255, 255) fg)
    = Ok rendered /\
    fs_files w' !! path = Some (ImageFile "PNG" (RGBAImage img)) /\
    im_width img = im_width rendered /\
    im_height img = im_height rendered /\
    forall x y,
      0 <= x < im_width rendered -> 0 <= y < im_height rendered ->
      exists r g b,
        getpixel rendered x y = Ok (r, g, b) /\
        getpixel img x y
        = Ok (r, g, b,
              if (240 <? r) && (240 <? g) && (240 <? b) then 0 else 255).
Proof.
  intros Hlaws Hop. unfold generate_transparent in Hop. cbv zeta in Hop.
  apply bind_inv in Hop as (out & w1 & Hdir & Hop).
  apply bind_inv in Hop as (fg & w2 & Hfg & Hop).
  apply lift_inv in Hfg as [Hfg ->].
  apply bind_inv in Hop as ([key drawer] & w3 & Hdr & Hop).
  apply module_drawer_for_inv in Hdr as (-> & Hdr & ->).
  apply bind_inv in Hop as (qr & w4 & Hqr & Hop).
  unfold qr_encode in Hqr. injection Hqr as Hqr Hw4.
  apply bind_inv in Hop as (rendered & w5 & Hrender & Hop).
  apply lift_inv in Hrender as [Hrender ->].
  apply bind_inv in Hop as (img & w6 & Himg & Hop).
  apply lift_inv in Himg as [Himg ->].
  apply bind_inv in Hop as (path & w7 & _ & Hop).
  apply bind_inv in Hop as ([] & w8 & Hsave & Hop).
  injection Hop as <- <-.
  unfold Image_save in Hsave.
  apply bind_inv in Hsave as (fmt & w9 & Hfmt & Hsave).
  injection Hfmt as <- <-.
  pose proof (write_image_files path "PNG" (RGBAImage img) w7) as Hfiles.
  rewrite Hsave in Hfiles.
  pose proof (qr_make_image_wf _ _ _ _ Hrender) as Hwf.
  rewrite (make_white_transparent_map _ (convert_RGB_to_RGBA_wf _ Hwf))
    in Himg.
  injection Himg as <-.
  exists path, fg, drawer, qr, rendered. eexists.
  split; [reflexivity|]. split; [exact Hfg|]. split; [exact Hdr|].
  split; [exact Hqr|]. split; [exact Hrender|].
  split; [rewrite Hfiles; apply lookup_insert_eq|].
  split; [reflexivity|]. split; [reflexivity|].
  intros x y Hx Hy.
  destruct (getpixel_wf rendered x y Hwf Hx Hy) as ([[r g] b] & Hp & Hget).
  exists r, g, b. split; [exact Hget|].
  set (img := mkImage _ _ _).
  assert (Hdata : im_data img !! pixel_index img x y
                  = Some (clear_if_white (r, g, b, 255))).
  { unfold img, convert_RGB_to_RGBA. cbn [im_data im_width im_height].
    change (pixel_index _ x y) with (pixel_index rendered x y).
    exact (lookup_map_map _ clear_if_white _ _ _ Hp). }
  unfold getpixel.
  replace (in_image img x y) with true
    by (symmetry; unfold in_image, img; simpl;
        repeat (apply andb_true_intro; split); lia).
  rewrite Hdata. unfold clear_if_white.
  destruct ((240 <? r) && (240 <? g) && (240 <? b)); reflexivity.
Qed.

(** ** The small instance satisfies the laws *)

Lemma Demo_thumbnail_size_square (x y m : Z) :
  0 < m -> m < Z.max x y ->
  let '(x', y') := Demo.thumbnail_size x y m m in Z.max x' y' = m.
Proof.
  intros Hm Hmax. unfold Demo.thumbnail_size.
  destruct (m <? x) eqn:Hx.
  - apply Z.ltb_lt in Hx.
    destruct (m <? Z.max (y * m / x) 1) eqn:Hy.
    + apply Z.ltb_lt in Hy.
      assert (m * m / Z.max (y * m / x) 1 < m + 1).
      { apply Z.div_lt_upper_bound; nia. }
      lia.
    + apply Z.ltb_ge in Hy. lia.
  - apply Z.ltb_ge in Hx.
    assert (Hy : m < y) by lia.
    rewrite (proj2 (Z.ltb_lt m y) Hy).
    assert (x * m / y < m + 1).
    { apply Z.div_lt_upper_bound; nia. }
    lia.
Qed.

Lemma Demo_laws : EnvLaws Demo.env.
Proof.
  split.
  - intros q d m img. simpl. unfold Demo.make_image.
    destruct (Demo.mask_colors m) as [back front]. intros [= <-].
    unfold image_wf. simpl. rewrite length_map, length_seq.
    repeat split; lia.
  - intros img w h Hw Hh. simpl. unfold Demo.thumbnail.
    rewrite (proj2 (Z.leb_le _ _) Hw), (proj2 (Z.leb_le _ _) Hh).
    reflexivity.
  - intros img m Hm Hmax. simpl. unfold Demo.thumbnail.
    replace ((im_width img <=? m) && (im_height img <=? m)) with false
      by (symmetry; apply andb_false_iff;
          rewrite !Z.leb_gt; lia).
    rewrite (proj2 (Z.leb_gt m 0) Hm). simpl.
    pose proof (Demo_thumbnail_size_square _ _ m Hm Hmax) as Hsize.
    destruct (Demo.thumbnail_size _ _ m m) as [x' y'].
    eexists. split; [reflexivity|]. exact Hsize.
Qed.

Lemma transparent_alpha_per_pixel_witness :
  exists path rendered img,
    fs_files
      (snd (generate_transparent Demo.cfg Demo.env "hello"
              (Some "/tmp/out") (Some "t") 1 1 "square" "#F5F5F5" "q"
              Demo.world))
      !! path = Some (ImageFile "PNG" (RGBAImage img)) /\
    forall x y,
      0 <= x < im_width rendered -> 0 <= y < im_height rendered ->
      exists r g b,
        getpixel rendered x y = Ok (r, g, b) /\
        getpixel img x y
        = Ok (r, g, b,
              if (240 <? r) && (240 <? g) && (240 <? b) then 0 else 255).
Proof.
  destruct (generate_transparent Demo.cfg Demo.env "hello"
              (Some "/tmp/out") (Some "t") 1 1 "square" "#F5F5F5" "q"
              Demo.world) as [[e|record] w'] eqn:Hop.
  - vm_compute in Hop. discriminate Hop.
  - destruct (transparent_alpha_per_pixel _ _ _ _ _ _ _ _ _ _ _ _ _
                Demo_laws Hop)
      as (path & fg & drawer & qr & rendered & img & _ & _ & _ & _ & _
          & Hfile & _ & _ & Hpx).
    exists path, rendered, img. split; [exact Hfile|exact Hpx].
Defined.

(** ** The size of the logo *)

Lemma float_ltb_leb (a b : float) :
  PrimFloat.ltb a b = true -> PrimFloat.leb a b = true.
Proof.
  rewrite ltb_spec, leb_spec. unfold SFltb, SFleb.
  destruct (SFcompare _ _) as [[]|]; congruence.
Qed.

Lemma clamp_logo_size_ratio_cases (ratio : float) :
  let r := clamp_logo_size_ratio ratio in
  (PrimFloat.ltb ratio float_0_4 = false -> r = float_0_4)
  /\ (PrimFloat.ltb ratio float_0_4 = true ->
      PrimFloat.ltb float_0_1 ratio = true -> r = ratio)
  /\ (PrimFloat.ltb ratio float_0_4 = true ->
      PrimFloat.ltb float_0_1 ratio = false -> r = float_0_1)
  /\ PrimFloat.leb float_0_1 r = true
  /\ PrimFloat.leb r float_0_4 = true.
Proof.
  unfold clamp_logo_size_ratio, py_max, py_min.
  destruct (PrimFloat.ltb ratio float_0_4) eqn:Hhi.
  - destruct (PrimFloat.ltb float_0_1 ratio) eqn:Hlo.
    + repeat split; try congruence; apply float_ltb_leb; assumption.
    + repeat split; try congruence; vm_compute; reflexivity.
  - change (PrimFloat.ltb float_0_1 float_0_4) with true. cbv iota.
    repeat split; try congruence; vm_compute; reflexivity.
Qed.

(** The resizing on two logos: a logo of 2 x 2 pixels on a canvas 21
    pixels wide keeps its size at ratio 0.3, and a logo of 40 x 20 pixels
    on a canvas 125 pixels wide gets the longest side 37, the integer part
    of 37.5; neither is the ratio times the canvas width. *)
Lemma logo_side_is_not_the_product :
  let ratio := clamp_logo_size_ratio 0x1.3333333333333p-2%float in
  let side (r : result (Image RGBA)) : option float :=
    match r with
    | inr logo =>
        Some (float_of_int (Z.max (im_width logo) (im_height logo)))
    | inl _ => None
    end in
  (side (resize_logo Demo.env Demo.logo 21 ratio) = Some 2%float /\
   PrimFloat.eqb 2 (PrimFloat.mul (float_of_int 21) ratio) = false)
  /\ (side (resize_logo Demo.env Demo.wide_logo 125 ratio) = Some 37%float /\
      PrimFloat.eqb 37 (PrimFloat.mul (float_of_int 125) ratio) = false).
Proof. repeat split; vm_compute; reflexivity. Qed.

Lemma resize_logo_inv (env : Env) (logo logo' : Image RGBA) (qr_width : Z)
    (ratio : float) :
  resize_logo env logo qr_width ratio = Ok logo' ->
  exists m,
    int_of_float (PrimFloat.mul (float_of_int qr_width) ratio) = Ok m /\
    pil_thumbnail env logo m m = Ok logo'.
Proof.
  unfold resize_logo.
  destruct (int_of_float _) as [e|m]; [intros [=]|]. simpl. eauto.
Qed.

Lemma Image_open_inv (path : string) (img : AnyImage) (w w' : World) :
  Image_open path w = (Ok img, w') ->
  (exists format, fs_files w !! path = Some (ImageFile format img))
  /\ w' = w.
Proof.
  unfold Image_open. destruct (fs_files w !! path) as [[fmt i|]|];
    intros [= <- <-]. eauto.
Qed.

Lemma Image_save_inv (env : Env) (path : string) (format : option string)
    (img : AnyImage) (w w' : World) :
  Image_save env path format img w = (Ok tt, w') ->
  exists fmt, fs_files w' = <[path := ImageFile fmt img]> (fs_files w).
Proof.
  unfold Image_save. intros Hsave.
  apply bind_inv in Hsave as (fmt & w1 & Hfmt & Hsave).
  assert (w1 = w) as ->.
  { destruct format; [injection Hfmt as _ <-; reflexivity|].
    apply lift_inv in Hfmt as [_ ->]. reflexivity. }
  pose proof (write_image_files path fmt img w) as Hfiles.
  rewrite Hsave in Hfiles. exists fmt. exact Hfiles.
Qed.

Lemma Demo_make_image_size (q : QRCode) (d : ModuleDrawer) (m : ColorMask)
    (img : Image Color) :
  Demo.make_image q d m = Ok img ->
  let side :=
    Z.max 0 ((Z.of_nat (length (qr_modules q))
              + 2 * req_border (qr_request q))
             * req_box_size (qr_request q)) in
  im_width img = side /\ im_height img = side.
Proof.
  unfold Demo.make_image. destruct (Demo.mask_colors m) as [back front].
  intros [= <-]. split; reflexivity.
Qed.

(** C8 fails on the code for a logo smaller than the box.  In every run
    that returns, the ratio in the record is the caller's ratio clamped
    into [0.1, 0.4]; the logo read from the file is given to [thumbnail]
    with the square box of side [m], the integer part of the ratio times
    the width of the canvas, and what [thumbnail] returns is what is pasted,
    centred, into the image written at [saved_path].  A logo with a side
    longer than [m] is shrunk until its longest side is [m].  A logo that
    fits in the box is pasted as it is: it is never enlarged, and its
    longest side is not the ratio times the width of the canvas. *)
Theorem logo_is_never_enlarged (cfg : Config) (env : Env)
    (data logo_path : string) (output_dir filename : option string)
    (size border : Z) (module_shape fg_color bg_color : string)
    (logo_size_ratio : float) (error_correction output_format : string)
    (w w' : World) (record : ResultRecord) :
  EnvLaws env ->
  generate_with_logo cfg env data logo_path output_dir filename size border
    module_shape fg_color bg_color logo_size_ratio error_correction
    output_format w = (Ok record, w') ->
  let ratio := clamp_logo_size_ratio logo_size_ratio in
  exists path format fg bg drawer qr rendered file_format logo_file m logo
         below pasted,
    dict_lookup record "saved_path" = Some (VStr path) /\
    dict_lookup record "logo_size_ratio" = Some (VFloat ratio) /\
    PrimFloat.leb float_0_1 ratio = true /\
    PrimFloat.leb ratio float_0_4 = true /\
    qr_make env (mkQRRequest data ERROR_CORRECT_H size border) = Ok qr /\
    qr_make_image env qr drawer (SolidFillColorMask bg fg) = Ok rendered /\
    fs_files w !! logo_path = Some (ImageFile file_format logo_file) /\
    int_of_float (PrimFloat.mul (float_of_int (im_width rendered)) ratio)
    = Ok m /\
    pil_thumbnail env (convert_RGBA logo_file) m m = Ok logo /\
    (im_width (convert_RGBA logo_file) <= m ->
     im_height (convert_RGBA logo_file) <= m ->
     logo = convert_RGBA logo_file) /\
    (0 < m ->
     m < Z.max (im_width (convert_RGBA logo_file))
           (im_height (convert_RGBA logo_file)) ->
     Z.max (im_width logo) (im_height logo) = m) /\
    pil_paste env below logo
      (im_width rendered / 2 - im_width logo / 2,
       im_height rendered / 2 - im_height logo / 2) logo = Ok pasted /\
    fs_files w' !! path
    = Some (ImageFile format (RGBImage (convert_RGBA_to_RGB pasted))).
Proof.
  intros Hlaws Hop ratio. unfold generate_with_logo in Hop.
  cbv zeta in Hop. fold ratio in Hop.
  apply bind_inv in Hop as (out & w1 & Hdir & Hop).
  pose proof (_ensure_output_dir_files (resolve_output_dir cfg output_dir) w)
    as Hfiles1.
  rewrite Hdir in Hfiles1. simpl in Hfiles1.
  apply bind_inv in Hop as (is_a_file & w2 & Hfile & Hop).
  injection Hfile as <- <-.
  destruct (negb _); [discriminate Hop|].
  apply bind_inv in Hop as (fg & w3 & Hfg & Hop).
  apply lift_inv in Hfg as [Hfg ->].
  apply bind_inv in Hop as (bg & w4 & Hbg & Hop).
  apply lift_inv in Hbg as [Hbg ->].
  apply bind_inv in Hop as ([key drawer] & w5 & Hdr & Hop).
  apply module_drawer_for_inv in Hdr as (-> & Hdr & ->).
  apply bind_inv in Hop as (qr & w6 & Hqr & Hop).
  unfold qr_encode in Hqr. injection Hqr as Hqr Hw6.
  apply bind_inv in Hop as (rendered & w7 & Hrender & Hop).
  apply lift_inv in Hrender as [Hrender ->].
  apply bind_inv in Hop as (logo_file & w8 & Hopen & Hop).
  apply Image_open_inv in Hopen as [[file_format Hopen] ->].
  apply bind_inv in Hop as (logo & w9 & Hresize & Hop).
  apply lift_inv in Hresize as [Hresize ->].
  apply resize_logo_inv in Hresize as (m & Hm & Hthumb).
  apply bind_inv in Hop as (pad & w10 & Hpad & Hop).
  apply lift_inv in Hpad as [Hpad ->].
  apply bind_inv in Hop as (layer & w11 & Hlayer & Hop).
  apply lift_inv in Hlayer as [Hlayer ->].
  apply bind_inv in Hop as (below & w12 & Hbelow & Hop).
  apply lift_inv in Hbelow as [Hbelow ->].
  apply bind_inv in Hop as (pasted & w13 & Hpaste & Hop).
  apply lift_inv in Hpaste as [Hpaste ->].
  apply bind_inv in Hop as (path & w14 & Hpath & Hop).
  apply bind_inv in Hop as ([] & w15 & Hsave & Hop).
  apply Image_save_inv in Hsave as [format Hsave].
  injection Hop as <- <-.
  assert (Hfiles6 : fs_files w6 = fs_files w)
    by (subst w6; exact Hfiles1).
  rewrite Hfiles6 in Hopen.
  destruct (clamp_logo_size_ratio_cases logo_size_ratio)
    as (_ & _ & _ & Hlo & Hhi).
  exists path, format, fg, bg, drawer, qr, rendered, file_format, logo_file,
    m, logo, below, pasted.
  split; [reflexivity|]. split; [reflexivity|].
  split; [exact Hlo|]. split; [exact Hhi|].
  split; [exact Hqr|]. split; [exact Hrender|].
  split; [exact Hopen|]. split; [exact Hm|]. split; [exact Hthumb|].
  split; [|split; [|split]].
  - intros Hw Hh.
    pose proof (pil_thumbnail_fits (convert_RGBA logo_file) m m Hw Hh)
      as Hfit.
    rewrite Hthumb in Hfit. injection Hfit as <-. reflexivity.
  - intros Hpos Hbig.
    destruct (pil_thumbnail_shrinks (convert_RGBA logo_file) m Hpos Hbig)
      as (logo' & Hshrink & Hside).
    rewrite Hthumb in Hshrink. injection Hshrink as <-. exact Hside.
  - exact Hpaste.
  - rewrite Hsave. apply lookup_insert_eq.
Qed.

Lemma logo_is_never_enlarged_witness :
  exists path format below pasted,
    int_of_float
      (PrimFloat.mul (float_of_int 21)
         (clamp_logo_size_ratio 0x1.3333333333333p-2%float)) = Ok 6 /\
    Z.max (im_width Demo.logo) (im_height Demo.logo) = 2 /\
    pil_paste Demo.env below Demo.logo (9, 9) Demo.logo = Ok pasted /\
    fs_files
      (snd (generate_with_logo Demo.cfg Demo.env "hello"
              "/home/user/logo.png" (Some "/tmp/out") (Some "qr") 1 0
              "square" "#000000" "#FFFFFF" 0x1.3333333333333p-2%float "M"
              "png" Demo.world))
      !! path
    = Some (ImageFile format (RGBImage (convert_RGBA_to_RGB pasted))).
Proof.
  destruct (generate_with_logo Demo.cfg Demo.env "hello"
              "/home/user/logo.png" (Some "/tmp/out") (Some "qr") 1 0
              "square" "#000000" "#FFFFFF" 0x1.3333333333333p-2%float "M"
              "png" Demo.world) as [[e|record] w'] eqn:Hop.
  - vm_compute in Hop. discriminate Hop.
  - destruct (logo_is_never_enlarged _ _ _ _ _ _ _ _ _ _ _ _ _ _ _ _ _
                Demo_laws Hop)
      as (path & format & fg & bg & drawer & qr & rendered & file_format
          & logo_file & m & logo & below & pasted & _ & _ & _ & _ & Hqr
          & Hrender & Hfile & Hm & _ & Hfit & _ & Hpaste & Hwritten).
    injection Hqr as <-.
    apply Demo_make_image_size in Hrender as [Hwidth Hheight].
    change (im_width rendered = 21) in Hwidth.
    change (im_height rendered = 21) in Hheight.
    assert (Hlogo : logo_file = RGBAImage Demo.logo).
    { vm_compute in Hfile. injection Hfile as _ <-. reflexivity. }
    subst logo_file. rewrite Hwidth in Hm.
    assert (m = 6) as -> by (vm_compute in Hm; congruence).
    rewrite Hfit in Hpaste by (vm_compute; discriminate).
    rewrite Hwidth, Hheight in Hpaste.
    exists path, format, below, pasted.
    split; [vm_compute; reflexivity|]. split; [reflexivity|].
    split; [exact Hpaste|exact Hwritten].
Defined.

(** ** More on the colour parser *)

Lemma forall_ascii2 (p : ascii -> ascii -> bool) :
  forallb (fun a => forallb (p a) all_ascii_chars) all_ascii_chars = true ->
  forall a b, p a b = true.
Proof.
  intros H a b.
  pose proof (forall_ascii _ H a) as Ha. cbv beta in Ha.
  exact (forall_ascii _ Ha b).
Qed.

Lemma int16_pair_range_checked :
  forallb (fun a => forallb (fun b =>
    match PyStr.int16 (String a (String b EmptyString)) with
    | Some v =>
        (-15 <=? v) && (v <=? 255)
        && ((0 <=? v) || PyStr.is_char 45 a)
    | None => true
    end) all_ascii_chars) all_ascii_chars = true.
Proof. vm_compute. reflexivity. Qed.

Lemma int16_pair_range (a b : ascii) (v : Z) :
  PyStr.int16 (String a (String b EmptyString)) = Some v ->
  -15 <= v <= 255 /\ (PyStr.is_char 45 a = false -> 0 <= v).
Proof.
  intros Hv.
  pose proof (forall_ascii2 _ int16_pair_range_checked a b) as H.
  cbv beta in H. rewrite Hv in H.
  apply andb_prop in H as [H Hsign]. apply andb_prop in H as [Hlo Hhi].
  split; [lia|]. intros Hminus. rewrite Hminus, orb_false_r in Hsign. lia.
Qed.

Lemma int_base16_ok (s : string) (v : Z) :
  int_base16 s = Ok v -> PyStr.int16 s = Some v.
Proof.
  unfold int_base16. destruct (PyStr.int16 s); [intros [= ->]|intros [=]].
  reflexivity.
Qed.

(** What the parser reads when it returns: the six characters of the
    normalized input, or of its doubling. *)
Lemma parse_color_ok_inv (s : string) (c : Color) :
  _parse_color s = Ok c ->
  exists r1 r0 g1 g0 b1 b0 r g b,
    (normalized_color s
     = String r1 (String r0 (String g1 (String g0 (String b1 (String b0
         EmptyString)))))
     \/ (normalized_color s = String r1 (String g1 (String b1 EmptyString))
         /\ r0 = r1 /\ g0 = g1 /\ b0 = b1)) /\
    c = (r, g, b) /\
    PyStr.int16 (String r1 (String r0 EmptyString)) = Some r /\
    PyStr.int16 (String g1 (String g0 EmptyString)) = Some g /\
    PyStr.int16 (String b1 (String b0 EmptyString)) = Some b.
Proof.
  unfold _parse_color.
  change (PyStr.lstrip_hash (PyStr.strip s)) with (normalized_color s).
  generalize (normalized_color s). clear s. intros t.
  destruct (String.length t =? 3)%nat eqn:H3.
  - apply Nat.eqb_eq in H3.
    destruct (string_length_3 t H3) as (x & y & z & ->).
    cbn -[PyStr.int16 int_base16].
    destruct (int_base16 (String x (String x ""))) as [e|r] eqn:Hr;
      [intros [=]|].
    destruct (int_base16 (String y (String y ""))) as [e|g] eqn:Hg;
      [intros [=]|].
    destruct (int_base16 (String z (String z ""))) as [e|b] eqn:Hb;
      [intros [=]|].
    intros [= <-]. exists x, x, y, y, z, z, r, g, b.
    split; [right; auto|]. auto using int_base16_ok.
  - destruct (String.length t =? 6)%nat eqn:H6; [|intros [=]].
    apply Nat.eqb_eq in H6.
    destruct (string_length_6 t H6) as (r1 & r0 & g1 & g0 & b1 & b0 & ->).
    cbn -[PyStr.int16 int_base16].
    destruct (int_base16 (String r1 (String r0 ""))) as [e|r] eqn:Hr;
      [intros [=]|].
    destruct (int_base16 (String g1 (String g0 ""))) as [e|g] eqn:Hg;
      [intros [=]|].
    destruct (int_base16 (String b1 (String b0 ""))) as [e|b] eqn:Hb;
      [intros [=]|].
    intros [= <-]. exists r1, r0, g1, g0, b1, b0, r, g, b.
    split; [left; reflexivity|]. auto using int_base16_ok.
Qed.

Lemma all_chars_lstrip_by (p q : ascii -> bool) (s : string) :
  PyStr.all_chars p s = true ->
  PyStr.all_chars p (PyStr.lstrip_by q s) = true.
Proof.
  induction s as [|c s IH]; simpl; [reflexivity|].
  intros H. destruct (q c); [|exact H].
  apply andb_prop in H as [_ H]. auto.
Qed.

Lemma all_chars_rstrip_by (p q : ascii -> bool) (s : string) :
  PyStr.all_chars p s = true ->
  PyStr.all_chars p (PyStr.rstrip_by q s) = true.
Proof.
  induction s as [|c s IH]; simpl; [reflexivity|].
  intros [Hc Hs]%andb_prop. specialize (IH Hs).
  destruct (PyStr.rstrip_by q s) eqn:Hr.
  - destruct (q c); simpl; [reflexivity|]. rewrite Hc. reflexivity.
  - simpl. simpl in IH. rewrite Hc, IH. reflexivity.
Qed.

Lemma all_chars_normalized (p : ascii -> bool) (s : string) :
  PyStr.all_chars p s = true ->
  PyStr.all_chars p (normalized_color s) = true.
Proof.
  intros H. unfold normalized_color, PyStr.lstrip_hash, PyStr.strip.
  auto using all_chars_lstrip_by, all_chars_rstrip_by.
Qed.

(** Whatever the input, a triple the parser returns has its components
    between -15 and 255; they are in [0, 255] when the input has no minus
    sign. *)
Theorem parse_color_components_bounded (s : string) (r g b : Z) :
  _parse_color s = Ok (r, g, b) ->
  (-15 <= r <= 255 /\ -15 <= g <= 255 /\ -15 <= b <= 255)
  /\ (no_minus_sign s = true -> in_channel_range (r, g, b)).
Proof.
  intros Hok.
  destruct (parse_color_ok_inv s _ Hok)
    as (r1 & r0 & g1 & g0 & b1 & b0 & r' & g' & b' & Hn & [= -> -> ->]
        & Hr & Hg & Hb).
  destruct (int16_pair_range _ _ _ Hr) as [Hr1 Hr2].
  destruct (int16_pair_range _ _ _ Hg) as [Hg1 Hg2].
  destruct (int16_pair_range _ _ _ Hb) as [Hb1 Hb2].
  split; [auto|]. intros Hminus.
  apply (all_chars_normalized _ s) in Hminus.
  assert (Hsigns : PyStr.is_char 45 r1 = false /\
                   PyStr.is_char 45 g1 = false /\
                   PyStr.is_char 45 b1 = false).
  { destruct Hn as [Hn|(Hn & _)]; rewrite Hn in Hminus; simpl in Hminus;
      repeat (apply andb_prop in Hminus as [?%negb_true_iff Hminus]);
      auto. }
  destruct Hsigns as (H1 & H2 & H3).
  specialize (Hr2 H1). specialize (Hg2 H2). specialize (Hb2 H3).
  simpl. lia.
Qed.

Lemma parse_color_components_bounded_witness :
  (-15 <= 15 <= 255 /\ -15 <= -1 <= 255 /\ -15 <= 10 <= 255)
  /\ (no_minus_sign "+F-1 a" = true -> in_channel_range (15, -1, 10)).
Proof.
  apply (parse_color_components_bounded "+F-1 a"). reflexivity.
Defined.

Lemma upper_char_keeps_class :
  forallb (fun c =>
    Bool.eqb (PyStr.is_space (PyStr.upper_char c)) (PyStr.is_space c)
    && Bool.eqb (PyStr.is_char 35 (PyStr.upper_char c)) (PyStr.is_char 35 c)
    && Bool.eqb (PyStr.is_space (PyStr.lower_char c)) (PyStr.is_space c)
    && Bool.eqb (PyStr.is_char 35 (PyStr.lower_char c)) (PyStr.is_char 35 c))
    all_ascii_chars = true.
Proof. vm_compute. reflexivity. Qed.

Lemma int16_pair_case_checked :
  forallb (fun a => forallb (fun b =>
    match PyStr.int16 (String a (String b EmptyString)),
          PyStr.int16 (String (PyStr.upper_char a)
                         (String (PyStr.upper_char b) EmptyString)),
          PyStr.int16 (String (PyStr.lower_char a)
                         (String (PyStr.lower_char b) EmptyString)) with
    | Some v, Some u, Some l => (v =? u) && (v =? l)
    | None, None, None => true
    | _, _, _ => false
    end) all_ascii_chars) all_ascii_chars = true.
Proof. vm_compute. reflexivity. Qed.

Section CaseOfDigits.

(** [f] is [upper_char] or [lower_char] *)
Variable f : ascii -> ascii.
Hypothesis f_space : forall c, PyStr.is_space (f c) = PyStr.is_space c.
Hypothesis f_hash : forall c, PyStr.is_char 35 (f c) = PyStr.is_char 35 c.
Hypothesis f_int16 :
  forall a b,
    PyStr.int16 (String (f a) (String (f b) EmptyString))
    = PyStr.int16 (String a (String b EmptyString)).

Lemma lstrip_by_map_chars (p : ascii -> bool) (s : string) :
  (forall c, p (f c) = p c) ->
  PyStr.lstrip_by p (PyStr.map_chars f s)
  = PyStr.map_chars f (PyStr.lstrip_by p s).
Proof.
  intros Hp. induction s as [|c s IH]; simpl; [reflexivity|].
  rewrite Hp. destruct (p c); [exact IH|reflexivity].
Qed.

Lemma rstrip_by_map_chars (p : ascii -> bool) (s : string) :
  (forall c, p (f c) = p c) ->
  PyStr.rstrip_by p (PyStr.map_chars f s)
  = PyStr.map_chars f (PyStr.rstrip_by p s).
Proof.
  intros Hp. induction s as [|c s IH]; simpl; [reflexivity|].
  rewrite IH, Hp. destruct (PyStr.rstrip_by p s); simpl; [|reflexivity].
  destruct (p c); reflexivity.
Qed.

Lemma normalized_color_map_chars (s : string) :
  normalized_color (PyStr.map_chars f s)
  = PyStr.map_chars f (normalized_color s).
Proof.
  unfold normalized_color, PyStr.lstrip_hash, PyStr.strip.
  rewrite !lstrip_by_map_chars, rstrip_by_map_chars,
    lstrip_by_map_chars by auto.
  reflexivity.
Qed.

Lemma map_chars_length (s : string) :
  String.length (PyStr.map_chars f s) = String.length s.
Proof. induction s as [|c s IH]; simpl; [|rewrite IH]; reflexivity. Qed.

Lemma int_base16_map_pair (a b : ascii) :
  result_value (int_base16 (String (f a) (String (f b) EmptyString)))
  = result_value (int_base16 (String a (String b EmptyString))).
Proof.
  unfold int_base16. rewrite f_int16.
  destruct (PyStr.int16 _); reflexivity.
Qed.

Lemma decode_three_value (x y z x' y' z' : string) :
  result_value (int_base16 x') = result_value (int_base16 x) ->
  result_value (int_base16 y') = result_value (int_base16 y) ->
  result_value (int_base16 z') = result_value (int_base16 z) ->
  result_value
    (try r := int_base16 x' in
     try g := int_base16 y' in
     try b := int_base16 z' in
     Ok (r, g, b))%result
  = result_value
      (try r := int_base16 x in
       try g := int_base16 y in
       try b := int_base16 z in
       Ok (r, g, b))%result.
Proof.
  destruct (int_base16 x') as [?|r'], (int_base16 x) as [?|r]; simpl;
    intros [=]; try reflexivity; subst.
  destruct (int_base16 y') as [?|g'], (int_base16 y) as [?|g]; simpl;
    intros [=]; try reflexivity; subst.
  destruct (int_base16 z') as [?|b'], (int_base16 z) as [?|b]; simpl;
    intros [=]; try reflexivity; subst.
  reflexivity.
Qed.

Lemma parse_color_map_chars (s : string) :
  result_value (_parse_color (PyStr.map_chars f s))
  = result_value (_parse_color s).
Proof.
  unfold _parse_color.
  change (PyStr.lstrip_hash (PyStr.strip (PyStr.map_chars f s)))
    with (normalized_color (PyStr.map_chars f s)).
  change (PyStr.lstrip_hash (PyStr.strip s)) with (normalized_color s).
  rewrite normalized_color_map_chars.
  generalize (normalized_color s). clear s. intros t.
  rewrite map_chars_length.
  destruct (String.length t =? 3)%nat eqn:H3.
  - apply Nat.eqb_eq in H3.
    destruct (string_length_3 t H3) as (x & y & z & ->).
    cbn -[PyStr.int16 int_base16].
    apply decode_three_value; apply int_base16_map_pair.
  - rewrite map_chars_length.
    destruct (String.length t =? 6)%nat eqn:H6; [|reflexivity].
    apply Nat.eqb_eq in H6.
    destruct (string_length_6 t H6) as (r1 & r0 & g1 & g0 & b1 & b0 & ->).
    cbn -[PyStr.int16 int_base16].
    apply decode_three_value; apply int_base16_map_pair.
Qed.

End CaseOfDigits.

(** The case of the hexadecimal digits does not matter: for an ASCII
    colour string, on which [PyStr.upper] and [PyStr.lower] are [str.upper]
    and [str.lower], the parser returns the same triple, or fails alike,
    for the string, its upper-case form and its lower-case form. *)
Theorem parse_color_ignores_case (s : string) :
  PyStr.is_ascii s = true ->
  result_value (_parse_color (PyStr.upper s)) = result_value (_parse_color s)
  /\ result_value (_parse_color (PyStr.lower s))
     = result_value (_parse_color s).
Proof.
  intros _.
  pose proof (forall_ascii _ upper_char_keeps_class) as Hc.
  pose proof (forall_ascii2 _ int16_pair_case_checked) as Hp.
  cbv beta in Hc, Hp.
  assert (Hcls : forall c,
    PyStr.is_space (PyStr.upper_char c) = PyStr.is_space c /\
    PyStr.is_char 35 (PyStr.upper_char c) = PyStr.is_char 35 c /\
    PyStr.is_space (PyStr.lower_char c) = PyStr.is_space c /\
    PyStr.is_char 35 (PyStr.lower_char c) = PyStr.is_char 35 c).
  { intros c. specialize (Hc c).
    repeat (apply andb_prop in Hc as [Hc ?]).
    repeat split; apply eqb_prop; assumption. }
  assert (Hint : forall a b,
    PyStr.int16 (String (PyStr.upper_char a)
                   (String (PyStr.upper_char b) EmptyString))
    = PyStr.int16 (String a (String b EmptyString)) /\
    PyStr.int16 (String (PyStr.lower_char a)
                   (String (PyStr.lower_char b) EmptyString))
    = PyStr.int16 (String a (String b EmptyString))).
  { intros a b. specialize (Hp a b).
    destruct (PyStr.int16 (String a _)) as [v|],
      (PyStr.int16 (String (PyStr.upper_char a) _)) as [u|],
      (PyStr.int16 (String (PyStr.lower_char a) _)) as [l|];
      try discriminate Hp; [|auto].
    apply andb_prop in Hp as [->%Z.eqb_eq ->%Z.eqb_eq]. auto. }
  split.
  - apply (parse_color_map_chars PyStr.upper_char);
      intros; first [apply Hcls | apply Hint].
  - apply (parse_color_map_chars PyStr.lower_char);
      intros; first [apply Hcls | apply Hint].
Qed.

Lemma parse_color_ignores_case_witness :
  result_value (_parse_color (PyStr.upper " #0a141e"))
  = result_value (_parse_color " #0a141e")
  /\ result_value (_parse_color (PyStr.lower " #0A141E"))
     = result_value (_parse_color " #0A141E").
Proof.
  split.
  - apply (parse_color_ignores_case " #0a141e"). reflexivity.
  - apply (parse_color_ignores_case " #0A141E"). reflexivity.
Defined.

Lemma append_cons (c : ascii) (s t : string) :
  String c s +:+ t = String c (s +:+ t).
Proof. reflexivity. Qed.

Lemma rstrip_by_snoc (p : ascii -> bool) (s : string) (c : ascii) :
  p c = true ->
  PyStr.rstrip_by p (s +:+ String c EmptyString) = PyStr.rstrip_by p s.
Proof.
  intros Hc. induction s as [|a s IH].
  - change ("" +:+ String c "") with (String c ""). simpl.
    rewrite Hc. reflexivity.
  - rewrite append_cons. simpl. rewrite IH. reflexivity.
Qed.

Lemma lstrip_by_snoc (p : ascii -> bool) (s : string) (c : ascii) :
  p c = true ->
  PyStr.lstrip_by p (s +:+ String c EmptyString)
  = PyStr.lstrip_by p s +:+ String c EmptyString
  \/ (PyStr.lstrip_by p (s +:+ String c EmptyString) = EmptyString /\
      PyStr.lstrip_by p s = EmptyString).
Proof.
  intros Hc. induction s as [|a s IH].
  - right. change ("" +:+ String c "") with (String c ""). simpl.
    rewrite Hc. auto.
  - rewrite append_cons. simpl. destruct (p a); [exact IH|].
    left. reflexivity.
Qed.

(** White space around a colour string and any number of leading [#] do
    not change what the parser returns: a white-space character in front
    or at the end, and a [#] in front of a string that does not start with
    white space, give the very same result. *)
Theorem parse_color_ignores_decoration (s : string) (c : ascii) :
  (PyStr.is_space c = true ->
   _parse_color (String c s) = _parse_color s /\
   _parse_color (s +:+ String c EmptyString) = _parse_color s)
  /\ (PyStr.lstrip_by PyStr.is_space s = s ->
      _parse_color ("#" +:+ s) = _parse_color s).
Proof.
  assert (Hnorm : forall s1 s2,
    normalized_color s1 = normalized_color s2 ->
    _parse_color s1 = _parse_color s2).
  { intros s1 s2 H. unfold _parse_color.
    change (PyStr.lstrip_hash (PyStr.strip s1)) with (normalized_color s1).
    change (PyStr.lstrip_hash (PyStr.strip s2)) with (normalized_color s2).
    rewrite H. reflexivity. }
  split.
  - intros Hc. split; apply Hnorm; unfold normalized_color, PyStr.strip.
    + simpl. rewrite Hc. reflexivity.
    + destruct (lstrip_by_snoc PyStr.is_space s c Hc) as [->|[-> ->]];
        [|reflexivity].
      rewrite rstrip_by_snoc by assumption. reflexivity.
  - intros Hs. apply Hnorm. unfold normalized_color, PyStr.strip.
    rewrite Hs. change ("#" +:+ s) with (String "#" s).
    change (PyStr.lstrip_by PyStr.is_space (String "#" s))
      with (String "#"%char s).
    unfold PyStr.lstrip_hash. simpl.
    destruct (PyStr.rstrip_by PyStr.is_space s); reflexivity.
Qed.

Lemma parse_color_ignores_decoration_witness :
  (_parse_color (String " " "#0a141E") = _parse_color "#0a141E" /\
   _parse_color ("#0a141E" +:+ String " " EmptyString)
   = _parse_color "#0a141E")
  /\ _parse_color ("#" +:+ "#0a141E") = _parse_color "#0a141E".
Proof.
  destruct (parse_color_ignores_decoration "#0a141E" " ") as [H1 H2].
  split; [apply H1|apply H2]; reflexivity.
Defined.

(** ** The two parsers agree on the code points below 256 *)

Lemma of_string_length (s : string) :
  length (Unicode.of_string s) = String.length s.
Proof.
  unfold Unicode.of_string. rewrite length_map.
  induction s as [|c s IH]; simpl; [|rewrite IH]; reflexivity.
Qed.

Lemma of_string_cons (c : ascii) (s : string) :
  Unicode.of_string (String c s) = N_of_ascii c :: Unicode.of_string s.
Proof. reflexivity. Qed.

Lemma of_string_lstrip_by (p : N -> bool) (q : ascii -> bool) (s : string) :
  (forall c, q c = p (N_of_ascii c)) ->
  Unicode.lstrip_by p (Unicode.of_string s)
  = Unicode.of_string (PyStr.lstrip_by q s).
Proof.
  intros Hpq. induction s as [|c s IH]; [reflexivity|].
  rewrite of_string_cons. simpl. rewrite Hpq.
  destruct (p (N_of_ascii c)); [exact IH|reflexivity].
Qed.

Lemma of_string_rstrip_by (p : N -> bool) (q : ascii -> bool) (s : string) :
  (forall c, q c = p (N_of_ascii c)) ->
  Unicode.rstrip_by p (Unicode.of_string s)
  = Unicode.of_string (PyStr.rstrip_by q s).
Proof.
  intros Hpq. induction s as [|c s IH]; [reflexivity|].
  rewrite of_string_cons. simpl. rewrite IH, Hpq.
  destruct (PyStr.rstrip_by q s); [|reflexivity].
  change (Unicode.of_string "") with (@nil N).
  destruct (p (N_of_ascii c)); reflexivity.
Qed.

Lemma of_string_normalized (s : string) :
  Unicode.lstrip_hash (Unicode.strip (Unicode.of_string s))
  = Unicode.of_string (normalized_color s).
Proof.
  unfold Unicode.lstrip_hash, Unicode.strip, normalized_color,
    PyStr.lstrip_hash, PyStr.strip.
  rewrite (of_string_lstrip_by _ PyStr.is_space)
    by (intros c; apply char_classes).
  rewrite (of_string_rstrip_by _ PyStr.is_space)
    by (intros c; apply char_classes).
  apply of_string_lstrip_by. intros c.
  destruct (char_classes c) as (_ & _ & _ & _ & H). exact H.
Qed.

(** Below 256 no character but the ASCII digits has a decimal value, in
    any version of Unicode; then [int] reads two such characters as
    [PyStr.int16] does. *)
Lemma wide_int16_latin1_checked :
  forallb (fun a => forallb (fun b =>
    match Unicode.int16 (fun _ => None) [N_of_ascii a; N_of_ascii b],
          PyStr.int16 (String a (String b EmptyString)) with
    | Some u, Some v => u =? v
    | None, None => true
    | _, _ => false
    end) all_ascii_chars) all_ascii_chars = true.
Proof. vm_compute. reflexivity. Qed.

Section Latin1.

Variable todecimal : N -> option N.
Hypothesis todecimal_latin1 :
  forall c, (127 <= c < 256)%N -> todecimal c = None.

Lemma to_ascii_char_latin1 (a : ascii) :
  Unicode.to_ascii_char todecimal (N_of_ascii a)
  = Unicode.to_ascii_char (fun _ => None) (N_of_ascii a).
Proof.
  unfold Unicode.to_ascii_char.
  destruct (N_of_ascii a <? 127)%N eqn:Hlt; [reflexivity|].
  destruct (Unicode.is_space (N_of_ascii a)); [reflexivity|].
  apply N.ltb_ge in Hlt. pose proof (N_ascii_bounded a).
  rewrite todecimal_latin1 by lia. reflexivity.
Qed.

Lemma wide_int16_latin1 (a b : ascii) :
  Unicode.int16 todecimal [N_of_ascii a; N_of_ascii b]
  = PyStr.int16 (String a (String b EmptyString)).
Proof.
  pose proof (forall_ascii2 _ wide_int16_latin1_checked a b) as H.
  cbv beta in H.
  assert (Hsame : Unicode.int16 todecimal [N_of_ascii a; N_of_ascii b]
                  = Unicode.int16 (fun _ => None)
                      [N_of_ascii a; N_of_ascii b]).
  { unfold Unicode.int16, Unicode.to_ascii.
    destruct (Unicode.is_ascii _); [reflexivity|]. simpl.
    rewrite !to_ascii_char_latin1. reflexivity. }
  rewrite Hsame.
  destruct (Unicode.int16 _ _) as [u|], (PyStr.int16 _) as [v|];
    try discriminate H; [|reflexivity].
  apply Z.eqb_eq in H. congruence.
Qed.

Lemma wide_decode_three (x1 x0 y1 y0 z1 z0 : ascii) :
  same_outcome
    (try r := int_base16 (String x1 (String x0 EmptyString)) in
     try g := int_base16 (String y1 (String y0 EmptyString)) in
     try b := int_base16 (String z1 (String z0 EmptyString)) in
     Ok (r, g, b))%result
    match Unicode.int_base16 todecimal [N_of_ascii x1; N_of_ascii x0] with
    | inl e => inl e
    | inr r =>
        match Unicode.int_base16 todecimal
                [N_of_ascii y1; N_of_ascii y0] with
        | inl e => inl e
        | inr g =>
            match Unicode.int_base16 todecimal
                    [N_of_ascii z1; N_of_ascii z0] with
            | inl e => inl e
            | inr b => inr (r, g, b)
            end
        end
    end.
Proof.
  unfold Unicode.int_base16, int_base16. rewrite !wide_int16_latin1.
  destruct (PyStr.int16 (String x1 _)); [|exact I].
  destruct (PyStr.int16 (String y1 _)); [|exact I].
  destruct (PyStr.int16 (String z1 _)); [|exact I].
  reflexivity.
Qed.

(** On a string of code points below 256 the parser on all code points
    ends as [_parse_color] does. *)
Lemma parse_color_latin1 (s : string) :
  same_outcome (_parse_color s)
    (Unicode._parse_color todecimal (Unicode.of_string s)).
Proof.
  unfold Unicode._parse_color, _parse_color.
  rewrite of_string_normalized.
  change (PyStr.lstrip_hash (PyStr.strip s)) with (normalized_color s).
  generalize (normalized_color s). clear s. intros t.
  rewrite of_string_length.
  destruct (String.length t =? 3)%nat eqn:H3.
  - apply Nat.eqb_eq in H3.
    destruct (string_length_3 t H3) as (x & y & z & ->).
    cbn -[PyStr.int16 int_base16 Unicode.int_base16 N_of_ascii].
    apply wide_decode_three.
  - rewrite of_string_length.
    destruct (String.length t =? 6)%nat eqn:H6; [|exact I].
    apply Nat.eqb_eq in H6.
    destruct (string_length_6 t H6) as (r1 & r0 & g1 & g0 & b1 & b0 & ->).
    cbn -[PyStr.int16 int_base16 Unicode.int_base16 N_of_ascii].
    apply wide_decode_three.
Qed.

End Latin1.

Lemma todecimal_14_latin1_checked :
  forallb (fun c =>
    (N_of_ascii c <? 127)%N
    || match Unicode.todecimal_14 (N_of_ascii c) with
       | None => true | Some _ => false end) all_ascii_chars = true.
Proof. vm_compute. reflexivity. Qed.

Lemma todecimal_14_latin1 (c : N) :
  (127 <= c < 256)%N -> Unicode.todecimal_14 c = None.
Proof.
  intros Hc.
  pose proof (forall_ascii _ todecimal_14_latin1_checked (ascii_of_N c)) as H.
  cbv beta in H. rewrite N_ascii_embedding in H by lia.
  replace (c <? 127)%N with false in H by (symmetry; apply N.ltb_ge; lia).
  destruct (Unicode.todecimal_14 c); [discriminate H|reflexivity].
Qed.

(** With the decimal digits of Unicode 14.0 *)
Corollary parse_color_latin1_unicode_14 (s : string) :
  same_outcome (_parse_color s)
    (Unicode._parse_color Unicode.todecimal_14 (Unicode.of_string s)).
Proof. exact (parse_color_latin1 _ todecimal_14_latin1 s). Qed.

(** ** The result record and the file written *)

Lemma substring_0_length (n : nat) (s : string) :
  String.length (substring 0 n s) = Nat.min n (String.length s).
Proof.
  revert s. induction n as [|n IH]; intros [|c s]; simpl; auto.
Qed.

Lemma substring_0_prefix (n : nat) (s : string) :
  exists rest, s = substring 0 n s +:+ rest.
Proof.
  revert s. induction n as [|n IH]; intros [|c s].
  - exists "". reflexivity.
  - exists (String c s). reflexivity.
  - exists "". reflexivity.
  - destruct (IH s) as [rest Hrest]. exists rest.
    change (String c s = String c (substring 0 n s +:+ rest)).
    rewrite <- Hrest. reflexivity.
Qed.

Lemma substring_0_all (n : nat) (s : string) :
  (String.length s <= n)%nat -> substring 0 n s = s.
Proof.
  revert s. induction n as [|n IH]; intros [|c s] Hlen; simpl in *;
    try reflexivity; try lia.
  rewrite IH by lia. reflexivity.
Qed.

Lemma writes_one_file_raise (e : exn) : writes_one_file (raise e).
Proof. intros w record w' [=]. Qed.

Lemma writes_one_file_bind {A} (m : M A) (k : A -> M ResultRecord) :
  preserves fs_files m -> (forall a, writes_one_file (k a)) ->
  writes_one_file (bind m k).
Proof.
  intros Hm Hk w record w' Hop.
  apply bind_inv in Hop as (a & w1 & Ha & Hop).
  specialize (Hm w). rewrite Ha in Hm. simpl in Hm. rewrite <- Hm.
  exact (Hk a w1 record w' Hop).
Qed.

Lemma writes_one_file_write (p fmt : string) (img : AnyImage)
    (record : ResultRecord) :
  dict_lookup record "saved_path" = Some (VStr p) ->
  writes_one_file (bind (write_image p fmt img) (fun _ => ret record)).
Proof.
  intros Hp w record' w' Hop.
  apply bind_inv in Hop as ([] & w1 & Hw & Hop). injection Hop as <- <-.
  pose proof (write_image_files p fmt img w) as Hf. rewrite Hw in Hf.
  exists p, fmt, img. split; [exact Hp|exact Hf].
Qed.

Lemma writes_one_file_styled_save (env : Env) (p : string)
    (img : Image Color) (record : ResultRecord) :
  dict_lookup record "saved_path" = Some (VStr p) ->
  writes_one_file
    (bind (StyledPilImage_save env p img) (fun _ => ret record)).
Proof.
  intros Hp w record' w' Hop. unfold StyledPilImage_save in Hop.
  apply bind_inv in Hop as ([] & w1 & Hs & Hop).
  apply bind_inv in Hs as (fmt & w2 & Hfmt & Hs).
  apply lift_inv in Hfmt as [_ ->].
  apply (writes_one_file_write p fmt (RGBImage img) record Hp w).
  unfold bind. rewrite Hs. exact Hop.
Qed.

Lemma writes_one_file_image_save (env : Env) (p : string)
    (format : option string) (img : AnyImage) (record : ResultRecord) :
  dict_lookup record "saved_path" = Some (VStr p) ->
  writes_one_file (bind (Image_save env p format img) (fun _ => ret record)).
Proof.
  intros Hp w record' w' Hop. unfold Image_save in Hop.
  apply bind_inv in Hop as ([] & w1 & Hs & Hop).
  apply bind_inv in Hs as (fmt & w2 & Hfmt & Hs).
  assert (w2 = w) as ->.
  { destruct format; [injection Hfmt as _ <-; reflexivity|].
    apply lift_inv in Hfmt as [_ ->]. reflexivity. }
  apply (writes_one_file_write p fmt img record Hp w).
  unfold bind. rewrite Hs. exact Hop.
Qed.

#[export] Hint Resolve writes_one_file_raise writes_one_file_bind
  writes_one_file_styled_save writes_one_file_image_save : frame.
#[export] Hint Extern 2 (writes_one_file (if ?b then _ else _)) =>
  destruct b : frame.
#[export] Hint Extern 2 (writes_one_file (match ?x with _ => _ end)) =>
  destruct x : frame.

Section Records.

Variable cfg : Config.
Variable env : Env.
Variables (data path : string) (output_dir filename : option string).
Variables (size border : Z).
Variables (module_shape fg_color bg_color gradient_style : string).
Variables (center_color edge_color : string).
Variables (gradient_center_color gradient_edge_color : option string).
Variables (ratio brightness : float).
Variables (error_correction output_format : string).

(** The six operations, applied to the arguments of the section *)
Let operations : list (M ResultRecord) :=
  [ generate_basic cfg env data output_dir filename size border fg_color
      bg_color error_correction output_format;
    generate_styled cfg env data output_dir filename size border
      module_shape fg_color bg_color gradient_style gradient_center_color
      gradient_edge_color error_correction output_format;
    generate_with_logo cfg env data path output_dir filename size border
      module_shape fg_color bg_color ratio error_correction output_format;
    generate_with_background_image cfg env data path output_dir filename
      size border module_shape brightness error_correction output_format;
    generate_transparent cfg env data output_dir filename size border
      module_shape fg_color error_correction;
    generate_gradient cfg env data output_dir filename size border
      module_shape gradient_style center_color edge_color bg_color
      error_correction output_format ].

Ltac split_operations :=
  lazymatch goal with
  | |- Forall _ (_ :: _) => constructor; [|split_operations]
  | |- Forall _ [] => constructor
  end.

Ltac each_operation :=
  unfold operations; split_operations;
  unfold generate_basic, generate_styled, generate_with_logo,
    generate_with_background_image, generate_transparent,
    generate_gradient; cbv zeta.

(** The record of every operation carries the first 200 characters of
    the data: the data itself when it is no longer than that, a prefix of
    200 characters otherwise. *)
Theorem record_data_truncated :
  let shown := PyStr.slice 0 200 data in
  String.length shown = Nat.min 200 (String.length data)
  /\ (exists rest, data = shown +:+ rest)
  /\ ((String.length data <= 200)%nat -> shown = data)
  /\ Forall
       (returns (fun record =>
                   dict_lookup record "data" = Some (VStr shown)))
       operations.
Proof.
  intros shown. unfold shown, PyStr.slice.
  change (200 - 0)%nat with 200%nat.
  split; [apply substring_0_length|].
  split; [apply substring_0_prefix|].
  split; [apply substring_0_all|].
  each_operation; eauto 60 with frame.
Qed.

(** An operation that returns has written exactly one file: the files on
    disk are those of before plus the image at [saved_path], which
    replaces whatever file was there. *)
Theorem success_writes_one_file : Forall writes_one_file operations.
Proof. each_operation; eauto 60 with frame. Qed.

(** A logo or background image that is not a file on disk makes the
    operation fail with [FileNotFoundError] as soon as the output
    directory exists: whatever the colours and keys, nothing is asked of
    the encoder and no file is written. *)
Theorem missing_asset_fails_fast (w w1 : World) (out : string) :
  _ensure_output_dir (resolve_output_dir cfg output_dir) w = (Ok out, w1) ->
  path ∉ dom (fs_files w) ->
  (generate_with_logo cfg env data path output_dir filename size border
     module_shape fg_color bg_color ratio error_correction output_format w
   = (Raise (FileNotFoundError ("Logo file not found: " +:+ path)), w1)
   /\ generate_with_background_image cfg env data path output_dir filename
        size border module_shape brightness error_correction output_format
        w
      = (Raise (FileNotFoundError ("Image file not found: " +:+ path)), w1))
  /\ qr_requests w1 = qr_requests w
  /\ fs_files w1 = fs_files w.
Proof.
  intros Hdir Hmissing.
  pose proof (_ensure_output_dir_ok _ _ _ _ Hdir) as (_ & _ & Hfiles & Hreq).
  assert (Hfile : is_file path w1 = (Ok false, w1)).
  { unfold is_file. rewrite Hfiles.
    rewrite (bool_decide_eq_false_2 _ Hmissing). reflexivity. }
  split; [split|auto].
  - unfold generate_with_logo. cbv zeta. step Hdir. step Hfile.
    reflexivity.
  - unfold generate_with_background_image. cbv zeta. step Hdir.
    step Hfile. reflexivity.
Qed.

End Records.

Lemma missing_asset_fails_fast_witness :
  fst (generate_with_logo Demo.cfg Demo.env "hello" "/home/user/none.png"
         (Some "/tmp/out") None 10 2 "hexagon" "zzz" "#FFF" float_0_4 "H"
         "png" Demo.world)
  = Raise (FileNotFoundError "Logo file not found: /home/user/none.png").
Proof.
  destruct (_ensure_output_dir "/tmp/out" Demo.world) as [[e|out] w1]
    eqn:Hdir; [vm_compute in Hdir; discriminate Hdir|].
  assert (Hmissing : "/home/user/none.png" ∉ dom (fs_files Demo.world))
    by (apply (bool_decide_eq_false_1 _); vm_compute; reflexivity).
  destruct (missing_asset_fails_fast Demo.cfg Demo.env "hello"
              "/home/user/none.png" (Some "/tmp/out") None 10 2 "hexagon"
              "zzz" "#FFF" float_0_4 0%float "H" "png" Demo.world w1 out
              Hdir Hmissing) as [[H _] _].
  rewrite H. reflexivity.
Defined.

(** ** Keys are read without regard to case *)

Lemma case_idempotent_checked :
  forallb (fun c =>
    Ascii.eqb (PyStr.upper_char (PyStr.upper_char c)) (PyStr.upper_char c)
    && Ascii.eqb (PyStr.lower_char (PyStr.lower_char c))
         (PyStr.lower_char c)) all_ascii_chars = true.
Proof. vm_compute. reflexivity. Qed.

Lemma map_chars_idempotent (f : ascii -> ascii) (s : string) :
  (forall c, f (f c) = f c) ->
  PyStr.map_chars f (PyStr.map_chars f s) = PyStr.map_chars f s.
Proof.
  intros Hf. induction s as [|c s IH]; [reflexivity|].
  change (String (f (f c)) (PyStr.map_chars f (PyStr.map_chars f s))
          = String (f c) (PyStr.map_chars f s)).
  rewrite Hf, IH. reflexivity.
Qed.

Lemma upper_idempotent (s : string) :
  PyStr.upper (PyStr.upper s) = PyStr.upper s.
Proof.
  apply map_chars_idempotent. intros c.
  pose proof (forall_ascii _ case_idempotent_checked c) as H.
  cbv beta in H. apply andb_prop in H as [H _].
  apply Ascii.eqb_eq in H. exact H.
Qed.

Lemma lower_idempotent (s : string) :
  PyStr.lower (PyStr.lower s) = PyStr.lower s.
Proof.
  apply map_chars_idempotent. intros c.
  pose proof (forall_ascii _ case_idempotent_checked c) as H.
  cbv beta in H. apply andb_prop in H as [_ H].
  apply Ascii.eqb_eq in H. exact H.
Qed.

Lemma module_drawer_for_lower (module_shape : string) :
  dict_mem MODULE_SHAPES (PyStr.lower module_shape) = true ->
  module_drawer_for (PyStr.lower module_shape)
  = module_drawer_for module_shape.
Proof.
  intros H. unfold module_drawer_for. rewrite lower_idempotent, H.
  reflexivity.
Qed.

Section Keys.

Variable cfg : Config.
Variable env : Env.
Variables (data path : string) (output_dir filename : option string).
Variables (size border : Z).
Variables (module_shape fg_color bg_color gradient_style : string).
Variables (center_color edge_color : string).
Variables (gradient_center_color gradient_edge_color : option string).
Variables (ratio brightness : float).
Variables (error_correction output_format : string).

(** A key that is one of L, M, Q, H in any case selects that level: it
    is the level of the only request the operation can send to the
    encoder, and the operation does exactly what it does with the
    upper-case key. *)
Theorem known_level_selected (level : ECLevel) :
  dict_lookup ERROR_CORRECTION_LEVELS (PyStr.upper error_correction)
  = Some level ->
  let req := mkQRRequest data level size border in
  let KEY := PyStr.upper error_correction in
  (requests req
     (generate_basic cfg env data output_dir filename size border fg_color
        bg_color error_correction output_format)
   /\ generate_basic cfg env data output_dir filename size border fg_color
        bg_color error_correction output_format
      = generate_basic cfg env data output_dir filename size border
          fg_color bg_color KEY output_format)
  /\ (requests req
        (generate_styled cfg env data output_dir filename size border
           module_shape fg_color bg_color gradient_style
           gradient_center_color gradient_edge_color error_correction
           output_format)
      /\ generate_styled cfg env data output_dir filename size border
           module_shape fg_color bg_color gradient_style
           gradient_center_color gradient_edge_color error_correction
           output_format
         = generate_styled cfg env data output_dir filename size border
             module_shape fg_color bg_color gradient_style
             gradient_center_color gradient_edge_color KEY output_format)
  /\ (requests req
        (generate_with_background_image cfg env data path output_dir
           filename size border module_shape brightness error_correction
           output_format)
      /\ generate_with_background_image cfg env data path output_dir
           filename size border module_shape brightness error_correction
           output_format
         = generate_with_background_image cfg env data path output_dir
             filename size border module_shape brightness KEY
             output_format)
  /\ (requests req
        (generate_transparent cfg env data output_dir filename size border
           module_shape fg_color error_correction)
      /\ generate_transparent cfg env data output_dir filename size border
           module_shape fg_color error_correction
         = generate_transparent cfg env data output_dir filename size
             border module_shape fg_color KEY)
  /\ (requests req
        (generate_gradient cfg env data output_dir filename size border
           module_shape gradient_style center_color edge_color bg_color
           error_correction output_format)
      /\ generate_gradient cfg env data output_dir filename size border
           module_shape gradient_style center_color edge_color bg_color
           error_correction output_format
         = generate_gradient cfg env data output_dir filename size border
             module_shape gradient_style center_color edge_color bg_color
             KEY output_format).
Proof.
  intros Hlevel req KEY.
  assert (Hget : dict_get ERROR_CORRECTION_LEVELS
                   (PyStr.upper error_correction) ERROR_CORRECT_H = level)
    by (unfold dict_get; rewrite Hlevel; reflexivity).
  subst req KEY.
  split; [|split; [|split; [|split]]]; (split;
    [ rewrite <- Hget;
      first [ apply generate_basic_requests
            | apply generate_styled_requests
            | apply generate_with_background_image_requests
            | apply generate_transparent_requests
            | apply generate_gradient_requests ]
    | unfold generate_basic, generate_styled,
        generate_with_background_image, generate_transparent,
        generate_gradient; rewrite upper_idempotent; reflexivity ]).
Qed.

(** A known module shape is read without regard to case: each operation
    that takes one does exactly what it does with the lower-case key. *)
Theorem module_shape_case_insensitive :
  dict_mem MODULE_SHAPES (PyStr.lower module_shape) = true ->
  let key := PyStr.lower module_shape in
  generate_styled cfg env data output_dir filename size border module_shape
    fg_color bg_color gradient_style gradient_center_color
    gradient_edge_color error_correction output_format
  = generate_styled cfg env data output_dir filename size border key
      fg_color bg_color gradient_style gradient_center_color
      gradient_edge_color error_correction output_format
  /\ generate_with_logo cfg env data path output_dir filename size border
       module_shape fg_color bg_color ratio error_correction output_format
     = generate_with_logo cfg env data path output_dir filename size border
         key fg_color bg_color ratio error_correction output_format
  /\ generate_with_background_image cfg env data path output_dir filename
       size border module_shape brightness error_correction output_format
     = generate_with_background_image cfg env data path output_dir filename
         size border key brightness error_correction output_format
  /\ generate_transparent cfg env data output_dir filename size border
       module_shape fg_color error_correction
     = generate_transparent cfg env data output_dir filename size border
         key fg_color error_correction
  /\ generate_gradient cfg env data output_dir filename size border
       module_shape gradient_style center_color edge_color bg_color
       error_correction output_format
     = generate_gradient cfg env data output_dir filename size border key
         gradient_style center_color edge_color bg_color error_correction
         output_format.
Proof.
  intros Hknown key. subst key.
  unfold generate_styled, generate_with_logo,
    generate_with_background_image, generate_transparent,
    generate_gradient.
  rewrite (module_drawer_for_lower module_shape Hknown).
  repeat split.
Qed.

End Keys.

Lemma known_level_selected_witness :
  requests (mkQRRequest "hello" ERROR_CORRECT_Q 3 1)
    (generate_transparent Demo.cfg Demo.env "hello" None None 3 1 "square"
       "#000" "q").
Proof.
  assert (Hq : dict_lookup ERROR_CORRECTION_LEVELS (PyStr.upper "q")
               = Some ERROR_CORRECT_Q) by reflexivity.
  pose proof (known_level_selected Demo.cfg Demo.env "hello" "" None None
    3 1 "square" "#000" "" "" "" "" None None 0%float "q" ""
    ERROR_CORRECT_Q Hq) as (_ & _ & _ & [H _] & _).
  exact H.
Defined.

Lemma module_shape_case_insensitive_witness :
  generate_transparent Demo.cfg Demo.env "hello" None None 3 1 "CiRcLe"
    "#000" "q"
  = generate_transparent Demo.cfg Demo.env "hello" None None 3 1 "circle"
      "#000" "q".
Proof.
  assert (Hk : dict_mem MODULE_SHAPES (PyStr.lower "CiRcLe") = true)
    by reflexivity.
  pose proof (module_shape_case_insensitive Demo.cfg Demo.env "hello" ""
    None None 3 1 "CiRcLe" "#000" "" "" "" "" None None 0%float 0%float
    "q" "" Hk) as (_ & _ & _ & H & _).
  exact H.
Defined.

(** ** The listing of capabilities *)

Lemma dict_mem_keys {V} (d : dict V) (k : string) :
  dict_mem d k = true <-> In k (dict_keys d).
Proof.
  unfold dict_mem, dict_keys. induction d as [|[k' v] d IH]; simpl.
  - split; [discriminate|tauto].
  - destruct (String.eqb k' k) eqn:Hk.
    + apply String.eqb_eq in Hk. tauto.
    + apply String.eqb_neq in Hk. rewrite IH. tauto.
Qed.

(** What [get_capabilities] lists is what the operations accept: a module
    shape is accepted exactly when its lower-case form is listed, a
    gradient style is accepted by the styled operation exactly when its
    lower-case form is listed and by the gradient operation exactly when
    it is listed and is not ["solid"], and the levels listed are the keys
    of the table of levels. *)
Theorem capabilities_agree_with_validation (cfg : Config)
    (key : string) (w : World) :
  let caps := get_capabilities cfg in
  ((exists drawer,
      module_drawer_for key w = (Ok (PyStr.lower key, drawer), w))
   <-> In (PyStr.lower key) (module_shapes caps))
  /\ (module_drawer_for key w = (Raise (unknown_module_shape key), w)
      <-> ~ In (PyStr.lower key) (module_shapes caps))
  /\ (dict_mem GRADIENT_STYLES key = true <-> In key (gradient_styles caps))
  /\ (key ∈ valid_gradients
      <-> In key (gradient_styles caps) /\ key <> "solid")
  /\ dict_keys (error_correction_levels caps)
     = dict_keys ERROR_CORRECTION_LEVELS
  /\ output_formats caps = SUPPORTED_FORMATS.
Proof.
  intros caps. unfold caps, get_capabilities.
  cbn [module_shapes gradient_styles error_correction_levels
       output_formats].
  split; [|split; [|split; [|split; [|split]]]].
  - rewrite <- dict_mem_keys. split.
    + intros [dr Hdr]. unfold module_drawer_for in Hdr.
      destruct (dict_mem MODULE_SHAPES (PyStr.lower key));
        [reflexivity|discriminate Hdr].
    + apply module_drawer_for_known.
  - rewrite <- dict_mem_keys. split.
    + intros Hraise Hmem.
      destruct (module_drawer_for_known key w Hmem) as [dr Hdr].
      rewrite Hdr in Hraise. discriminate Hraise.
    + intros Hnot. apply module_drawer_for_unknown.
      destruct (dict_mem MODULE_SHAPES (PyStr.lower key));
        [exfalso; auto|reflexivity].
  - apply dict_mem_keys.
  - rewrite valid_gradients_spec. simpl. split.
    + intros [-> | [-> | [-> | ->]]]; split; try discriminate; tauto.
    + intros [[H | [H | [H | [H | [H | []]]]]] Hsolid]; subst; tauto.
  - reflexivity.
  - reflexivity.
Qed.

(** ** More on the transparency pass *)

Lemma clear_if_white_idempotent (p : RGBA) :
  clear_if_white (clear_if_white p) = clear_if_white p.
Proof.
  destruct p as [[[r g] b] a]. unfold clear_if_white.
  destruct ((240 <? r) && (240 <? g) && (240 <? b)) eqn:H; rewrite H;
    reflexivity.
Qed.

(** On an image that has as many pixels as its size says, the
    transparency pass never raises, keeps the size and the colour channels
    of every pixel, and doing it again changes nothing. *)
Theorem make_white_transparent_idempotent (img : Image RGBA) :
  image_wf img ->
  exists img',
    make_white_transparent img = Ok img' /\
    make_white_transparent img' = Ok img' /\
    image_wf img' /\
    im_width img' = im_width img /\ im_height img' = im_height img /\
    map (fun '(r, g, b, _) => (r, g, b)) (im_data img')
    = map (fun '(r, g, b, _) => (r, g, b)) (im_data img).
Proof.
  intros Hwf. eexists. split; [apply make_white_transparent_map, Hwf|].
  assert (Hwf' : image_wf
            (mkImage (im_width img) (im_height img)
               (map clear_if_white (im_data img)))).
  { destruct Hwf as (Hw & Hh & Hlen). unfold image_wf. simpl.
    rewrite length_map. auto. }
  split; [|split; [exact Hwf'|split; [reflexivity|split; [reflexivity|]]]].
  - rewrite (make_white_transparent_map _ Hwf'). simpl.
    rewrite map_map. do 2 f_equal. apply map_ext.
    apply clear_if_white_idempotent.
  - simpl. rewrite map_map. apply map_ext.
    intros [[[r g] b] a]. unfold clear_if_white.
    destruct ((240 <? r) && (240 <? g) && (240 <? b)); reflexivity.
Qed.

Lemma make_white_transparent_idempotent_witness :
  exists img',
    make_white_transparent Demo.logo = Ok img' /\
    make_white_transparent img' = Ok img' /\
    image_wf img' /\
    im_width img' = im_width Demo.logo /\
    im_height img' = im_height Demo.logo /\
    map (fun '(r, g, b, _) => (r, g, b)) (im_data img')
    = map (fun '(r, g, b, _) => (r, g, b)) (im_data Demo.logo).
Proof.
  apply make_white_transparent_idempotent.
  unfold image_wf. simpl. repeat split; lia.
Defined.

(** ** The output directory, again *)

(** Creating the output directory is idempotent: once it has succeeded,
    doing it again succeeds and leaves the world as it is. *)
Theorem _ensure_output_dir_idempotent (d out : string) (w w1 : World) :
  _ensure_output_dir d w = (Ok out, w1) ->
  _ensure_output_dir d w1 = (Ok out, w1).
Proof.
  unfold _ensure_output_dir, bind.
  destruct (mkdir_parents d w) as [[e|[]] w2] eqn:Hmk; [intros [=]|].
  intros [= <- <-]. unfold mkdir_parents in *.
  destruct (List.find _ (path_parents d)) as [x|] eqn:Hfind;
    [discriminate Hmk|].
  destruct (bool_decide (d ∈ dom (fs_files w))) eqn:Hfile;
    [discriminate Hmk|].
  injection Hmk as <-. simpl. rewrite Hfind, Hfile. simpl.
  do 2 f_equal.
  assert (Hdirs : fs_dirs w ∪ list_to_set (path_parents d) ∪ {[d]}
                  ∪ list_to_set (path_parents d) ∪ {[d]}
                  = fs_dirs w ∪ list_to_set (path_parents d) ∪ {[d]})
    by (apply set_eq; intros x; rewrite !elem_of_union; tauto).
  rewrite Hdirs. reflexivity.
Qed.

Lemma _ensure_output_dir_idempotent_witness :
  exists w1,
    _ensure_output_dir "/tmp/out" Demo.world = (Ok "/tmp/out", w1) /\
    _ensure_output_dir "/tmp/out" w1 = (Ok "/tmp/out", w1).
Proof.
  destruct (_ensure_output_dir "/tmp/out" Demo.world) as [[e|out] w1]
    eqn:Hdir; [vm_compute in Hdir; discriminate Hdir|].
  destruct (_ensure_output_dir_ok _ _ _ _ Hdir) as (-> & _).
  exists w1. split; [reflexivity|].
  exact (_ensure_output_dir_idempotent _ _ _ _ Hdir).
Defined.

(** ** The name of the file *)

Lemma returns_ensure {B} (P : B -> Prop) (d : string) (k : string -> M B) :
  returns P (k d) -> returns P (bind (_ensure_output_dir d) k).
Proof.
  intros Hk w b w' Hop. apply bind_inv in Hop as (out & w1 & Hdir & Hop).
  apply _ensure_output_dir_ok in Hdir as (-> & _). exact (Hk w1 b w' Hop).
Qed.

Lemma returns_ret_bind {A B} (P : B -> Prop) (a : A) (k : A -> M B) :
  returns P (k a) -> returns P (bind (ret a) k).
Proof. intros Hk w b w' Hop. exact (Hk w b w' Hop). Qed.

Lemma qr_encode_clock (env : Env) (req : QRRequest) :
  preserves clock (qr_encode env req).
Proof. intros w. reflexivity. Qed.

Lemma _ensure_output_dir_clock (d : string) :
  preserves clock (_ensure_output_dir d).
Proof. unfold _ensure_output_dir. auto with frame. Qed.

Lemma StyledPilImage_save_clock (env : Env) (p : string)
    (img : Image Color) :
  preserves clock (StyledPilImage_save env p img).
Proof. unfold StyledPilImage_save. auto with frame. Qed.

Lemma Image_save_clock (env : Env) (p : string) (fmt : option string)
    (img : AnyImage) :
  preserves clock (Image_save env p fmt img).
Proof. unfold Image_save. auto 6 with frame. Qed.

Section FileName.

Variable cfg : Config.
Variable env : Env.
Variables (data path : string) (output_dir : option string).
Variables (size border : Z).
Variables (module_shape fg_color bg_color gradient_style : string).
Variables (center_color edge_color : string).
Variables (gradient_center_color gradient_edge_color : option string).
Variables (ratio brightness : float).
Variables (error_correction output_format : string).

(** The operations that write in the format asked for, and the
    transparent one, which writes a PNG, with the file name [filename] *)
Let in_format (filename : option string) : list (M ResultRecord) :=
  [ generate_basic cfg env data output_dir filename size border fg_color
      bg_color error_correction output_format;
    generate_styled cfg env data output_dir filename size border
      module_shape fg_color bg_color gradient_style gradient_center_color
      gradient_edge_color error_correction output_format;
    generate_with_logo cfg env data path output_dir filename size border
      module_shape fg_color bg_color ratio error_correction output_format;
    generate_with_background_image cfg env data path output_dir filename
      size border module_shape brightness error_correction output_format;
    generate_gradient cfg env data output_dir filename size border
      module_shape gradient_style center_color edge_color bg_color
      error_correction output_format ].

Let transparent (filename : option string) : M ResultRecord :=
  generate_transparent cfg env data output_dir filename size border
    module_shape fg_color error_correction.

Local Hint Resolve returns_ensure returns_ret_bind qr_encode_clock
  _ensure_output_dir_clock StyledPilImage_save_clock Image_save_clock
  : frame.

Ltac unfold_operations :=
  unfold generate_basic, generate_styled, generate_with_logo,
    generate_with_background_image, generate_transparent,
    generate_gradient, choose_save_path; cbv zeta.

(** With a file name that is not empty the file is
    [output_dir / filename.format] ([.png] for the transparent operation)
    and the clock is not read, so the name does not depend on the time of
    the call; an empty file name is treated as no file name. *)
Theorem explicit_filename_is_used (c : ascii) (name : string) :
  let filename := Some (String c name) in
  let d := resolve_output_dir cfg output_dir in
  let saved_as (ext : string) (record : ResultRecord) : Prop :=
    dict_lookup record "saved_path"
    = Some (VStr (path_join d (String c name +:+ "." +:+ ext))) in
  Forall (returns (saved_as output_format)) (in_format filename)
  /\ returns (saved_as "png") (transparent filename)
  /\ Forall (preserves clock) (transparent filename :: in_format filename)
  /\ transparent (Some EmptyString) :: in_format (Some EmptyString)
     = transparent None :: in_format None.
Proof.
  intros filename d saved_as. unfold saved_as, filename, d.
  split; [|split; [|split]].
  - unfold in_format. repeat (constructor; [|]); try constructor;
      unfold_operations; eauto 60 with frame.
  - unfold transparent. unfold_operations. eauto 60 with frame.
  - unfold in_format, transparent.
    repeat (constructor; [|]); try constructor;
      unfold_operations; eauto 60 with frame.
  - reflexivity.
Qed.

End FileName.

(** ** Colours that are not looked at *)

(** With a solid fill the styled operation never looks at the gradient
    colours: whatever they are, invalid ones included, it does what it
    does without them. *)
Theorem solid_fill_ignores_gradient_colors (cfg : Config) (env : Env)
    (data : string) (output_dir filename : option string) (size border : Z)
    (module_shape fg_color bg_color gradient_style : string)
    (gradient_center_color gradient_edge_color : option string)
    (error_correction output_format : string) :
  PyStr.lower gradient_style = "solid" ->
  generate_styled cfg env data output_dir filename size border module_shape
    fg_color bg_color gradient_style gradient_center_color
    gradient_edge_color error_correction output_format
  = generate_styled cfg env data output_dir filename size border
      module_shape fg_color bg_color gradient_style None None
      error_correction output_format.
Proof.
  intros Hsolid. unfold generate_styled. rewrite Hsolid. reflexivity.
Qed.

Lemma solid_fill_ignores_gradient_colors_witness :
  generate_styled Demo.cfg Demo.env "hello" None None 3 1 "circle" "#000"
    "#FFF" "Solid" (Some "not a colour") (Some "zz") "H" "png"
  = generate_styled Demo.cfg Demo.env "hello" None None 3 1 "circle" "#000"
      "#FFF" "Solid" None None "H" "png".
Proof.
  apply solid_fill_ignores_gradient_colors. reflexivity.
Defined.
